(** * Contribution decomposition of kernel surrogate models

    A shallow embedding of [trex/models/linear_model.py] and
    [trex/models/liblinear_util.py]: the binary kernel SVM and kernel
    logistic-regression estimators, their one-vs-rest dispatchers, and the
    text parsers of the external dual solver.

    Conventions of the embedding.
    - Python exceptions are values of [exn]; a call that may raise returns
      [res A].
    - Floating-point numbers are idealised as the elements of a commutative
      ring with a few uninterpreted extra operations ([Scalar]); rounding is
      out of scope.
    - A 2-D array is the list of its rows; a 1-D array is a list.
    - numpy, scipy and scikit-learn primitives are modelled by what their
      documentation says on the shapes the code uses them with. *)

From Stdlib Require Import String Ascii ZArith List Bool Arith Lia Ring.
Import ListNotations.

Set Implicit Arguments.

(** ** Exceptions *)

Inductive exn : Type :=
| AssertionError
| ValueError
| IndexError
| AttributeError
| UnboundLocalError
| TypeError
| ZeroDivisionError
| OSError.

Inductive res (A : Type) : Type :=
| OK (a : A)
| Raise (e : exn).

Arguments OK {A} a.
Arguments Raise {A} e.

Definition bind {A B : Type} (m : res A) (k : A -> res B) : res B :=
  match m with
  | OK a => k a
  | Raise e => Raise e
  end.

Notation "x <- m ;; k" := (bind m (fun x => k))
  (at level 61, m at next level, right associativity).
Notation "' pat <- m ;; k" := (bind m (fun x => match x with pat => k end))
  (at level 61, pat pattern, m at next level, right associativity).

(** [assert b]: raises [AssertionError] when [b] is false. *)
Definition assert (b : bool) : res unit :=
  if b then OK tt else Raise AssertionError.

(** A list comprehension whose body may raise: the first exception wins. *)
Fixpoint mapM {A B : Type} (f : A -> res B) (l : list A) : res (list B) :=
  match l with
  | [] => OK []
  | a :: l' => b <- f a ;; bs <- mapM f l' ;; OK (b :: bs)
  end.

Definition is_ok {A : Type} (m : res A) : bool :=
  match m with OK _ => true | Raise _ => false end.

(** ** Scalars *)

Class Scalar : Type := {
  num : Type;
  zero : num;
  one : num;
  add : num -> num -> num;
  mul : num -> num -> num;
  sub : num -> num -> num;
  opp : num -> num;
  (** IEEE division is total (it yields an infinity or a NaN). *)
  div : num -> num -> num;
  exp : num -> num;
  tanh : num -> num;
  (** [leb a b] is [a <= b]. *)
  leb : num -> num -> bool;
  scalar_ring : ring_theory zero one add mul sub opp (@eq num)
}.

(** Exact integers: an instance on which the model runs. Nothing is assumed
    of [exp] and [tanh], so any function serves. *)
#[export] Instance Z_Scalar : Scalar := {|
  num := Z;
  zero := 0%Z;
  one := 1%Z;
  add := Z.add;
  mul := Z.mul;
  sub := Z.sub;
  opp := Z.opp;
  div := Z.quot;
  exp := Z.pow 2;
  tanh := Z.sgn;
  leb := Z.leb;
  scalar_ring := Zth
|}.

Section Arrays.
Context {Sc : Scalar}.

Definition Vec : Type := list num.
Definition Matrix : Type := list Vec.

(** [np.sum] of a 1-D array. *)
Definition np_sum (v : Vec) : num := fold_right add zero v.

Fixpoint of_nat (n : nat) : num :=
  match n with
  | O => zero
  | S n' => add one (of_nat n')
  end.

(** [M.shape] of a 2-D array given by its rows. *)
Definition ncols (M : Matrix) : nat :=
  match M with
  | [] => 0
  | r :: _ => length r
  end.

Definition shape (M : Matrix) : nat * nat := (length M, ncols M).

(** [a * b] on 1-D arrays, with numpy's broadcasting rule. *)
Definition broadcast_mul (a b : Vec) : res Vec :=
  if length a =? length b then OK (map (fun p => mul (fst p) (snd p)) (combine a b))
  else match a, b with
       | _, [y] => OK (map (fun x => mul x y) a)
       | [x], _ => OK (map (fun y => mul x y) b)
       | _, _ => Raise ValueError
       end.

(** [M * v] for a 2-D [M] and a 1-D [v]: [v] is broadcast over the rows. *)
Definition matrix_times_vec (M : Matrix) (v : Vec) : res Matrix :=
  mapM (fun row => broadcast_mul row v) M.

(** [np.sum(M, axis=1)]. *)
Definition sum_axis1 (M : Matrix) : Vec := map np_sum M.

(** [X[idx]] with a 1-D array of non-negative row indices. *)
Definition take_rows {A : Type} (X : list A) (idx : list nat) : res (list A) :=
  mapM (fun i => match nth_error X i with
                 | Some r => OK r
                 | None => Raise IndexError
                 end) idx.

(** [X[i : i + k]] for [0 <= i] and [0 < k]. *)
Definition row_block {A : Type} (X : list A) (i k : nat) : list A :=
  firstn k (skipn i X).

(** The values of [range(0, n, s)] for a positive step [s]. *)
Definition block_starts (n s : nat) : list nat :=
  map (fun k => k * s) (seq 0 ((n + s - 1) / s)).

(** [range(0, n, step)]. *)
Definition py_range0 (n : nat) (step : Z) : res (list nat) :=
  if (step =? 0)%Z then Raise ValueError
  else if (step <? 0)%Z then OK []
  else OK (block_starts n (Z.to_nat step)).

(** [np.concatenate] of a list of 1-D arrays. *)
Definition np_concatenate {A : Type} (parts : list (list A)) : res (list A) :=
  match parts with
  | [] => Raise ValueError
  | _ => OK (concat parts)
  end.

(** A kernel of the registry fills the similarity matrix entry by entry. *)
Definition pairwise (K : Vec -> Vec -> num) (X1 X2 : Matrix) : Matrix :=
  map (fun x => map (K x) X2) X1.

Definition dot (x y : Vec) : num :=
  np_sum (map (fun p => mul (fst p) (snd p)) (combine x y)).

(** The input check of sklearn's pairwise kernels: an array without rows
    is rejected.  The checks on the widths (both arrays have the same
    number of columns, at least one) are not modelled: a matrix is the
    list of its rows and does not carry a width of its own.  A statement
    that a kernel call returns on a batch therefore carries the width of
    the batch as a hypothesis, [batch_of_training_width]. *)
Definition check_pairwise_arrays (X Y : Matrix) : res unit :=
  match X, Y with
  | [], _ => Raise ValueError
  | _, [] => Raise ValueError
  | _, _ => OK tt
  end.

(** A kernel of the registry with entry function [K]. *)
Definition registry_kernel (K : Vec -> Vec -> num) (X Y : Matrix) : res Matrix :=
  _ <- check_pairwise_arrays X Y ;;
  OK (pairwise K X Y).

(** Modelled from the spec: sklearn's [linear_kernel], "linear: dot
    product, no hyperparameters". *)
Definition linear_kernel : Matrix -> Matrix -> res Matrix := registry_kernel dot.

End Arrays.

(** ** Sparse matrices

    A [scipy.sparse.csr_matrix] is kept row by row: [indptr] only delimits
    the rows inside [data] and [indices]. *)

Section Sparse.
Context {Sc : Scalar}.

Record sparse_row : Type := {
  sr_data : Vec;
  sr_indices : list nat
}.

Record csr_matrix : Type := {
  csr_rows : list sparse_row;
  csr_ncols : nat
}.

(** [csr_matrix((data, indices, [0, len(data)]), shape=(1, n))]; the
    constructor checks that [indices] and [data] have the same size. *)
Definition csr_one_row (data : Vec) (indices : list nat) (n : nat) : res csr_matrix :=
  if length indices =? length data
  then OK {| csr_rows := [ {| sr_data := data; sr_indices := indices |} ];
             csr_ncols := n |}
  else Raise ValueError.

(** Entry [c] of a row: duplicates of a column index are summed. *)
Definition row_entry (r : sparse_row) (c : nat) : num :=
  np_sum (map snd (filter (fun p => fst p =? c) (combine (sr_indices r) (sr_data r)))).

Definition row_toarray (n : nat) (r : sparse_row) : Vec :=
  map (row_entry r) (seq 0 n).

(** [m.toarray()]. *)
Definition toarray (m : csr_matrix) : Matrix :=
  map (row_toarray (csr_ncols m)) (csr_rows m).

(** [m.sum()]: the sum of all stored entries. *)
Definition csr_sum (m : csr_matrix) : num :=
  np_sum (map (fun r => np_sum (sr_data r)) (csr_rows m)).

Definition neg_row (r : sparse_row) : sparse_row :=
  {| sr_data := map (fun v => mul v (opp one)) (sr_data r);
     sr_indices := sr_indices r |}.

(** [sps.vstack(blocks)]: needs at least one block, and blocks of one
    width. *)
Definition sps_vstack (blocks : list csr_matrix) : res csr_matrix :=
  match blocks with
  | [] => Raise ValueError
  | b :: bs =>
      if forallb (fun b' => csr_ncols b' =? csr_ncols b) bs
      then OK {| csr_rows := concat (map csr_rows blocks); csr_ncols := csr_ncols b |}
      else Raise ValueError
  end.

End Sparse.

(** ** The [gamma] hyperparameter: a string such as ['scale'], [None], or a
    number. *)

Inductive gamma_param {Sc : Scalar} : Type :=
| GammaStr (s : string)
| GammaNone
| GammaNum (g : num).

(** * [class BinarySVM] *)

Module BinarySVM.
Section WithScalar.
Context {Sc : Scalar}.

(** The constructor arguments. *)
Record params : Type := {
  C : num;
  kernel : string;
  gamma : gamma_param;
  coef0 : num;
  degree : nat;
  kernel_func : Matrix -> Matrix -> res Matrix;
  pred_size : Z;
  random_state : option Z
}.

(** What [sklearn.svm.SVC.fit] hands back, as far as [fit] reads it. *)
Record SVC : Type := {
  dual_coef_ : Matrix;
  support_ : list nat;
  svc_intercept_ : Vec;
  svc_predict : Matrix -> res (list Z);
  svc_decision_function : Matrix -> res Vec
}.

(** A fitted estimator: the constructor arguments and the attributes that
    [fit] sets. *)
Record t : Type := {
  hyper : params;
  X_train_ : Matrix;
  n_features_ : nat;
  model_ : SVC;
  coef_ : Vec;
  coef_indices_ : list nat;
  intercept_ : num
}.

(** The body of the loop of [decision_function] on one block of rows. *)
Definition block_decision (est : t) (block : Matrix) : res Vec :=
  sv <- take_rows (X_train_ est) (coef_indices_ est) ;;
  X_sim <- kernel_func (hyper est) block sv ;;
  prod <- matrix_times_vec X_sim (coef_ est) ;;
  OK (map (fun s => add s (intercept_ est)) (sum_axis1 prod)).

(** [assert X.ndim == 2] holds by the type of [X]. *)
Definition decision_function (est : t) (X : Matrix) : res Vec :=
  starts <- py_range0 (length X) (pred_size (hyper est)) ;;
  decisions <- mapM (fun i =>
      block_decision est (row_block X i (Z.to_nat (pred_size (hyper est))))) starts ;;
  np_concatenate decisions.

Definition predict (est : t) (X : Matrix) : res (list Z) :=
  d <- decision_function est X ;;
  OK (map (fun v => if leb zero v then 1%Z else 0%Z) d).

Definition get_weight (est : t) : res csr_matrix :=
  csr_one_row (coef_ est) (coef_indices_ est) (length (X_train_ est)).

Definition explain (est : t) (x : Matrix) : res csr_matrix :=
  _ <- assert ((length x =? 1) && (ncols x =? ncols (X_train_ est))) ;;
  sv <- take_rows (X_train_ est) (coef_indices_ est) ;;
  x_sim <- kernel_func (hyper est) x sv ;;
  prod <- matrix_times_vec x_sim (coef_ est) ;;
  match prod with
  | [] => Raise IndexError
  | impact :: _ => csr_one_row impact (coef_indices_ est) (length (X_train_ est))
  end.

Section Fit.
(** The solver and numpy's tolerance test are taken as given. *)
Variable SVC_fit : params -> Matrix -> list Z -> res SVC.
Variable allclose : Vec -> Vec -> bool.
Variable allclose_int : list Z -> list Z -> bool.

Definition fit (p : params) (X : Matrix) (y : list Z) (n_check : nat) : res t :=
  m <- SVC_fit p X y ;;
  c <- match dual_coef_ m with [] => Raise IndexError | c :: _ => OK c end ;;
  b <- match svc_intercept_ m with [] => Raise IndexError | b :: _ => OK b end ;;
  let est := {| hyper := p; X_train_ := X; n_features_ := ncols X; model_ := m;
                coef_ := c; coef_indices_ := support_ m; intercept_ := b |} in
  l1 <- svc_predict m (firstn n_check X) ;;
  l2 <- predict est (firstn n_check X) ;;
  _ <- assert (allclose_int l1 l2) ;;
  d1 <- svc_decision_function m (firstn n_check X) ;;
  d2 <- decision_function est (firstn n_check X) ;;
  _ <- assert (allclose d1 d2) ;;
  OK est.
End Fit.

End WithScalar.
End BinarySVM.

(** ** Python strings *)

Module PyStr.

Definition nl : string := String (ascii_of_nat 10) EmptyString.

(** [str.isspace] on the ASCII range. *)
Definition is_space (c : ascii) : bool :=
  let n := nat_of_ascii c in
  ((9 <=? n) && (n <=? 13)) || ((28 <=? n) && (n <=? 32)).

Fixpoint lstrip (s : string) : string :=
  match s with
  | EmptyString => EmptyString
  | String c s' => if is_space c then lstrip s' else s
  end.

Fixpoint rstrip (s : string) : string :=
  match s with
  | EmptyString => EmptyString
  | String c s' =>
      match rstrip s' with
      | EmptyString => if is_space c then EmptyString else String c EmptyString
      | r => String c r
      end
  end.

(** [s.strip()]. *)
Definition strip (s : string) : string := rstrip (lstrip s).

(** [s.startswith(p)]. *)
Definition startswith (s p : string) : bool := String.prefix p s.

(** [s.split(' ')]: cut at every single space, empty pieces kept. *)
Fixpoint split_space (s : string) : list string :=
  match s with
  | EmptyString => [EmptyString]
  | String c s' =>
      if Ascii.eqb c " "%char then EmptyString :: split_space s'
      else match split_space s' with
           | [] => [String c EmptyString]
           | w :: ws => String c w :: ws
           end
  end.

(** [l[i]] for a constant [i >= 0]. *)
Definition item {A : Type} (l : list A) (i : nat) : res A :=
  match nth_error l i with
  | Some a => OK a
  | None => Raise IndexError
  end.

Definition digit_of (c : ascii) : option Z :=
  let n := nat_of_ascii c in
  if (48 <=? n) && (n <=? 57) then Some (Z.of_nat (n - 48)) else None.

Fixpoint digits (acc : Z) (s : string) : option Z :=
  match s with
  | EmptyString => Some acc
  | String c s' =>
      match digit_of c with
      | Some d => digits (10 * acc + d) s'
      | None => None
      end
  end.

(** [int(s)] on decimal literals: surrounding blanks, an optional sign,
    then at least one digit (digit-group underscores are left out). *)
Definition py_int (s : string) : res Z :=
  let body (t : string) : option Z :=
    match t with
    | EmptyString => None
    | _ => digits 0 t
    end in
  let r := match strip s with
           | String "-"%char t => option_map Z.opp (body t)
           | String "+"%char t => body t
           | t => body t
           end in
  match r with
  | Some z => OK z
  | None => Raise ValueError
  end.

(** [l[start : stop]] for [start >= 0]; a negative [stop] counts from the
    end. *)
Definition slice {A : Type} (l : list A) (start : nat) (stop : Z) : list A :=
  let n := Z.of_nat (length l) in
  let stop' := if (stop <? 0)%Z then Z.max 0 (stop + n) else Z.min stop n in
  firstn (Z.to_nat stop' - start) (skipn start l).

End PyStr.

(** ** The outside world of the solver adapter: the file system, the solver
    binaries behind [os.system], and the text forms of numbers. *)

Class Env {Sc : Scalar} : Type := {
  World : Type;
  (** [os.path.exists]. *)
  path_exists : string -> World -> bool;
  (** [f.readlines()] of an existing file. *)
  read_lines : string -> World -> list string;
  (** [shutil.rmtree]. *)
  rmtree : string -> World -> res World;
  (** [os.makedirs]. *)
  makedirs : string -> World -> res World;
  (** [sklearn.datasets.dump_svmlight_file(X, y, f, zero_based=False)]. *)
  dump_svmlight_file : Matrix -> list Z -> string -> World -> res World;
  (** [os.system]: the exit status and the world after the command. *)
  os_system : string -> World -> Z * World;
  (** [os.path.dirname(os.path.realpath(__file__))]. *)
  dir_path : string;
  (** ['{}'.format(C)]. *)
  format_num : num -> string;
  (** [float(s)]; [None] stands for [ValueError]. *)
  py_float : string -> option num
}.

(** * [liblinear_util.py] *)

Module liblinear_util.
Section WithEnv.
Context {Sc : Scalar} {E : Env}.
Import PyStr.
Local Open Scope string_scope.

Definition float (s : string) : res num :=
  match py_float s with
  | Some v => OK v
  | None => Raise ValueError
  end.

Definition create_data_file (X : Matrix) (y : list Z) (data_file : string)
    (w : World) : res World :=
  dump_svmlight_file X y data_file w.

(** [result = os.system(cmd); assert result == 0]. *)
Definition run (cmd : string) (w : World) : res World :=
  let (result, w') := os_system cmd w in
  _ <- assert (result =? 0)%Z ;;
  OK w'.

Definition train_linear_svc (data_file model_file : string) (C : num)
    (w : World) : res World :=
  run (dir_path ++ "/liblinear/train -s 1 -B 0 -c " ++ format_num C ++ " "
         ++ data_file ++ " " ++ model_file ++ " > /dev/null") w.

Definition train_lr (data_file model_file : string) (C : num)
    (w : World) : res World :=
  run (dir_path ++ "/liblinear/train -s 7 -B 0 -c " ++ format_num C ++ " "
         ++ data_file ++ " " ++ model_file ++ " > /dev/null") w.

Definition predict_linear_svc (data_file model_file prediction_file : string)
    (w : World) : res World :=
  run (dir_path ++ "/liblinear/predict -b 0 " ++ data_file ++ " " ++ model_file
         ++ " " ++ prediction_file ++ " > /dev/null") w.

Definition predict_lr (data_file model_file prediction_file : string)
    (w : World) : res World :=
  run (dir_path ++ "/liblinear/predict -b 1 " ++ data_file ++ " " ++ model_file
         ++ " " ++ prediction_file ++ " > /dev/null") w.

(** The locals of [parse_model_file] that outlive one loop iteration;
    [None] in [nr_feature] and [nr_sample] means "not assigned yet". *)
Record locals : Type := {
  nr_feature : option Z;
  nr_sample : option Z;
  alpha : option Vec
}.

Definition read_local (v : option Z) : res Z :=
  match v with
  | Some z => OK z
  | None => Raise UnboundLocalError
  end.

(** One iteration of the loop over [enumerate(lines)]. *)
Definition parse_line (lines : list string) (st : locals) (i : nat)
    (raw : string) : res locals :=
  let line := strip raw in
  if startswith line "solver_type" then
    tok <- item (split_space line) 1 ;;
    _ <- assert (existsb (String.eqb tok) ["L2R_LR_DUAL"; "L2R_L2LOSS_SVC_DUAL"]) ;;
    OK st
  else if startswith line "nr_class" then
    tok <- item (split_space line) 1 ;;
    _ <- assert (String.eqb tok "2") ;;
    OK st
  else if startswith line "label" then
    t1 <- item (split_space line) 1 ;;
    ok <- (if String.eqb t1 "1"
           then t2 <- item (split_space line) 2 ;;
                if String.eqb t2 "0" then OK true
                else t2' <- item (split_space line) 2 ;; OK (String.eqb t2' "-1")
           else OK false) ;;
    _ <- assert ok ;;
    OK st
  else if startswith line "nr_feature" then
    tok <- item (split_space line) 1 ;;
    n <- py_int tok ;;
    OK {| nr_feature := Some n; nr_sample := nr_sample st; alpha := alpha st |}
  else if startswith line "bias" then
    OK st
  else if startswith line "w" then
    n <- read_local (nr_feature st) ;;
    let w := slice lines (i + 1) (Z.of_nat i + n) in
    _ <- mapM (fun x => float (strip x)) w ;;
    OK st
  else if startswith line "nr_sample" then
    tok <- item (split_space line) 1 ;;
    n <- py_int tok ;;
    OK {| nr_feature := nr_feature st; nr_sample := Some n; alpha := alpha st |}
  else if startswith line "alpha" then
    next <- item lines (i + 1) ;;
    a <- mapM float (split_space (strip next)) ;;
    n <- read_local (nr_sample st) ;;
    _ <- assert (Z.of_nat (length a) =? n)%Z ;;
    OK {| nr_feature := nr_feature st; nr_sample := nr_sample st; alpha := Some a |}
  else OK st.

(** The loop, from line number [i] on. *)
Fixpoint parse_loop (lines : list string) (st : locals) (i : nat)
    (rest : list string) : res locals :=
  match rest with
  | [] => OK st
  | raw :: rest' =>
      st' <- parse_line lines st i raw ;;
      parse_loop lines st' (S i) rest'
  end.

(** [parse_model_file] once the lines are read; the result [None] is
    [np.array(None)]. *)
Definition parse_model_lines (lines : list string) : res (option Vec) :=
  st <- parse_loop lines {| nr_feature := None; nr_sample := None; alpha := None |}
          0 lines ;;
  OK (alpha st).

Definition parse_model_file (model_file : string) (w : World) : res (option Vec) :=
  _ <- assert (path_exists model_file w) ;;
  parse_model_lines (read_lines model_file w).

(** [np.where(pred_label == -1, 0, 1)]. *)
Definition minus_to_zero (pred_label : list Z) : list Z :=
  map (fun l => if (l =? -1)%Z then 0%Z else 1%Z) pred_label.

Definition parse_linear_svc_lines (lines : list string) (minus_to_zeros : bool)
    : res (list Z) :=
  pred_label <- mapM (fun p_str => py_int (strip p_str)) lines ;;
  OK (if minus_to_zeros then minus_to_zero pred_label else pred_label).

Definition parse_linear_svc_predictions (prediction_path : string)
    (minus_to_zeros : bool) (w : World) : res (list Z) :=
  _ <- assert (path_exists prediction_path w) ;;
  parse_linear_svc_lines (read_lines prediction_path w) minus_to_zeros.

(** One iteration of the loop of [parse_lr_predictions]: the label and
    the two probabilities of a line. *)
Definition parse_lr_line (p_str : string) : res (Z * (num * num)) :=
  let items := split_space (strip p_str) in
  i0 <- item items 0 ;;
  l <- py_int i0 ;;
  i1 <- item items 1 ;;
  p1 <- float i1 ;;
  i2 <- item items 2 ;;
  p0 <- float i2 ;;
  OK (l, (p1, p0)).

Definition parse_lr_lines (lines : list string) (minus_to_zeros : bool)
    : res (list Z * Matrix) :=
  header <- item lines 0 ;;
  _ <- assert (String.eqb header ("labels 1 -1" ++ nl)
               || String.eqb header ("labels 1 0" ++ nl)) ;;
  rows <- mapM parse_lr_line (skipn 1 lines) ;;
  let pred_label := map fst rows in
  let proba := map (fun r => [snd (snd r); fst (snd r)]) rows in
  OK (if minus_to_zeros then minus_to_zero pred_label else pred_label, proba).

Definition parse_lr_predictions (prediction_path : string)
    (minus_to_zeros : bool) (w : World) : res (list Z * Matrix) :=
  _ <- assert (path_exists prediction_path w) ;;
  parse_lr_lines (read_lines prediction_path w) minus_to_zeros.

(** The functions that the module defines, as Python values. *)
Inductive pyfun : Type :=
| Fn_create_data_file
| Fn_train_linear_svc
| Fn_train_lr
| Fn_predict_linear_svc
| Fn_predict_lr
| Fn_parse_model_file
| Fn_parse_linear_svc_predictions
| Fn_parse_lr_predictions.

(** The module's namespace: one entry per [def]. *)
Definition namespace : list (string * pyfun) :=
  [ ("create_data_file", Fn_create_data_file);
    ("train_linear_svc", Fn_train_linear_svc);
    ("train_lr", Fn_train_lr);
    ("predict_linear_svc", Fn_predict_linear_svc);
    ("predict_lr", Fn_predict_lr);
    ("parse_model_file", Fn_parse_model_file);
    ("parse_linear_svc_predictions", Fn_parse_linear_svc_predictions);
    ("parse_lr_predictions", Fn_parse_lr_predictions) ].

(** [liblinear_util.<name>]. *)
Definition getattr (name : string) : res pyfun :=
  match find (fun e => String.eqb (fst e) name) namespace with
  | Some e => OK (snd e)
  | None => Raise AttributeError
  end.

End WithEnv.
End liblinear_util.

(** ** Helpers shared by the two dispatchers *)

Section Dispatch.
Context {Sc : Scalar}.

(** [l[k]] for a Python integer [k]: a negative [k] counts from the
    end. *)
Definition py_getitem {A : Type} (l : list A) (k : Z) : res A :=
  let n := Z.of_nat (length l) in
  let k' := if (k <? 0)%Z then (k + n)%Z else k in
  if (k' <? 0)%Z then Raise IndexError
  else match nth_error l (Z.to_nat k') with
       | Some a => OK a
       | None => Raise IndexError
       end.

(** [X[[i]]]: the one-row block of row [i]. *)
Definition row_of (X : Matrix) (i : nat) : res Matrix :=
  match nth_error X i with
  | Some r => OK [r]
  | None => Raise IndexError
  end.

(** [y[i]]. *)
Definition label_at (y : list Z) (i : nat) : res Z :=
  match nth_error y i with
  | Some v => OK v
  | None => Raise IndexError
  end.

(** [np.where(y == 0)]: the positions of the zeros of [y], from position
    [i] on. *)
Fixpoint np_where_zero (i : nat) (y : list Z) : list nat :=
  match y with
  | [] => []
  | v :: y' => if (v =? 0)%Z then i :: np_where_zero (S i) y'
               else np_where_zero (S i) y'
  end.

Fixpoint mapi_from {A B : Type} (f : nat -> A -> B) (i : nat) (l : list A) : list B :=
  match l with
  | [] => []
  | a :: l' => f i a :: mapi_from f (S i) l'
  end.

(** [result[idx] *= -1] on the rows of [result]. *)
Definition scale_rows {A : Type} (neg : A -> A) (idx : list nat) (rows : list A)
    : res (list A) :=
  if forallb (fun i => i <? length rows) idx
  then OK (mapi_from (fun i r => if existsb (Nat.eqb i) idx then neg r else r) 0 rows)
  else Raise IndexError.

(** [np.vstack] of 2-D blocks. *)
Definition np_vstack (blocks : list Matrix) : res Matrix :=
  match blocks with
  | [] => Raise ValueError
  | b :: bs =>
      if forallb (fun b' => ncols b' =? ncols b) bs
      then OK (concat blocks)
      else Raise ValueError
  end.

Definition neg_vec (v : Vec) : Vec := map (fun a => mul a (opp one)) v.

(** [np.var] of all entries. *)
Definition np_mean (v : Vec) : num := div (np_sum v) (of_nat (length v)).

Definition np_var (M : Matrix) : num :=
  let flat := concat M in
  let mu := np_mean flat in
  np_mean (map (fun a => mul (sub a mu) (sub a mu)) flat).

Fixpoint power (a : num) (n : nat) : num :=
  match n with
  | O => one
  | S n' => mul a (power a n')
  end.

Definition sqdist (x y : Vec) : num :=
  np_sum (map (fun p => mul (sub (fst p) (snd p)) (sub (fst p) (snd p))) (combine x y)).

(** Modelled from the spec: sklearn's [rbf_kernel],
    "rbf: exp(-gamma * ||x - y||^2)". *)
Definition rbf_kernel (g : num) : Matrix -> Matrix -> res Matrix :=
  registry_kernel (fun x y => exp (opp (mul g (sqdist x y)))).

(** Modelled from the spec: sklearn's [polynomial_kernel],
    "polynomial: (gamma * <x, y> + coef0)^degree". *)
Definition polynomial_kernel (degree : nat) (g coef0 : num)
    : Matrix -> Matrix -> res Matrix :=
  registry_kernel (fun x y => power (add (mul g (dot x y)) coef0) degree).

(** Modelled from the spec: sklearn's [sigmoid_kernel],
    "sigmoid: tanh(gamma * <x, y> + coef0)". *)
Definition sigmoid_kernel (coef0 g : num) : Matrix -> Matrix -> res Matrix :=
  registry_kernel (fun x y => tanh (add (mul g (dot x y)) coef0)).

End Dispatch.

(** * [class SVM]: the one-vs-rest dispatcher over [BinarySVM] *)

Module SVM.
Section WithScalar.
Context {Sc : Scalar}.

Record params : Type := {
  C : num;
  kernel : string;
  gamma : gamma_param;
  coef0 : num;
  degree : nat;
  pred_size : Z;
  random_state : option Z
}.

(** Which of the four lambdas [_create_kernel_callable] stored in
    [kernel_func_]. *)
Inductive kernel_lambda : Type :=
| Lambda_rbf
| Lambda_poly
| Lambda_sigmoid
| Lambda_linear.

(** A fitted [OneVsRestClassifier], as far as the dispatcher reads it. *)
Record OVR : Type := {
  estimators_ : list BinarySVM.t;
  ovr_decision_function : Matrix -> res Matrix;
  ovr_predict : Matrix -> res (list Z)
}.

Record t : Type := {
  hyper : params;
  X_train_ : Matrix;
  n_features_ : nat;
  gamma_ : gamma_param;
  kernel_func_ : kernel_lambda;
  ovr_ : OVR
}.

Definition _compute_gamma (p : params) (X_train : Matrix) (n_features : nat)
    : res gamma_param :=
  match gamma p with
  | GammaStr s =>
      if String.eqb s "scale"%string
      then OK (GammaNum (div one (mul (of_nat n_features) (np_var X_train))))
      else OK (gamma p)
  | GammaNone =>
      if n_features =? 0 then Raise ZeroDivisionError
      else OK (GammaNum (div one (of_nat n_features)))
  | GammaNum _ => OK (gamma p)
  end.

(** Returns the two attributes it sets, [gamma_] and [kernel_func_]. *)
Definition _create_kernel_callable (p : params) (X_train : Matrix) (n_features : nat)
    : res (gamma_param * kernel_lambda) :=
  _ <- assert (existsb (String.eqb (kernel p)) ["rbf"; "poly"; "sigmoid"; "linear"]%string) ;;
  if String.eqb (kernel p) "rbf"%string then
    g <- _compute_gamma p X_train n_features ;; OK (g, Lambda_rbf)
  else if String.eqb (kernel p) "poly"%string then
    g <- _compute_gamma p X_train n_features ;; OK (g, Lambda_poly)
  else if String.eqb (kernel p) "sigmoid"%string then
    g <- _compute_gamma p X_train n_features ;; OK (g, Lambda_sigmoid)
  else if String.eqb (kernel p) "linear"%string then
    OK (gamma p, Lambda_linear)
  else (* no branch taken: [gamma_] stays unset and [fit] fails to read it *)
    Raise AttributeError.

(** The keyword [gamma=self.gamma_] of an sklearn kernel: [None] means
    [1 / n_features], a string is not a number. *)
Definition kernel_gamma (g : gamma_param) (X1 : Matrix) : res num :=
  match g with
  | GammaNum v => OK v
  | GammaNone => OK (div one (of_nat (ncols X1)))
  | GammaStr _ => Raise TypeError
  end.

(** A call of the stored lambda; it reads [gamma_], [degree] and [coef0]
    of the estimator when it is called. *)
Definition call_kernel_func_ (lam : kernel_lambda) (g_ : gamma_param) (p : params)
    (X1 X2 : Matrix) : res Matrix :=
  match lam with
  | Lambda_rbf => g <- kernel_gamma g_ X1 ;; rbf_kernel g X1 X2
  | Lambda_poly => g <- kernel_gamma g_ X1 ;; polynomial_kernel (degree p) g (coef0 p) X1 X2
  | Lambda_sigmoid => g <- kernel_gamma g_ X1 ;; sigmoid_kernel (coef0 p) g X1 X2
  | Lambda_linear => linear_kernel X1 X2
  end.

Section Fit.
(** [OneVsRestClassifier(estimator).fit(X, y)] is taken as given. *)
Variable OneVsRest_fit : BinarySVM.params -> Matrix -> list Z -> res OVR.

Definition fit (p : params) (X : Matrix) (y : list Z) : res t :=
  let n_features := ncols X in
  '(g_, lam) <- _create_kernel_callable p X n_features ;;
  let estimator :=
    {| BinarySVM.C := C p; BinarySVM.kernel := kernel p; BinarySVM.gamma := g_;
       BinarySVM.coef0 := coef0 p; BinarySVM.degree := degree p;
       BinarySVM.kernel_func := call_kernel_func_ lam g_ p;
       BinarySVM.pred_size := pred_size p;
       BinarySVM.random_state := random_state p |} in
  ovr <- OneVsRest_fit estimator X y ;;
  OK {| hyper := p; X_train_ := X; n_features_ := n_features; gamma_ := g_;
        kernel_func_ := lam; ovr_ := ovr |}.
End Fit.

Definition decision_function (self : t) (X : Matrix) : res Matrix :=
  ovr_decision_function (ovr_ self) X.

Definition predict (self : t) (X : Matrix) : res (list Z) :=
  ovr_predict (ovr_ self) X.

Definition similarity (self : t) (X : Matrix) (train_indices : option (list nat))
    : res Matrix :=
  X_train <- match train_indices with
             | Some idx => take_rows (X_train_ self) idx
             | None => OK (X_train_ self)
             end ;;
  call_kernel_func_ (kernel_func_ self) (gamma_ self) (hyper self) X X_train.

Definition get_weight (self : t) : res csr_matrix :=
  ws <- mapM BinarySVM.get_weight (estimators_ (ovr_ self)) ;;
  sps_vstack ws.

Definition explain (self : t) (X : Matrix) (y : option (list Z)) : res csr_matrix :=
  y <- match y with
       | None => predict self X
       | Some y => OK y
       end ;;
  _ <- assert (length y =? length X) ;;
  let estimators := estimators_ (ovr_ self) in
  if 1 <? length estimators then
    blocks <- mapM (fun i =>
                yi <- label_at y i ;;
                e <- py_getitem estimators yi ;;
                x <- row_of X i ;;
                BinarySVM.explain e x) (seq 0 (length X)) ;;
    sps_vstack blocks
  else
    blocks <- mapM (fun i =>
                e <- py_getitem estimators 0 ;;
                x <- row_of X i ;;
                BinarySVM.explain e x) (seq 0 (length X)) ;;
    result <- sps_vstack blocks ;;
    rows <- scale_rows neg_row (np_where_zero 0 y) (csr_rows result) ;;
    OK {| csr_rows := rows; csr_ncols := csr_ncols result |}.

End WithScalar.
End SVM.

(** * [class BinaryKernelLogisticRegression] *)

Module BinaryKernelLogisticRegression.
Section WithEnv.
Context {Sc : Scalar} {E : Env}.

Record params : Type := {
  C : num;
  pred_size : Z;
  temp_dir : string
}.

Record t : Type := {
  hyper : params;
  X_train_ : Matrix;
  classes_ : list Z;
  coef_ : Vec
}.

Definition _sigmoid (z : num) : num := div one (add one (exp (opp z))).

(** The body of the loop of [predict_proba] on one block of rows. *)
Definition block_proba (est : t) (block : Matrix) : res Vec :=
  X_sim <- linear_kernel block (X_train_ est) ;;
  prod <- matrix_times_vec X_sim (coef_ est) ;;
  OK (map _sigmoid (sum_axis1 prod)).

(** [np.hstack([1 - pos_proba, pos_proba])] on a column. *)
Definition two_columns (pos_proba : Vec) : Matrix :=
  map (fun p => [sub one p; p]) pos_proba.

(** [assert X.ndim == 2] holds by the type of [X]. *)
Definition predict_proba (est : t) (X : Matrix) : res Matrix :=
  starts <- py_range0 (length X) (pred_size (hyper est)) ;;
  pos_probas <- mapM (fun i =>
      block_proba est (row_block X i (Z.to_nat (pred_size (hyper est))))) starts ;;
  pos_proba <- np_concatenate pos_probas ;;
  OK (two_columns pos_proba).

(** [np.argmax] of a row: the first position of the largest entry. *)
Fixpoint argmax_from (best : num) (besti i : nat) (row : Vec) : nat :=
  match row with
  | [] => besti
  | v :: row' => if leb v best then argmax_from best besti (S i) row'
                 else argmax_from v i (S i) row'
  end.

Definition argmax (row : Vec) : res Z :=
  match row with
  | [] => Raise ValueError
  | v :: row' => OK (Z.of_nat (argmax_from v 0 1 row'))
  end.

Definition predict (est : t) (X : Matrix) : res (list Z) :=
  proba <- predict_proba est X ;;
  mapM argmax proba.

Definition get_weight (est : t) : Vec := coef_ est.

Definition explain (est : t) (x : Matrix) : res Matrix :=
  _ <- assert ((length x =? 1) && (ncols x =? ncols (X_train_ est))) ;;
  x_sim <- linear_kernel x (X_train_ est) ;;
  matrix_times_vec x_sim (coef_ est).

(** [np.unique]: the sorted distinct values. *)
Fixpoint insert_unique (v : Z) (l : list Z) : list Z :=
  match l with
  | [] => [v]
  | a :: l' => if (v <? a)%Z then v :: l
               else if (v =? a)%Z then l
               else a :: insert_unique v l'
  end.

Definition np_unique (y : list Z) : list Z := fold_right insert_unique [] y.

(** [os.path.join(d, name)] for a directory name without a trailing
    slash. *)
Definition path_join (d name : string) : string := (d ++ "/" ++ name)%string.

Section Fit.
Import liblinear_util.

Variable allclose_int : list Z -> list Z -> bool.
Variable allclose_atol : num -> Vec -> Vec -> bool.

(** Calls of a function looked up in [liblinear_util], by the shape of
    the argument list. *)
Definition call_create (f : pyfun) (X : Matrix) (y : list Z) (path : string)
    (w : World) : res World :=
  match f with
  | Fn_create_data_file => create_data_file X y path w
  | _ => Raise TypeError
  end.

Definition call_train (f : pyfun) (data model : string) (c : num) (w : World)
    : res World :=
  match f with
  | Fn_train_linear_svc => train_linear_svc data model c w
  | Fn_train_lr => train_lr data model c w
  | _ => Raise TypeError
  end.

Definition call_parse_model (f : pyfun) (model : string) (w : World)
    : res (option Vec) :=
  match f with
  | Fn_parse_model_file => parse_model_file model w
  | _ => Raise TypeError
  end.

Definition call_predict (f : pyfun) (data model prediction : string) (w : World)
    : res World :=
  match f with
  | Fn_predict_linear_svc => predict_linear_svc data model prediction w
  | Fn_predict_lr => predict_lr data model prediction w
  | _ => Raise TypeError
  end.

Definition call_parse_prediction (f : pyfun) (prediction : string)
    (minus_to_zeros : bool) (w : World) : res (list Z * Matrix) :=
  match f with
  | Fn_parse_lr_predictions => parse_lr_predictions prediction minus_to_zeros w
  | _ => Raise TypeError
  end.

Definition fit (p : params) (X : Matrix) (y : list Z) (n_check : nat) (atol : num)
    (w : World) : res (t * World) :=
  let classes := np_unique y in
  _ <- assert (length classes =? 2) ;;
  w <- (if path_exists (temp_dir p) w then rmtree (temp_dir p) w else OK w) ;;
  w <- makedirs (temp_dir p) w ;;
  let train_data_path := path_join (temp_dir p) "train_data" in
  let model_path := path_join (temp_dir p) "model" in
  let prediction_path := path_join (temp_dir p) "prediction" in
  let y_liblinear := map (fun v => if (v =? 0)%Z then (-1)%Z else 1%Z) y in
  f <- getattr "create_data_file" ;;
  w <- call_create f X y_liblinear train_data_path w ;;
  f <- getattr "train_model" ;;
  w <- call_train f train_data_path model_path (C p) w ;;
  f <- getattr "parse_model_file" ;;
  coef <- call_parse_model f model_path w ;;
  f <- getattr "predict" ;;
  w <- call_predict f train_data_path model_path prediction_path w ;;
  f <- getattr "parse_prediction_file" ;;
  '(pred_label, pred_proba) <- call_parse_prediction f prediction_path true w ;;
  (* [coef_] is [np.array(None)] when the model file had no alpha line *)
  c <- match coef with Some c => OK c | None => Raise TypeError end ;;
  let est := {| hyper := p; X_train_ := X; classes_ := classes; coef_ := c |} in
  l <- predict est (firstn n_check X) ;;
  _ <- assert (allclose_int (firstn n_check pred_label) l) ;;
  pr <- predict_proba est (firstn n_check X) ;;
  _ <- assert (allclose_atol atol (firstn (n_check * 2) (concat pred_proba)) (concat pr)) ;;
  OK (est, w).
End Fit.

End WithEnv.
End BinaryKernelLogisticRegression.

(** * [class KernelLogisticRegression]: the one-vs-rest dispatcher *)

Module KernelLogisticRegression.
Section WithEnv.
Context {Sc : Scalar} {E : Env}.

Record params : Type := {
  C : num;
  pred_size : Z
}.

Record OVR : Type := {
  estimators_ : list BinaryKernelLogisticRegression.t;
  ovr_predict_proba : Matrix -> res Matrix;
  ovr_predict : Matrix -> res (list Z)
}.

Record t : Type := {
  hyper : params;
  X_train_ : Matrix;
  n_features_ : nat;
  n_classes_ : nat;
  ovr_ : OVR;
  coef_ : Matrix
}.

Section Fit.
Variable OneVsRest_fit :
  BinaryKernelLogisticRegression.params -> Matrix -> list Z -> World -> res (OVR * World).

Definition fit (p : params) (X : Matrix) (y : list Z) (w : World) : res (t * World) :=
  let estimator :=
    {| BinaryKernelLogisticRegression.C := C p;
       BinaryKernelLogisticRegression.pred_size := pred_size p;
       BinaryKernelLogisticRegression.temp_dir := ".temp_klr" |} in
  '(ovr, w) <- OneVsRest_fit estimator X y w ;;
  coef <- np_vstack (map (fun e => [BinaryKernelLogisticRegression.coef_ e])
                         (estimators_ ovr)) ;;
  OK ({| hyper := p; X_train_ := X; n_features_ := ncols X;
         n_classes_ := length (BinaryKernelLogisticRegression.np_unique y);
         ovr_ := ovr; coef_ := coef |}, w).
End Fit.

Definition predict_proba (self : t) (X : Matrix) : res Matrix :=
  ovr_predict_proba (ovr_ self) X.

Definition predict (self : t) (X : Matrix) : res (list Z) :=
  ovr_predict (ovr_ self) X.

Definition similarity (self : t) (X : Matrix) (train_indices : option (list nat))
    : res Matrix :=
  X_train <- match train_indices with
             | Some idx => take_rows (X_train_ self) idx
             | None => OK (X_train_ self)
             end ;;
  linear_kernel X X_train.

Definition get_weight (self : t) : res Matrix :=
  np_vstack (map (fun e => [BinaryKernelLogisticRegression.get_weight e])
                 (estimators_ (ovr_ self))).

Definition explain (self : t) (X : Matrix) (y : option (list Z)) : res Matrix :=
  y <- match y with
       | None => predict self X
       | Some y => OK y
       end ;;
  _ <- assert (length y =? length X) ;;
  let estimators := estimators_ (ovr_ self) in
  if 1 <? length estimators then
    blocks <- mapM (fun i =>
                yi <- label_at y i ;;
                e <- py_getitem estimators yi ;;
                x <- row_of X i ;;
                BinaryKernelLogisticRegression.explain e x) (seq 0 (length X)) ;;
    np_vstack blocks
  else
    blocks <- mapM (fun i =>
                e <- py_getitem estimators 0 ;;
                x <- row_of X i ;;
                BinaryKernelLogisticRegression.explain e x) (seq 0 (length X)) ;;
    result <- np_vstack blocks ;;
    scale_rows neg_vec (np_where_zero 0 y) result.

End WithEnv.
End KernelLogisticRegression.

(** * Fitted estimators and example data *)

Section Fitted.
Context {Sc : Scalar}.

(** The contract of a registry kernel: after the input check, the
    similarity matrix is filled entry by entry from a function of one
    query row and one reference row. *)
Definition kernel_contract (kf : Matrix -> Matrix -> res Matrix)
    (K : Vec -> Vec -> num) : Prop :=
  forall X1 X2, kf X1 X2 = registry_kernel K X1 X2.

(** What a [BinarySVM] holds after a successful [fit]: at least one
    support vector, one dual coefficient per support index, support
    indices inside the training set, a block size that the self-check has
    run with, and a kernel callable that honours the contract. *)
Definition svm_fitted (est : BinarySVM.t) (K : Vec -> Vec -> num) : Prop :=
  kernel_contract (BinarySVM.kernel_func (BinarySVM.hyper est)) K
  /\ BinarySVM.coef_indices_ est <> []
  /\ length (BinarySVM.coef_ est) = length (BinarySVM.coef_indices_ est)
  /\ Forall (fun i => i < length (BinarySVM.X_train_ est)) (BinarySVM.coef_indices_ est)
  /\ (1 <= BinarySVM.pred_size (BinarySVM.hyper est))%Z.

(** A single query: [x.shape == (1, X_train.shape[1])]. *)
Definition single_query (x : Matrix) (X_train : Matrix) : Prop :=
  shape x = (1, ncols X_train).

(** Row [i] of the training set. *)
Definition train_row (X_train : Matrix) (i : nat) : Vec := nth i X_train [].

(** What [explain] and one block of [decision_function] compute for one
    query row [r] of a fitted estimator with kernel [K]: the products
    [K(r, train_i) * coef_i] over the support indices. *)
Definition impact_of (est : BinarySVM.t) (K : Vec -> Vec -> num) (r : Vec) : Vec :=
  map (fun p => mul (fst p) (snd p))
      (combine (map (fun i => K r (train_row (BinarySVM.X_train_ est) i))
                    (BinarySVM.coef_indices_ est))
               (BinarySVM.coef_ est)).

(** The decision values of a whole batch computed as one block. *)
Definition decision_one_block (est : BinarySVM.t) (X : Matrix) : res Vec :=
  BinarySVM.block_decision est X.

(** Entry [(0, i)] of a dense array with one row. *)
Definition entry (M : Matrix) (i : nat) : num := nth i (nth 0 M []) zero.

(** The similarity of a query to the whole training set, as the binary
    SVM estimator would compute it with its kernel callable. *)
Definition svm_similarity (est : BinarySVM.t) (x : Matrix) : res Matrix :=
  BinarySVM.kernel_func (BinarySVM.hyper est) x (BinarySVM.X_train_ est).

(** What a [BinaryKernelLogisticRegression] holds once it is fitted: a
    training set with rows, one dual coefficient per training row, and a
    usable block size. *)
Definition klr_fitted (est : BinaryKernelLogisticRegression.t) : Prop :=
  BinaryKernelLogisticRegression.X_train_ est <> []
  /\ length (BinaryKernelLogisticRegression.coef_ est)
     = length (BinaryKernelLogisticRegression.X_train_ est)
  /\ (1 <= BinaryKernelLogisticRegression.pred_size
             (BinaryKernelLogisticRegression.hyper est))%Z.

(** The gamma resolution policy, in the words of the specification:
    ["scale"] gives [1 / (n_features * variance)], [None] gives
    [1 / n_features], anything else is used as it is. *)
Definition resolved_gamma (g : gamma_param) (n_features : nat) (X_train : Matrix)
    : gamma_param :=
  match g with
  | GammaStr s =>
      if String.eqb s "scale"
      then GammaNum (div one (mul (of_nat n_features) (np_var X_train)))
      else g
  | GammaNone => GammaNum (div one (of_nat n_features))
  | GammaNum _ => g
  end.

(** The self-check at the end of [BinarySVM.fit]: the labels and the
    decision values of the solver against those of the dual form, on the
    rows [Xc]. *)
Definition self_check (allclose : Vec -> Vec -> bool)
    (allclose_int : list Z -> list Z -> bool) (est : BinarySVM.t) (Xc : Matrix)
    : res (bool * bool) :=
  l1 <- BinarySVM.svc_predict (BinarySVM.model_ est) Xc ;;
  l2 <- BinarySVM.predict est Xc ;;
  d1 <- BinarySVM.svc_decision_function (BinarySVM.model_ est) Xc ;;
  d2 <- BinarySVM.decision_function est Xc ;;
  OK (allclose_int l1 l2, allclose d1 d2).

(** The estimator that [BinarySVM.fit] assembles from the solver's
    model [m], its first row [c] of dual coefficients and its first
    intercept [b]. *)
Definition assembled (p : BinarySVM.params) (X : Matrix) (m : BinarySVM.SVC)
    (c : Vec) (b : num) : BinarySVM.t :=
  {| BinarySVM.hyper := p; BinarySVM.X_train_ := X; BinarySVM.n_features_ := ncols X;
     BinarySVM.model_ := m; BinarySVM.coef_ := c;
     BinarySVM.coef_indices_ := BinarySVM.support_ m; BinarySVM.intercept_ := b |}.

(** The target labels of [explain(X, y)]: [y], or the predicted labels
    when [y] is not given. *)
Definition svm_targets (self : SVM.t) (X : Matrix) (y : option (list Z))
    : res (list Z) :=
  match y with
  | None => SVM.predict self X
  | Some y => OK y
  end.

(** Row [i] of the result of [SVM.explain] is the only row of [m],
    negated when [negated] is set. *)
Definition svm_row_is (result : csr_matrix) (i : nat) (m : csr_matrix) (negated : bool)
    : Prop :=
  exists r, csr_rows m = [r]
            /\ nth_error (csr_rows result) i = Some (if negated then neg_row r else r).

Definition klr_similarity (est : BinaryKernelLogisticRegression.t) (x : Matrix)
    : res Matrix :=
  linear_kernel x (BinaryKernelLogisticRegression.X_train_ est).

Definition klr_targets (self : KernelLogisticRegression.t) (X : Matrix)
    (y : option (list Z)) : res (list Z) :=
  match y with
  | None => KernelLogisticRegression.predict self X
  | Some y => OK y
  end.

(** Row [i] of the result of [KernelLogisticRegression.explain] is the
    only row of [m], negated when [negated] is set. *)
Definition klr_row_is (result : Matrix) (i : nat) (m : Matrix) (negated : bool)
    : Prop :=
  exists r, m = [r] /\ nth_error result i = Some (if negated then neg_vec r else r).

End Fitted.

Module Examples.

Definition svc0 : BinarySVM.SVC (Sc := Z_Scalar) :=
  {| BinarySVM.dual_coef_ := [[2; -1]]%Z;
     BinarySVM.support_ := [0; 2];
     BinarySVM.svc_intercept_ := [5]%Z;
     BinarySVM.svc_predict := fun X => OK (map (fun _ => 1%Z) X);
     BinarySVM.svc_decision_function := fun X => OK (map (fun _ => 0%Z) X) |}.

Definition svm_params0 : BinarySVM.params (Sc := Z_Scalar) :=
  {| BinarySVM.C := 1%Z; BinarySVM.kernel := "linear";
     BinarySVM.gamma := GammaStr "scale"; BinarySVM.coef0 := 0%Z;
     BinarySVM.degree := 3;
     BinarySVM.kernel_func := linear_kernel;
     BinarySVM.pred_size := 2%Z; BinarySVM.random_state := None |}.

(** Three training points, two of them support vectors. *)
Definition svm0 : BinarySVM.t (Sc := Z_Scalar) :=
  {| BinarySVM.hyper := svm_params0;
     BinarySVM.X_train_ := [[1; 0]; [0; 1]; [1; 1]]%Z;
     BinarySVM.n_features_ := 2;
     BinarySVM.model_ := svc0;
     BinarySVM.coef_ := [2; -1]%Z;
     BinarySVM.coef_indices_ := [0; 2];
     BinarySVM.intercept_ := 5%Z |}.

Definition query0 : Matrix (Sc := Z_Scalar) := [[3; 4]]%Z.

Definition batch0 : Matrix (Sc := Z_Scalar) := [[3; 4]; [1; 1]; [0; 2]]%Z.

Definition klr0 : BinaryKernelLogisticRegression.t (Sc := Z_Scalar) :=
  {| BinaryKernelLogisticRegression.hyper :=
       {| BinaryKernelLogisticRegression.C := 1%Z;
          BinaryKernelLogisticRegression.pred_size := 2%Z;
          BinaryKernelLogisticRegression.temp_dir := ".temp_klr" |};
     BinaryKernelLogisticRegression.X_train_ := [[1; 0]; [0; 1]; [1; 1]]%Z;
     BinaryKernelLogisticRegression.classes_ := [0; 1]%Z;
     BinaryKernelLogisticRegression.coef_ := [2; 0; -1]%Z |}.

(** A small world: the files are kept as (path, lines) pairs, every
    command exits with status 0, and numbers are written as integer
    literals. *)
#[export] Instance TestEnv : Env (Sc := Z_Scalar) := {|
  World := list (string * list string);
  path_exists := fun p w => existsb (fun e => String.eqb (fst e) p) w;
  read_lines := fun p w =>
    match find (fun e => String.eqb (fst e) p) w with
    | Some e => snd e
    | None => []
    end;
  rmtree := fun _ w => OK w;
  makedirs := fun _ w => OK w;
  dump_svmlight_file := fun _ _ f w => OK ((f, []) :: w);
  os_system := fun _ w => (0%Z, w);
  dir_path := "/opt/trex/models"%string;
  format_num := fun _ => "1"%string;
  py_float := fun s => match PyStr.py_int s with OK z => Some z | Raise _ => None end
|}.

Definition line (s : string) : string := (s ++ PyStr.nl)%string.

(** A solver stub that returns [svc0], whose own outputs are the
    constant label 1 and the constant decision value 0. *)
Definition SVC_fit0 (p : BinarySVM.params (Sc := Z_Scalar)) (X : Matrix (Sc := Z_Scalar))
    (y : list Z) : res BinarySVM.SVC := OK svc0.

(** Exact equality, standing in for numpy's tolerance test. *)
Fixpoint list_eqb (a b : list Z) : bool :=
  match a, b with
  | [], [] => true
  | u :: a', v :: b' => (u =? v)%Z && list_eqb a' b'
  | _, _ => false
  end.

(** A solver stub whose own outputs are those of the dual form. *)
Definition svc1 : BinarySVM.SVC (Sc := Z_Scalar) :=
  {| BinarySVM.dual_coef_ := [[2; -1]]%Z;
     BinarySVM.support_ := [0; 2];
     BinarySVM.svc_intercept_ := [5]%Z;
     BinarySVM.svc_predict := BinarySVM.predict svm0;
     BinarySVM.svc_decision_function := BinarySVM.decision_function svm0 |}.

Definition SVC_fit1 (p : BinarySVM.params (Sc := Z_Scalar)) (X : Matrix (Sc := Z_Scalar))
    (y : list Z) : res BinarySVM.SVC := OK svc1.

Definition train0 : Matrix (Sc := Z_Scalar) := [[1; 0]; [0; 1]; [1; 1]]%Z.

Definition svm_rbf_params : SVM.params (Sc := Z_Scalar) :=
  {| SVM.C := 1%Z; SVM.kernel := "rbf"; SVM.gamma := GammaStr "scale";
     SVM.coef0 := 0%Z; SVM.degree := 3; SVM.pred_size := 500%Z;
     SVM.random_state := None |}.

(** A copy of [svm0] with other dual coefficients. *)
Definition svm_with (coef : Vec (Sc := Z_Scalar)) : BinarySVM.t (Sc := Z_Scalar) :=
  {| BinarySVM.hyper := svm_params0;
     BinarySVM.X_train_ := [[1; 0]; [0; 1]; [1; 1]]%Z;
     BinarySVM.n_features_ := 2;
     BinarySVM.model_ := svc0;
     BinarySVM.coef_ := coef;
     BinarySVM.coef_indices_ := [0; 2];
     BinarySVM.intercept_ := 5%Z |}.

Definition svm_linear_params : SVM.params (Sc := Z_Scalar) :=
  {| SVM.C := 1%Z; SVM.kernel := "linear"; SVM.gamma := GammaStr "scale";
     SVM.coef0 := 0%Z; SVM.degree := 3; SVM.pred_size := 500%Z;
     SVM.random_state := None |}.

Definition dispatcher (ests : list BinarySVM.t) : SVM.t (Sc := Z_Scalar) :=
  {| SVM.hyper := svm_linear_params;
     SVM.X_train_ := [[1; 0]; [0; 1]; [1; 1]]%Z;
     SVM.n_features_ := 2;
     SVM.gamma_ := GammaStr "scale";
     SVM.kernel_func_ := SVM.Lambda_linear;
     SVM.ovr_ := {| SVM.estimators_ := ests;
                    SVM.ovr_decision_function := fun _ => Raise ValueError;
                    SVM.ovr_predict := fun X => OK (map (fun _ => 1%Z) X) |} |}.

(** A three-class dispatcher and a two-class dispatcher (one
    estimator). *)
Definition svm_three : SVM.t := dispatcher [svm_with [1; 1]%Z; svm0; svm_with [0; 3]%Z].
Definition svm_two : SVM.t := dispatcher [svm0].

Definition klr_with (coef : Vec (Sc := Z_Scalar))
    : BinaryKernelLogisticRegression.t (Sc := Z_Scalar) :=
  {| BinaryKernelLogisticRegression.hyper := BinaryKernelLogisticRegression.hyper klr0;
     BinaryKernelLogisticRegression.X_train_ := [[1; 0]; [0; 1]; [1; 1]]%Z;
     BinaryKernelLogisticRegression.classes_ := [0; 1]%Z;
     BinaryKernelLogisticRegression.coef_ := coef |}.

Definition klr_dispatcher (ests : list BinaryKernelLogisticRegression.t)
    : KernelLogisticRegression.t (Sc := Z_Scalar) :=
  {| KernelLogisticRegression.hyper :=
       {| KernelLogisticRegression.C := 1%Z;
          KernelLogisticRegression.pred_size := 1000%Z |};
     KernelLogisticRegression.X_train_ := [[1; 0]; [0; 1]; [1; 1]]%Z;
     KernelLogisticRegression.n_features_ := 2;
     KernelLogisticRegression.n_classes_ := 2;
     KernelLogisticRegression.ovr_ :=
       {| KernelLogisticRegression.estimators_ := ests;
          KernelLogisticRegression.ovr_predict_proba := fun _ => Raise ValueError;
          KernelLogisticRegression.ovr_predict := fun X => OK (map (fun _ => 0%Z) X) |};
     KernelLogisticRegression.coef_ :=
       map BinaryKernelLogisticRegression.coef_ ests |}.

Definition klr_two : KernelLogisticRegression.t := klr_dispatcher [klr0].

Definition ovr_stub (p : BinarySVM.params (Sc := Z_Scalar)) (X : Matrix (Sc := Z_Scalar))
    (y : list Z) : res SVM.OVR :=
  OK {| SVM.estimators_ := [];
        SVM.ovr_decision_function := fun _ => Raise ValueError;
        SVM.ovr_predict := fun _ => Raise ValueError |}.

(** A model file with the whole header and the weight block, but no
    alpha block. *)
Definition model_without_alpha : list string :=
  [ line "solver_type L2R_LR_DUAL"; line "nr_class 2"; line "label 1 -1";
    line "nr_feature 2"; line "bias 0"; line "w"; line "1"; line "2" ].

(** A model file of the dual solver for three training instances. *)
Definition model_with_alpha : list string :=
  [ line "solver_type L2R_LR_DUAL"; line "nr_class 2"; line "label 1 -1";
    line "nr_feature 2"; line "bias 0"; line "w"; line "1"; line "2";
    line "nr_sample 3"; line "alpha"; line "2 0 -1 " ].

(** A prediction file in the {1, 0} label convention: the first instance
    is predicted negative (label 0), the second positive. *)
Definition prediction_1_0 : list string :=
  [ line "labels 1 0"; line "0 0 1"; line "1 1 0" ].

(** A prediction file in the {1, -1} label convention. *)
Definition prediction_1_m1 : list string :=
  [ line "labels 1 -1"; line "-1 0 1"; line "1 1 0" ].

End Examples.

(** ** The checks of [parse_model_file], line by line *)

Section ModelFileChecks.
Import PyStr.

(** The check that a recognised header line has to pass: the solver
    name, the class count, the class labels. *)
Definition header_ok (raw : string) : bool :=
  let line := strip raw in
  if startswith line "solver_type" then
    match nth_error (split_space line) 1 with
    | Some tok => existsb (String.eqb tok) ["L2R_LR_DUAL"; "L2R_L2LOSS_SVC_DUAL"]%string
    | None => false
    end
  else if startswith line "nr_class" then
    match nth_error (split_space line) 1 with
    | Some tok => String.eqb tok "2"
    | None => false
    end
  else if startswith line "label" then
    match nth_error (split_space line) 1, nth_error (split_space line) 2 with
    | Some t1, Some t2 => String.eqb t1 "1" && (String.eqb t2 "0" || String.eqb t2 "-1")
    | _, _ => false
    end
  else true.

(** Line [i] opens the alpha block. *)
Definition alpha_line_at (lines : list string) (i : nat) : Prop :=
  exists raw, nth_error lines i = Some raw /\ startswith (strip raw) "alpha" = true.

(** Line [j] declares the sample count [n]. *)
Definition nr_sample_at (lines : list string) (j : nat) (n : Z) : Prop :=
  exists raw tok,
    nth_error lines j = Some raw
    /\ startswith (strip raw) "nr_sample" = true
    /\ nth_error (split_space (strip raw)) 1 = Some tok
    /\ py_int tok = OK n.

Context {Sc : Scalar} {E : Env}.

(** The coefficients [a] were read from the line after the alpha line
    [k], and an earlier line declares [len(a)] as the sample count. *)
Definition alpha_block_at (lines : list string) (k : nat) (a : Vec) : Prop :=
  alpha_line_at lines k
  /\ (exists next, nth_error lines (S k) = Some next
                   /\ mapM liblinear_util.float (split_space (strip next)) = OK a)
  /\ (exists j, j < k /\ nr_sample_at lines j (Z.of_nat (length a))).

(** What the locals of [parse_model_file] record once the lines before
    line [i] have been read. *)
Definition locals_inv (lines : list string) (i : nat) (st : liblinear_util.locals)
    : Prop :=
  (forall n, liblinear_util.nr_sample st = Some n ->
             exists j, j < i /\ nr_sample_at lines j n)
  /\ (forall a, liblinear_util.alpha st = Some a ->
                exists k, k < i /\ alpha_block_at lines k a)
  /\ (liblinear_util.alpha st = None ->
      forall k, k < i -> ~ alpha_line_at lines k).

End ModelFileChecks.

(** * [experiments/scripts/misclassification.py]: short feature names *)

Module misclassification.

(** The dictionary [replace], in the order of its assignments. *)
Definition replace : list (string * string) :=
  [ ("p_fibberinh_1_0_mediforsystem", "fibberinh");
    ("p_kitwaredartmouthjpegdimples_0db8e4c_mediforsystem", "jpegdimples");
    ("dct03_a_baseline_ta1", "dct03");
    ("block02_baseline_ta1", "block02");
    ("p_ucrlstmwresamplingwcmm2_1_0_mediforsystem", "lstmwresampling");
    ("p_uscisigradbased02a_0_2a_mediforsystem", "gradbased");
    ("p_purdueta11adoublejpegdetection_2_0_mediforsystem", "doublejpeg");
    ("p_purdueta11acontrastenhancementdetection_1_0_mediforsystem", "contrast_enhance");
    ("p_sriprita1imgmdlprnubased_1_0_mediforsystem", "prnubased");
    ("p_ta11c_1_0_mediforsystem", "tallc") ]%string.

(** [replace.get(f)]. *)
Definition replace_get (f : string) : option string :=
  match find (fun e => String.eqb (fst e) f) replace with
  | Some e => Some (snd e)
  | None => None
  end.

Definition _get_short_names (feature : list string) : list string :=
  map (fun f => match replace_get f with
                | Some short => short
                | None => f
                end) feature.

End misclassification.

(** * Notions used by the further properties *)

Section FurtherNotions.
Context {Sc : Scalar}.

(** The label of a decision value: [np.where(d >= 0, 1, 0)]. *)
Definition label_of_decision (d : num) : Z := if leb zero d then 1%Z else 0%Z.

(** The label of a probability row [[q, p]]: [np.argmax], the first of
    two equal entries. *)
Definition label_of_proba (row : Vec) : Z :=
  if leb (nth 1 row zero) (nth 0 row zero) then 0%Z else 1%Z.

(** [S[:, idx]]: the columns [idx] of a dense matrix. *)
Definition select_columns (idx : list nat) (S : Matrix) : Matrix :=
  map (fun row => map (fun i => nth i row zero) idx) S.

(** The labels that [BinaryKernelLogisticRegression.fit] writes for the
    solver: [np.where(y == 0, -1, 1)]. *)
Definition y_liblinear (y : list Z) : list Z :=
  map (fun v => if (v =? 0)%Z then (-1)%Z else 1%Z) y.

(** What sklearn's pairwise kernels check of the widths when they are
    called with the batch [X] and rows of the training set: the training
    set has at least one column and every row of [X] has as many. *)
Definition batch_of_training_width (X X_train : Matrix) : Prop :=
  1 <= ncols X_train /\ Forall (fun r => length r = ncols X_train) X.

(** The stored row of weights of one binary SVM estimator. *)
Definition weight_row (est : BinarySVM.t) : sparse_row :=
  {| sr_data := BinarySVM.coef_ est; sr_indices := BinarySVM.coef_indices_ est |}.

End FurtherNotions.

Section ModelFileNotions.
Context {Sc : Scalar} {E : Env}.

(** What the loop of [parse_model_file] has established about the
    alpha lines before line [i]: each of them opened a block that passed
    its checks, and the stored coefficients are those of the last one. *)
Definition last_alpha_inv (lines : list string) (i : nat) (st : liblinear_util.locals)
    : Prop :=
  (forall k, k < i -> alpha_line_at lines k -> exists a, alpha_block_at lines k a)
  /\ (forall a, liblinear_util.alpha st = Some a ->
        exists k, k < i /\ alpha_block_at lines k a
                  /\ forall k', k < k' -> k' < i -> ~ alpha_line_at lines k').

End ModelFileNotions.

Module MoreExamples.

(** [svm0] with another block size. *)
Definition svm_block_size (ps : Z) : BinarySVM.t (Sc := Z_Scalar) :=
  {| BinarySVM.hyper :=
       {| BinarySVM.C := 1%Z; BinarySVM.kernel := "linear";
          BinarySVM.gamma := GammaStr "scale"; BinarySVM.coef0 := 0%Z;
          BinarySVM.degree := 3; BinarySVM.kernel_func := linear_kernel;
          BinarySVM.pred_size := ps; BinarySVM.random_state := None |};
     BinarySVM.X_train_ := [[1; 0]; [0; 1]; [1; 1]]%Z;
     BinarySVM.n_features_ := 2;
     BinarySVM.model_ := Examples.svc0;
     BinarySVM.coef_ := [2; -1]%Z;
     BinarySVM.coef_indices_ := [0; 2];
     BinarySVM.intercept_ := 5%Z |}.

(** A model file whose alpha line is the last line. *)
Definition model_alpha_last : list string :=
  [ Examples.line "solver_type L2R_LR_DUAL"; Examples.line "nr_sample 3";
    Examples.line "alpha" ].

(** A model file whose alpha block comes before any sample count. *)
Definition model_alpha_undeclared : list string :=
  [ Examples.line "solver_type L2R_LR_DUAL"; Examples.line "alpha";
    Examples.line "2 0 -1 " ].

(** A model file with two alpha blocks. *)
Definition model_two_alpha : list string :=
  [ Examples.line "nr_sample 2"; Examples.line "alpha"; Examples.line "7 8";
    Examples.line "nr_sample 3"; Examples.line "alpha"; Examples.line "2 0 -1" ].

(** A one-vs-rest stub that hands back the estimators of [svm_two]. *)
Definition svm_ovr_stub (p : BinarySVM.params (Sc := Z_Scalar))
    (X : Matrix (Sc := Z_Scalar)) (y : list Z) : res SVM.OVR :=
  OK (SVM.ovr_ Examples.svm_two).

End MoreExamples.

(** * Properties *)

Section MonadFacts.

Lemma bind_ok_inv {A B : Type} (m : res A) (k : A -> res B) (b : B) :
  bind m k = OK b -> exists a, m = OK a /\ k a = OK b.
Proof.
  destruct m as [a|e]; simpl; intros H; [eauto | discriminate].
Qed.

Lemma mapM_ok_map {A B : Type} (f : A -> res B) (g : A -> B) (l : list A) :
  (forall a, In a l -> f a = OK (g a)) -> mapM f l = OK (map g l).
Proof.
  induction l as [|a l IH]; intros H; simpl; [reflexivity|].
  rewrite (H a (or_introl eq_refl)); simpl.
  rewrite IH by (intros; apply H; right; assumption).
  reflexivity.
Qed.

Lemma mapM_ext {A B : Type} (f g : A -> res B) (l : list A) :
  (forall a, In a l -> f a = g a) -> mapM f l = mapM g l.
Proof.
  induction l as [|a l IH]; intros H; simpl; [reflexivity|].
  rewrite (H a (or_introl eq_refl)).
  rewrite IH by (intros; apply H; right; assumption).
  reflexivity.
Qed.

Lemma mapM_length {A B : Type} (f : A -> res B) (l : list A) (r : list B) :
  mapM f l = OK r -> length r = length l.
Proof.
  revert r; induction l as [|a l IH]; simpl; intros r H.
  - inversion H; reflexivity.
  - apply bind_ok_inv in H as (b & _ & H).
    apply bind_ok_inv in H as (bs & Hbs & H).
    inversion H; subst; simpl; f_equal; apply IH; assumption.
Qed.

Lemma mapM_nth_error {A B : Type} (f : A -> res B) (l : list A) (r : list B) :
  mapM f l = OK r ->
  forall i a, nth_error l i = Some a ->
  exists b, nth_error r i = Some b /\ f a = OK b.
Proof.
  revert r; induction l as [|a0 l IH]; simpl; intros r H i a Hi.
  - destruct i; discriminate.
  - apply bind_ok_inv in H as (b & Hb & H).
    apply bind_ok_inv in H as (bs & Hbs & H).
    inversion H; subst; clear H.
    destruct i as [|i]; simpl in *.
    + inversion Hi; subst; eauto.
    + eapply IH; eauto.
Qed.

Lemma mapM_nth_error_inv {A B : Type} (f : A -> res B) (l : list A) (r : list B) :
  mapM f l = OK r ->
  forall i b, nth_error r i = Some b ->
  exists a, nth_error l i = Some a /\ f a = OK b.
Proof.
  revert r; induction l as [|a0 l IH]; simpl; intros r H i b Hi.
  - injection H as <-. destruct i; discriminate.
  - apply bind_ok_inv in H as (b0 & Hb0 & H).
    apply bind_ok_inv in H as (bs & Hbs & H).
    injection H as <-.
    destruct i as [|i]; simpl in *.
    + injection Hi as <-. eauto.
    + eapply IH; eauto.
Qed.

End MonadFacts.

Section ArrayFacts.
Context {Sc : Scalar}.

Add Ring scalar_ring_db : scalar_ring.

Lemma np_sum_app (a b : Vec) : np_sum (a ++ b) = add (np_sum a) (np_sum b).
Proof.
  induction a as [|v a IH]; simpl.
  - ring.
  - rewrite IH; ring.
Qed.

Lemma np_sum_scale (k : num) (l : Vec) :
  np_sum (map (fun c => mul k c) l) = mul k (np_sum l).
Proof.
  induction l as [|v l IH]; simpl.
  - ring.
  - rewrite IH; ring.
Qed.

Lemma mul_minus_one (a : num) : mul a (opp one) = opp a.
Proof. ring. Qed.

Lemma take_rows_ok {A : Type} (d : A) (X : list A) (idx : list nat) :
  Forall (fun i => i < length X) idx ->
  take_rows X idx = OK (map (fun i => nth i X d) idx).
Proof.
  intros H. unfold take_rows. apply mapM_ok_map.
  intros i Hi. rewrite Forall_forall in H. specialize (H i Hi).
  destruct (nth_error X i) as [r|] eqn:E.
  - rewrite (nth_error_nth _ _ d E). reflexivity.
  - apply nth_error_None in E. lia.
Qed.

Lemma broadcast_mul_same (a b : Vec) :
  length a = length b ->
  broadcast_mul a b = OK (map (fun p => mul (fst p) (snd p)) (combine a b)).
Proof.
  intros H. unfold broadcast_mul. rewrite H, Nat.eqb_refl. reflexivity.
Qed.

Lemma registry_kernel_ok (K : Vec -> Vec -> num) (X Y : Matrix) :
  X <> [] -> Y <> [] -> registry_kernel K X Y = OK (pairwise K X Y).
Proof.
  intros HX HY. unfold registry_kernel, check_pairwise_arrays.
  destruct X; [congruence|]. destruct Y; [congruence|]. reflexivity.
Qed.

Lemma registry_kernel_no_rows (K : Vec -> Vec -> num) (Y : Matrix) :
  registry_kernel K [] Y = Raise ValueError.
Proof. reflexivity. Qed.

Lemma py_range0_pos (n : nat) (ps : Z) :
  (1 <= ps)%Z ->
  py_range0 n ps = OK (block_starts n (Z.to_nat ps)).
Proof.
  intros H. unfold py_range0.
  destruct (Z.eqb_spec ps 0); [lia|].
  destruct (Z.ltb_spec ps 0); [lia|].
  reflexivity.
Qed.

Lemma single_query_inv (x X_train : Matrix) :
  single_query x X_train -> exists r, x = [r] /\ length r = ncols X_train.
Proof.
  unfold single_query, shape. intros H. injection H as Hl Hc.
  destruct x as [|r [|? ?]]; try discriminate.
  exists r. split; [reflexivity | exact Hc].
Qed.

Lemma support_rows_fitted (est : BinarySVM.t) (K : Vec -> Vec -> num) :
  svm_fitted est K ->
  take_rows (BinarySVM.X_train_ est) (BinarySVM.coef_indices_ est)
    = OK (map (train_row (BinarySVM.X_train_ est)) (BinarySVM.coef_indices_ est))
  /\ map (train_row (BinarySVM.X_train_ est)) (BinarySVM.coef_indices_ est) <> [].
Proof.
  intros (HK & Hne & Hlen & Hidx & Hps). split.
  - apply (take_rows_ok (A:=Vec) []). exact Hidx.
  - destruct (BinarySVM.coef_indices_ est); [congruence | discriminate].
Qed.

Lemma times_coef_fitted (est : BinarySVM.t) (K : Vec -> Vec -> num) (X : Matrix) :
  svm_fitted est K ->
  matrix_times_vec
    (pairwise K X (map (train_row (BinarySVM.X_train_ est)) (BinarySVM.coef_indices_ est)))
    (BinarySVM.coef_ est)
  = OK (map (impact_of est K) X).
Proof.
  intros (HK & Hne & Hlen & Hidx & Hps).
  unfold matrix_times_vec, pairwise.
  rewrite (mapM_ok_map _
             (fun row => map (fun p => mul (fst p) (snd p))
                             (combine row (BinarySVM.coef_ est)))).
  - rewrite map_map. f_equal. apply map_ext. intros r.
    unfold impact_of. rewrite map_map. reflexivity.
  - intros row Hrow. apply in_map_iff in Hrow as (r & <- & _).
    apply broadcast_mul_same. rewrite !length_map. symmetry. exact Hlen.
Qed.

Lemma explain_fitted (est : BinarySVM.t) (K : Vec -> Vec -> num) (r : Vec) :
  svm_fitted est K -> length r = ncols (BinarySVM.X_train_ est) ->
  BinarySVM.explain est [r] =
    OK {| csr_rows := [ {| sr_data := impact_of est K r;
                           sr_indices := BinarySVM.coef_indices_ est |} ];
          csr_ncols := length (BinarySVM.X_train_ est) |}.
Proof.
  intros Hf Hr.
  destruct (support_rows_fitted Hf) as [Hsv Hsvne].
  pose proof (times_coef_fitted [r] Hf) as Hprod.
  destruct Hf as (HK & Hne & Hlen & Hidx & Hps).
  unfold BinarySVM.explain.
  cbn [length ncols]. rewrite Hr, !Nat.eqb_refl.
  cbn [andb assert bind].
  rewrite Hsv. cbn [bind]. rewrite HK.
  rewrite registry_kernel_ok by (assumption || discriminate).
  cbn [bind]. rewrite Hprod. cbn [bind map].
  unfold csr_one_row.
  unfold impact_of at 1.
  rewrite length_map, length_combine, !length_map, Hlen, Nat.min_id, Nat.eqb_refl.
  reflexivity.
Qed.

Lemma block_decision_fitted (est : BinarySVM.t) (K : Vec -> Vec -> num) (X : Matrix) :
  svm_fitted est K -> X <> [] ->
  BinarySVM.block_decision est X =
    OK (map (fun r => add (np_sum (impact_of est K r)) (BinarySVM.intercept_ est)) X).
Proof.
  intros Hf HX.
  destruct (support_rows_fitted Hf) as [Hsv Hsvne].
  pose proof (times_coef_fitted X Hf) as Hprod.
  destruct Hf as (HK & Hne & Hlen & Hidx & Hps).
  unfold BinarySVM.block_decision.
  rewrite Hsv. cbn [bind]. rewrite HK.
  rewrite registry_kernel_ok by assumption.
  cbn [bind]. rewrite Hprod. cbn [bind].
  unfold sum_axis1. rewrite !map_map. reflexivity.
Qed.

Lemma block_decision_no_rows (est : BinarySVM.t) (K : Vec -> Vec -> num) :
  svm_fitted est K -> BinarySVM.block_decision est [] = Raise ValueError.
Proof.
  intros Hf.
  destruct (support_rows_fitted Hf) as [Hsv Hsvne].
  destruct Hf as (HK & _).
  unfold BinarySVM.block_decision.
  rewrite Hsv. cbn [bind]. rewrite HK. reflexivity.
Qed.

End ArrayFacts.

(** ** Row blocks *)

Section Blocks.
Variable A : Type.

Lemma block_count_nil (s : nat) : 0 < s -> (0 + s - 1) / s = 0.
Proof. intros H. apply Nat.div_small. lia. Qed.

Lemma block_count_step (n s : nat) :
  0 < s -> 0 < n -> (n + s - 1) / s = S ((n - s + s - 1) / s).
Proof.
  intros Hs Hn.
  destruct (le_lt_dec s n) as [Hle|Hlt].
  - replace (n + s - 1) with ((n - s + s - 1) + 1 * s) by lia.
    rewrite Nat.div_add by lia. apply Nat.add_1_r.
  - replace (n - s + s - 1) with (s - 1) by lia.
    rewrite (Nat.div_small (s - 1) s) by lia.
    assert (H1 : (n + s - 1) / s < 2).
    { apply Nat.Div0.div_lt_upper_bound. lia. }
    assert (H2 : 1 <= (n + s - 1) / s).
    { apply Nat.div_le_lower_bound; lia. }
    generalize dependent ((n + s - 1) / s). intros q Hq1 Hq2. lia.
Qed.

Lemma block_starts_step (n s : nat) :
  0 < s -> 0 < n ->
  block_starts n s = 0 :: map (fun i => s + i) (block_starts (n - s) s).
Proof.
  intros Hs Hn. unfold block_starts.
  rewrite (block_count_step Hs Hn). cbn [seq map].
  f_equal. rewrite <- seq_shift, !map_map.
  apply map_ext. intros k. lia.
Qed.

Lemma row_block_shift (X : list A) (s i : nat) :
  row_block X (s + i) s = row_block (skipn s X) i s.
Proof.
  unfold row_block. rewrite skipn_skipn. f_equal. f_equal. lia.
Qed.

(** The blocks, in the order of the loop, tile the batch. *)
Lemma blocks_tile (s : nat) :
  0 < s ->
  forall (n : nat) (X : list A), length X <= n ->
  concat (map (fun i => row_block X i s) (block_starts (length X) s)) = X.
Proof.
  intros Hs. induction n as [|n IH]; intros X Hn.
  - destruct X; [|simpl in Hn; lia].
    unfold block_starts. simpl length. rewrite (block_count_nil Hs). reflexivity.
  - destruct X as [|a X'] eqn:EX.
    + unfold block_starts. simpl length. rewrite (block_count_nil Hs). reflexivity.
    + rewrite <- EX in *. assert (Hpos : 0 < length X) by (subst; simpl; lia).
      rewrite (block_starts_step Hs Hpos). cbn [map concat].
      rewrite map_map.
      rewrite (map_ext _ (fun i => row_block (skipn s X) i s))
        by (intros; apply row_block_shift).
      rewrite <- (length_skipn s X).
      rewrite IH by (rewrite length_skipn; lia).
      unfold row_block. simpl skipn. apply firstn_skipn.
Qed.

Lemma block_starts_nonempty (n s : nat) : 0 < s -> 0 < n -> block_starts n s <> [].
Proof.
  intros Hs Hn. rewrite (block_starts_step Hs Hn). discriminate.
Qed.

Lemma row_block_nonempty (X : list A) (s i : nat) :
  0 < s -> In i (block_starts (length X) s) -> row_block X i s <> [].
Proof.
  intros Hs Hi. unfold block_starts in Hi.
  apply in_map_iff in Hi as (k & <- & Hk). apply in_seq in Hk.
  assert (Hlt : k * s < length X).
  { destruct Hk as [_ Hk]. simpl in Hk.
    destruct (le_lt_dec (length X) (k * s)) as [Hge|]; [|assumption].
    exfalso.
    assert ((length X + s - 1) / s <= k); [|lia].
    apply Nat.lt_succ_r. apply Nat.Div0.div_lt_upper_bound. nia. }
  unfold row_block. intros E.
  assert (Hl : length (firstn s (skipn (k * s) X)) = 0) by (rewrite E; reflexivity).
  rewrite length_firstn, length_skipn in Hl. lia.
Qed.

(** A loop that maps each block and concatenates, against one pass. *)
Lemma blocked_map {B : Type} (body : list A -> res (list B)) (f : A -> B)
    (X : list A) (s : nat) :
  0 < s -> X <> [] ->
  (forall blk, blk <> [] -> body blk = OK (map f blk)) ->
  (bs <- mapM (fun i => body (row_block X i s)) (block_starts (length X) s) ;;
   np_concatenate bs) = OK (map f X).
Proof.
  intros Hs HX Hbody.
  rewrite (mapM_ok_map _ (fun i => map f (row_block X i s))).
  2:{ intros i Hi. apply Hbody. apply row_block_nonempty; assumption. }
  cbn [bind]. unfold np_concatenate.
  assert (Hpos : 0 < length X) by (destruct X; [congruence | simpl; lia]).
  pose proof (block_starts_nonempty Hs Hpos) as Hne.
  destruct (map (fun i => map f (row_block X i s)) (block_starts (length X) s)) eqn:E.
  - destruct (block_starts (length X) s); [congruence | discriminate].
  - rewrite <- E. f_equal.
    rewrite <- (map_map (fun i => row_block X i s) (map f)).
    rewrite <- concat_map. f_equal. apply (blocks_tile Hs (n := length X)). lia.
Qed.

Lemma blocked_map_post {B C : Type} (body : list A -> res (list B)) (f : A -> B)
    (post : list B -> C) (X : list A) (s : nat) :
  0 < s -> X <> [] ->
  (forall blk, blk <> [] -> body blk = OK (map f blk)) ->
  (bs <- mapM (fun i => body (row_block X i s)) (block_starts (length X) s) ;;
   all <- np_concatenate bs ;;
   OK (post all)) = OK (post (map f X)).
Proof.
  intros Hs HX Hbody.
  pose proof (blocked_map body f Hs HX Hbody) as H.
  apply bind_ok_inv in H as (bs & Hbs & Hcat).
  rewrite Hbs. cbn [bind]. rewrite Hcat. reflexivity.
Qed.

End Blocks.

(** ** The binary SVM estimator *)

Section BinarySVMFacts.
Context {Sc : Scalar}.

Add Ring scalar_ring_svm : scalar_ring.

(** The decision value of one query row of a fitted estimator. *)
Lemma decision_function_fitted (est : BinarySVM.t) (K : Vec -> Vec -> num) (X : Matrix) :
  svm_fitted est K -> X <> [] ->
  BinarySVM.decision_function est X =
    OK (map (fun r => add (np_sum (impact_of est K r)) (BinarySVM.intercept_ est)) X).
Proof.
  intros Hf HX.
  assert (Hps : (1 <= BinarySVM.pred_size (BinarySVM.hyper est))%Z) by apply Hf.
  unfold BinarySVM.decision_function.
  rewrite (py_range0_pos _ Hps). cbn [bind].
  apply blocked_map; [lia | assumption |].
  intros blk Hblk. apply block_decision_fitted; assumption.
Qed.

Lemma decision_function_no_rows (est : BinarySVM.t) (K : Vec -> Vec -> num) :
  svm_fitted est K -> BinarySVM.decision_function est [] = Raise ValueError.
Proof.
  intros Hf.
  assert (Hps : (1 <= BinarySVM.pred_size (BinarySVM.hyper est))%Z) by apply Hf.
  unfold BinarySVM.decision_function.
  rewrite (py_range0_pos _ Hps). cbn [bind length].
  unfold block_starts. rewrite block_count_nil by lia. reflexivity.
Qed.

(** C1. For a fitted binary SVM estimator and a single query [x] of shape
    (1, n_features), [explain(x)] succeeds and [decision_function(x)] is
    the one-element array holding [explain(x).sum() + intercept_]. *)
Theorem decision_is_explain_sum_plus_intercept
    (est : BinarySVM.t) (K : Vec -> Vec -> num) (x : Matrix) :
  svm_fitted est K ->
  single_query x (BinarySVM.X_train_ est) ->
  exists m,
    BinarySVM.explain est x = OK m
    /\ BinarySVM.decision_function est x
       = OK [add (csr_sum m) (BinarySVM.intercept_ est)].
Proof.
  intros Hf Hx.
  apply single_query_inv in Hx as (r & -> & Hr).
  eexists. split.
  - apply explain_fitted; eassumption.
  - rewrite (decision_function_fitted Hf) by discriminate.
    cbn [map]. unfold csr_sum. cbn [csr_rows map sr_data].
    unfold np_sum. cbn [fold_right].
    match goal with |- OK [?a] = OK [?b] => replace b with a by ring end.
    reflexivity.
Qed.

(** C8. For a fitted binary SVM estimator (block size [pred_size >= 1])
    and every batch [X], the row-blocked [decision_function] has the
    outcome of the one-block computation; on a batch with rows of the
    training width, this outcome is the vector of the per-row decision
    values, in the order of the rows. *)
Theorem blocked_decision_equals_one_block
    (est : BinarySVM.t) (K : Vec -> Vec -> num) (X : Matrix) :
  svm_fitted est K ->
  BinarySVM.decision_function est X = decision_one_block est X
  /\ (X <> [] ->
      batch_of_training_width X (BinarySVM.X_train_ est) ->
      BinarySVM.decision_function est X =
        OK (map (fun r => add (np_sum (impact_of est K r)) (BinarySVM.intercept_ est)) X)).
Proof.
  intros Hf. split.
  - unfold decision_one_block. destruct X as [|r X'].
    + rewrite (decision_function_no_rows Hf), (block_decision_no_rows Hf). reflexivity.
    + rewrite (decision_function_fitted Hf), (block_decision_fitted Hf) by discriminate.
      reflexivity.
  - intros HX _. apply decision_function_fitted; assumption.
Qed.

End BinarySVMFacts.

Lemma svm0_fitted : svm_fitted Examples.svm0 dot.
Proof.
  repeat split.
  - discriminate.
  - simpl. repeat constructor.
  - simpl. lia.
Defined.

Lemma decision_is_explain_sum_plus_intercept_witness :
  single_query Examples.query0 (BinarySVM.X_train_ Examples.svm0)
  /\ exists m,
       BinarySVM.explain Examples.svm0 Examples.query0 = OK m
       /\ BinarySVM.decision_function Examples.svm0 Examples.query0
          = OK [add (csr_sum m) (BinarySVM.intercept_ Examples.svm0)].
Proof.
  assert (H : single_query Examples.query0 (BinarySVM.X_train_ Examples.svm0))
    by reflexivity.
  split; [exact H|].
  exact (decision_is_explain_sum_plus_intercept svm0_fitted H).
Defined.

Lemma batch0_of_training_width :
  batch_of_training_width Examples.batch0 (BinarySVM.X_train_ Examples.svm0).
Proof.
  split; [simpl; lia | repeat constructor].
Defined.

Lemma blocked_decision_equals_one_block_witness :
  BinarySVM.decision_function Examples.svm0 Examples.batch0
    = decision_one_block Examples.svm0 Examples.batch0
  /\ BinarySVM.decision_function Examples.svm0 Examples.batch0 = OK [4; 5; 3]%Z.
Proof.
  destruct (blocked_decision_equals_one_block Examples.batch0 svm0_fitted) as [Hsame Hval].
  split; [exact Hsame|].
  apply Hval; [discriminate | exact batch0_of_training_width].
Defined.

Example decision_function_batch0 :
  BinarySVM.decision_function Examples.svm0 Examples.batch0 = OK [4; 5; 3]%Z.
Proof. reflexivity. Qed.

Example explain_query0 :
  BinarySVM.explain Examples.svm0 Examples.query0
  = OK {| csr_rows := [ {| sr_data := [6; -7]%Z; sr_indices := [0; 2] |} ];
          csr_ncols := 3 |}.
Proof. reflexivity. Qed.

(** ** Explanation, similarity and weight *)

Section WeightFacts.
Context {Sc : Scalar}.

Add Ring scalar_ring_weight : scalar_ring.

Lemma nth_map_lt {A B : Type} (f : A -> B) (l : list A) (i : nat) (da : A) (db : B) :
  i < length l -> nth i (map f l) db = f (nth i l da).
Proof.
  intros H. rewrite (nth_indep _ db (f da)) by (rewrite length_map; exact H).
  apply map_nth.
Qed.

Lemma row_toarray_nth (n : nat) (r : sparse_row) (i : nat) :
  i < n -> nth i (row_toarray n r) zero = row_entry r i.
Proof.
  intros H. unfold row_toarray.
  rewrite (nth_map_lt _ _ 0) by (rewrite length_seq; exact H).
  rewrite seq_nth by exact H. reflexivity.
Qed.

(** Scaling the stored values of a row by a factor that depends on the
    column scales every dense entry by the factor of its column. *)
Lemma row_entry_scaled (g : nat -> num) (idx : list nat) (coef : Vec) (i : nat) :
  row_entry {| sr_data := map (fun p => mul (fst p) (snd p)) (combine (map g idx) coef);
               sr_indices := idx |} i
  = mul (g i) (row_entry {| sr_data := coef; sr_indices := idx |} i).
Proof.
  unfold row_entry. cbn [sr_data sr_indices].
  revert coef. induction idx as [|j idx IH]; intros coef.
  - simpl. ring.
  - destruct coef as [|c coef]; [simpl; ring|].
    cbn [map combine filter fst snd].
    destruct (Nat.eqb_spec j i) as [->|Hne].
    + cbn [map snd np_sum fold_right]. fold (np_sum). 
      change (fold_right add zero) with np_sum.
      rewrite IH. ring.
    + apply IH.
Qed.

Lemma row_entry_absent (idx : list nat) (coef : Vec) (i : nat) :
  ~ In i idx -> row_entry {| sr_data := coef; sr_indices := idx |} i = zero.
Proof.
  unfold row_entry. cbn [sr_data sr_indices].
  revert coef. induction idx as [|j idx IH]; intros coef Hi; [reflexivity|].
  destruct coef as [|c coef]; [reflexivity|].
  cbn [combine filter fst].
  destruct (Nat.eqb_spec j i) as [->|Hne].
  - exfalso. apply Hi. left. reflexivity.
  - apply IH. intros H. apply Hi. right. exact H.
Qed.

Lemma get_weight_fitted (est : BinarySVM.t) (K : Vec -> Vec -> num) :
  svm_fitted est K ->
  BinarySVM.get_weight est =
    OK {| csr_rows := [ {| sr_data := BinarySVM.coef_ est;
                           sr_indices := BinarySVM.coef_indices_ est |} ];
          csr_ncols := length (BinarySVM.X_train_ est) |}.
Proof.
  intros (_ & _ & Hlen & _). unfold BinarySVM.get_weight, csr_one_row.
  rewrite Hlen, Nat.eqb_refl. reflexivity.
Qed.

Lemma train_rows_nonempty (est : BinarySVM.t) (K : Vec -> Vec -> num) :
  svm_fitted est K -> BinarySVM.X_train_ est <> [].
Proof.
  intros (_ & Hne & _ & Hidx & _) E. rewrite E in Hidx.
  destruct (BinarySVM.coef_indices_ est) as [|i idx]; [congruence|].
  inversion Hidx; subst. simpl in *. lia.
Qed.

Lemma svm_explain_is_similarity_times_weight
    (est : BinarySVM.t) (K : Vec -> Vec -> num) (x : Matrix) :
  svm_fitted est K ->
  single_query x (BinarySVM.X_train_ est) ->
  exists e s w,
    BinarySVM.explain est x = OK e
    /\ svm_similarity est x = OK s
    /\ BinarySVM.get_weight est = OK w
    /\ forall i, i < length (BinarySVM.X_train_ est) ->
         entry s i = K (nth 0 x []) (train_row (BinarySVM.X_train_ est) i)
         /\ entry (toarray e) i = mul (entry s i) (entry (toarray w) i)
         /\ (~ In i (BinarySVM.coef_indices_ est) -> entry (toarray w) i = zero).
Proof.
  intros Hf Hx.
  apply single_query_inv in Hx as (r & -> & Hr).
  do 3 eexists. split; [|split; [|split]].
  - apply explain_fitted; eassumption.
  - unfold svm_similarity.
    rewrite (proj1 Hf).
    apply registry_kernel_ok; [discriminate|].
    apply (train_rows_nonempty Hf).
  - apply (get_weight_fitted Hf).
  - intros i Hi. unfold entry, toarray. cbn [csr_rows csr_ncols map nth pairwise].
    rewrite !row_toarray_nth by exact Hi.
    rewrite (nth_map_lt (K r) (BinarySVM.X_train_ est) [] zero Hi).
    split; [reflexivity|]. split.
    + unfold impact_of.
      apply (row_entry_scaled
               (fun j => K r (train_row (BinarySVM.X_train_ est) j))).
    + apply row_entry_absent.
Qed.

End WeightFacts.

Section WeightFactsKLR.
Context {Sc : Scalar}.

Lemma nth_products (a b : Vec) (i : nat) :
  i < length a -> i < length b ->
  nth i (map (fun p => mul (fst p) (snd p)) (combine a b)) zero
  = mul (nth i a zero) (nth i b zero).
Proof.
  revert b i. induction a as [|u a IH]; intros b i Ha Hb; [simpl in Ha; lia|].
  destruct b as [|v b]; [simpl in Hb; lia|].
  destruct i as [|i]; [reflexivity|].
  simpl in *. apply IH; lia.
Qed.

Lemma klr_explain_fitted (est : BinaryKernelLogisticRegression.t) (r : Vec) :
  klr_fitted est ->
  length r = ncols (BinaryKernelLogisticRegression.X_train_ est) ->
  BinaryKernelLogisticRegression.explain est [r]
  = OK [map (fun p => mul (fst p) (snd p))
            (combine (map (dot r) (BinaryKernelLogisticRegression.X_train_ est))
                     (BinaryKernelLogisticRegression.coef_ est))].
Proof.
  intros (Hne & Hlen & Hps) Hr.
  unfold BinaryKernelLogisticRegression.explain.
  cbn [length ncols]. rewrite Hr, !Nat.eqb_refl. cbn [andb assert bind].
  unfold linear_kernel. rewrite registry_kernel_ok by (assumption || discriminate).
  cbn [bind pairwise map matrix_times_vec mapM].
  rewrite broadcast_mul_same by (rewrite length_map; symmetry; exact Hlen).
  reflexivity.
Qed.

Lemma klr_explain_is_similarity_times_weight
    (est : BinaryKernelLogisticRegression.t) (x : Matrix) :
  klr_fitted est ->
  single_query x (BinaryKernelLogisticRegression.X_train_ est) ->
  exists e s,
    BinaryKernelLogisticRegression.explain est x = OK e
    /\ klr_similarity est x = OK s
    /\ forall i, i < length (BinaryKernelLogisticRegression.X_train_ est) ->
         entry s i = dot (nth 0 x []) (train_row (BinaryKernelLogisticRegression.X_train_ est) i)
         /\ entry e i
            = mul (entry s i) (nth i (BinaryKernelLogisticRegression.get_weight est) zero).
Proof.
  intros Hf Hx.
  apply single_query_inv in Hx as (r & -> & Hr).
  do 2 eexists. split; [|split].
  - apply klr_explain_fitted; assumption.
  - unfold klr_similarity, linear_kernel.
    apply registry_kernel_ok; [discriminate | apply Hf].
  - intros i Hi. unfold entry. cbn [pairwise map nth].
    destruct Hf as (Hne & Hlen & Hps).
    rewrite (nth_map_lt (dot r) (BinaryKernelLogisticRegression.X_train_ est) [] zero Hi).
    split; [reflexivity|].
    rewrite nth_products by (rewrite ?length_map; lia).
    rewrite (nth_map_lt (dot r) (BinaryKernelLogisticRegression.X_train_ est) [] zero Hi).
    reflexivity.
Qed.

(** C2. For a fitted binary estimator of either backend and a single
    query [x], [explain(x)], the similarity row of [x] against the whole
    training set and [get_weight()] all succeed, and at every training
    index [i] the explanation is the product of the kernel value
    [K(x, train_i)] and the weight; for the SVM backend the weight is 0
    at every index that is not a support index. *)
Theorem explain_is_similarity_times_weight :
  (forall (est : BinarySVM.t) (K : Vec -> Vec -> num) (x : Matrix),
     svm_fitted est K ->
     single_query x (BinarySVM.X_train_ est) ->
     exists e s w,
       BinarySVM.explain est x = OK e
       /\ svm_similarity est x = OK s
       /\ BinarySVM.get_weight est = OK w
       /\ forall i, i < length (BinarySVM.X_train_ est) ->
            entry s i = K (nth 0 x []) (train_row (BinarySVM.X_train_ est) i)
            /\ entry (toarray e) i = mul (entry s i) (entry (toarray w) i)
            /\ (~ In i (BinarySVM.coef_indices_ est) -> entry (toarray w) i = zero))
  /\
  (forall (est : BinaryKernelLogisticRegression.t) (x : Matrix),
     klr_fitted est ->
     single_query x (BinaryKernelLogisticRegression.X_train_ est) ->
     exists e s,
       BinaryKernelLogisticRegression.explain est x = OK e
       /\ klr_similarity est x = OK s
       /\ forall i, i < length (BinaryKernelLogisticRegression.X_train_ est) ->
            entry s i
            = dot (nth 0 x []) (train_row (BinaryKernelLogisticRegression.X_train_ est) i)
            /\ entry e i
               = mul (entry s i)
                     (nth i (BinaryKernelLogisticRegression.get_weight est) zero)).
Proof.
  split.
  - apply svm_explain_is_similarity_times_weight.
  - apply klr_explain_is_similarity_times_weight.
Qed.

End WeightFactsKLR.

Lemma klr0_fitted : klr_fitted Examples.klr0.
Proof.
  repeat split.
  - discriminate.
  - simpl. lia.
Defined.

Lemma explain_is_similarity_times_weight_witness :
  (exists e s w,
     BinarySVM.explain Examples.svm0 Examples.query0 = OK e
     /\ svm_similarity Examples.svm0 Examples.query0 = OK s
     /\ BinarySVM.get_weight Examples.svm0 = OK w
     /\ forall i, i < 3 ->
          entry s i = dot (nth 0 Examples.query0 [])
                          (train_row (BinarySVM.X_train_ Examples.svm0) i)
          /\ entry (toarray e) i = mul (entry s i) (entry (toarray w) i)
          /\ (~ In i (BinarySVM.coef_indices_ Examples.svm0) -> entry (toarray w) i = zero))
  /\
  (exists e s,
     BinaryKernelLogisticRegression.explain Examples.klr0 Examples.query0 = OK e
     /\ klr_similarity Examples.klr0 Examples.query0 = OK s
     /\ forall i, i < 3 ->
          entry s i
          = dot (nth 0 Examples.query0 [])
                (train_row (BinaryKernelLogisticRegression.X_train_ Examples.klr0) i)
          /\ entry e i
             = mul (entry s i)
                   (nth i (BinaryKernelLogisticRegression.get_weight Examples.klr0) zero)).
Proof.
  split.
  - apply (proj1 explain_is_similarity_times_weight Examples.svm0 dot Examples.query0).
    + exact svm0_fitted.
    + reflexivity.
  - apply (proj2 explain_is_similarity_times_weight Examples.klr0 Examples.query0).
    + exact klr0_fitted.
    + reflexivity.
Defined.

Example explain_query0_dense :
  option_map toarray
    (match BinarySVM.explain Examples.svm0 Examples.query0 with
     | OK m => Some m | Raise _ => None end)
  = Some [[6; 0; -7]%Z].
Proof. reflexivity. Qed.

(** ** The model-file parser *)

Section ParseModelFacts.
Context {Sc : Scalar} {E : Env}.
Import PyStr liblinear_util.

Lemma item_ok_inv {A : Type} (l : list A) (i : nat) (a : A) :
  item l i = OK a -> nth_error l i = Some a.
Proof.
  unfold item. destruct (nth_error l i); intros H; inversion H; reflexivity.
Qed.

Lemma assert_ok_inv (b : bool) (u : unit) : assert b = OK u -> b = true.
Proof. destruct b; [reflexivity | discriminate]. Qed.

Lemma prefix_first_char (a b : ascii) (p q l : string) :
  String.prefix (String a p) l = true ->
  String.prefix (String b q) l = true -> a = b.
Proof.
  destruct l as [|c l]; simpl; [discriminate|].
  destruct (ascii_dec a c); [|discriminate].
  destruct (ascii_dec b c); [|discriminate].
  congruence.
Qed.

(** A line that takes one of the other seven branches is not an alpha
    line: no two of the keywords begin with the same letter as
    [alpha]. *)
Lemma not_alpha (line : string) (c : ascii) (p : string) :
  c <> "a"%char -> startswith line (String c p) = true ->
  startswith line "alpha" = false.
Proof.
  intros Hc Hp. destruct (startswith line "alpha") eqn:Ha; [|reflexivity].
  exfalso. apply Hc. unfold startswith in *.
  eapply prefix_first_char; [exact Hp | exact Ha].
Qed.

Lemma parse_line_header (lines : list string) (st st' : locals) (i : nat)
    (raw : string) :
  parse_line lines st i raw = OK st' -> header_ok raw = true.
Proof.
  unfold parse_line, header_ok. cbv zeta.
  destruct (startswith (strip raw) "solver_type").
  { intros H. apply bind_ok_inv in H as (tok & Ht & H).
    apply bind_ok_inv in H as (u & Hu & _).
    rewrite (item_ok_inv _ _ Ht). exact (assert_ok_inv _ Hu). }
  destruct (startswith (strip raw) "nr_class").
  { intros H. apply bind_ok_inv in H as (tok & Ht & H).
    apply bind_ok_inv in H as (u & Hu & _).
    rewrite (item_ok_inv _ _ Ht). exact (assert_ok_inv _ Hu). }
  destruct (startswith (strip raw) "label"); [|reflexivity].
  intros H. apply bind_ok_inv in H as (t1 & Ht1 & H).
  apply bind_ok_inv in H as (ok & Hok & H).
  apply bind_ok_inv in H as (u & Hu & _).
  apply assert_ok_inv in Hu. subst ok.
  rewrite (item_ok_inv _ _ Ht1).
  destruct (String.eqb t1 "1"); [|discriminate].
  apply bind_ok_inv in Hok as (t2 & Ht2 & Hok).
  rewrite (item_ok_inv _ _ Ht2). simpl.
  destruct (String.eqb t2 "0"); [reflexivity|].
  apply bind_ok_inv in Hok as (t2' & Ht2' & Hok).
  rewrite Ht2 in Ht2'. injection Ht2' as <-.
  injection Hok as Hb. simpl. exact Hb.
Qed.

Lemma locals_inv_step_same (lines : list string) (i : nat) (st : locals)
    (raw : string) :
  nth_error lines i = Some raw ->
  startswith (strip raw) "alpha" = false ->
  locals_inv lines i st -> locals_inv lines (S i) st.
Proof.
  intros Hraw Hna (H1 & H2 & H3). repeat split.
  - intros n Hn. destruct (H1 n Hn) as (j & Hj & Hs). exists j. split; [lia | exact Hs].
  - intros a Ha. destruct (H2 a Ha) as (k & Hk & Hb). exists k. split; [lia | exact Hb].
  - intros Ha k Hk (raw' & Hraw' & Hal).
    destruct (Nat.eq_dec k i) as [->|Hne].
    + rewrite Hraw in Hraw'. inversion Hraw'; subst raw'. congruence.
    + apply (H3 Ha k); [lia|]. exists raw'. split; assumption.
Qed.

Lemma parse_line_inv (lines : list string) (st st' : locals) (i : nat)
    (raw : string) :
  nth_error lines i = Some raw ->
  locals_inv lines i st ->
  parse_line lines st i raw = OK st' ->
  locals_inv lines (S i) st'.
Proof.
  intros Hraw Hinv. unfold parse_line. cbv zeta.
  destruct (startswith (strip raw) "solver_type") eqn:B1.
  { intros H. apply bind_ok_inv in H as (? & _ & H).
    apply bind_ok_inv in H as (? & _ & H). inversion H; subst.
    eapply locals_inv_step_same; eauto. eapply not_alpha; [|exact B1]. discriminate. }
  destruct (startswith (strip raw) "nr_class") eqn:B2.
  { intros H. apply bind_ok_inv in H as (? & _ & H).
    apply bind_ok_inv in H as (? & _ & H). inversion H; subst.
    eapply locals_inv_step_same; eauto. eapply not_alpha; [|exact B2]. discriminate. }
  destruct (startswith (strip raw) "label") eqn:B3.
  { intros H. apply bind_ok_inv in H as (? & _ & H).
    apply bind_ok_inv in H as (? & _ & H).
    apply bind_ok_inv in H as (? & _ & H). inversion H; subst.
    eapply locals_inv_step_same; eauto. eapply not_alpha; [|exact B3]. discriminate. }
  destruct (startswith (strip raw) "nr_feature") eqn:B4.
  { intros H. apply bind_ok_inv in H as (? & _ & H).
    apply bind_ok_inv in H as (? & _ & H). inversion H; subst.
    assert (Hs : locals_inv lines (S i) st).
    { eapply locals_inv_step_same; eauto. eapply not_alpha; [|exact B4]. discriminate. }
    exact Hs. }
  destruct (startswith (strip raw) "bias") eqn:B5.
  { intros H. inversion H; subst.
    eapply locals_inv_step_same; eauto. eapply not_alpha; [|exact B5]. discriminate. }
  destruct (startswith (strip raw) "w") eqn:B6.
  { intros H. apply bind_ok_inv in H as (? & _ & H).
    apply bind_ok_inv in H as (? & _ & H). inversion H; subst.
    eapply locals_inv_step_same; eauto. eapply not_alpha; [|exact B6]. discriminate. }
  destruct (startswith (strip raw) "nr_sample") eqn:B7.
  { intros H. apply bind_ok_inv in H as (tok & Ht & H).
    apply bind_ok_inv in H as (n & Hn & H). inversion H; subst.
    assert (Hs : locals_inv lines (S i) st).
    { eapply locals_inv_step_same; eauto. eapply not_alpha; [|exact B7]. discriminate. }
    destruct Hs as (H1 & H2 & H3). repeat split; cbn [nr_sample alpha].
    - intros n' Hn'. inversion Hn'; subst n'. exists i. split; [lia|].
      exists raw, tok. repeat split; auto using item_ok_inv.
    - exact H2.
    - exact H3. }
  destruct (startswith (strip raw) "alpha") eqn:B8.
  { intros H. apply bind_ok_inv in H as (next & Hnext & H).
    apply bind_ok_inv in H as (a & Ha & H).
    apply bind_ok_inv in H as (n & Hn & H).
    apply bind_ok_inv in H as (u & Hu & H). inversion H; subst.
    apply assert_ok_inv in Hu. apply Z.eqb_eq in Hu.
    destruct Hinv as (H1 & H2 & H3). repeat split; cbn [nr_sample alpha].
    - intros n' Hn'. destruct (H1 n' Hn') as (j & Hj & Hs).
      exists j. split; [lia | exact Hs].
    - intros a' Ha'. inversion Ha'; subst a'. exists i. split; [lia|].
      repeat split.
      + exists raw. split; assumption.
      + exists next. split; [|exact Ha].
        apply item_ok_inv in Hnext. rewrite Nat.add_1_r in Hnext. exact Hnext.
      + unfold read_local in Hn.
        destruct (nr_sample st) as [n0|] eqn:En; [|discriminate].
        inversion Hn; subst n0.
        destruct (H1 n eq_refl) as (j & Hj & Hs).
        exists j. split; [exact Hj|]. rewrite Hu. exact Hs.
    - discriminate. }
  intros H. inversion H; subst.
  eapply locals_inv_step_same; eauto.
Qed.

Lemma parse_loop_inv (lines : list string) :
  forall (rest : list string) (i : nat) (st st' : locals),
    (forall j raw, nth_error rest j = Some raw -> nth_error lines (i + j) = Some raw) ->
    locals_inv lines i st ->
    parse_loop lines st i rest = OK st' ->
    locals_inv lines (i + length rest) st'
    /\ Forall (fun raw => header_ok raw = true) rest.
Proof.
  induction rest as [|raw rest IH]; intros i st st' Hrest Hinv H.
  - simpl in H. inversion H; subst. rewrite Nat.add_0_r. split; [exact Hinv | constructor].
  - simpl in H. apply bind_ok_inv in H as (st1 & Hline & Hloop).
    assert (Hraw : nth_error lines i = Some raw).
    { rewrite <- (Nat.add_0_r i). apply Hrest. reflexivity. }
    pose proof (parse_line_inv Hraw Hinv Hline) as Hinv1.
    destruct (IH (S i) st1 st') as [Hfin Hall]; [|exact Hinv1|exact Hloop|].
    + intros j raw' Hj. replace (S i + j) with (i + S j) by lia. apply Hrest. exact Hj.
    + split.
      * simpl length. replace (i + S (length rest)) with (S i + length rest) by lia.
        exact Hfin.
      * constructor; [|exact Hall]. eapply parse_line_header; eauto.
Qed.

End ParseModelFacts.

Section ParseModelTheorem.
Context {Sc : Scalar} {E : Env}.
Import PyStr liblinear_util.

(** C5 (as amended). When [parse_model_file] returns, every line that
    carries the solver type, the class count or the class labels has
    passed its check; a returned coefficient vector was read from the line
    after an alpha line and has exactly the length that an earlier
    [nr_sample] line declares; and the result is the empty [None] exactly
    when the file has no alpha line. (The feature count is only read,
    and an absent line is not missed.) *)
Theorem parse_model_checks_lines_present (lines : list string) (r : option Vec) :
  parse_model_lines lines = OK r ->
  Forall (fun raw => header_ok raw = true) lines
  /\ (forall a, r = Some a -> exists k, alpha_block_at lines k a)
  /\ (r = None <-> forall k, ~ alpha_line_at lines k).
Proof.
  unfold parse_model_lines. intros H.
  apply bind_ok_inv in H as (st & Hloop & H). injection H as <-.
  destruct (@parse_loop_inv _ _ lines lines 0 {| nr_feature := None;
              nr_sample := None; alpha := None |} st) as [Hinv Hall].
  - intros j raw Hj. exact Hj.
  - repeat split; cbn [nr_sample alpha]; try discriminate. intros _ k Hk. lia.
  - exact Hloop.
  - destruct Hinv as (H1 & H2 & H3). split; [exact Hall|]. split.
    + intros a Ha. destruct (H2 a Ha) as (k & _ & Hb). exists k. exact Hb.
    + split.
      * intros Hnone k Hal.
        destruct (le_lt_dec (length lines) k) as [Hge|Hlt].
        -- destruct Hal as (raw & Hraw & _).
           apply nth_error_None in Hge. congruence.
        -- apply (H3 Hnone k); [simpl; lia | exact Hal].
      * intros Hno. destruct (alpha st) as [a|] eqn:Ea; [|reflexivity].
        exfalso. destruct (H2 a eq_refl) as (k & _ & Hal & _).
        exact (Hno k Hal).
Qed.

End ParseModelTheorem.

Lemma parse_model_checks_lines_present_witness :
  liblinear_util.parse_model_lines (E := Examples.TestEnv) Examples.model_with_alpha
    = OK (Some [2; 0; -1]%Z)
  /\ (Forall (fun raw => header_ok raw = true) Examples.model_with_alpha
      /\ (forall a, Some [2; 0; -1]%Z = Some a ->
                    exists k, alpha_block_at (E := Examples.TestEnv)
                                Examples.model_with_alpha k a)
      /\ (Some [2; 0; -1]%Z = None <->
          forall k, ~ alpha_line_at Examples.model_with_alpha k)).
Proof.
  split; [reflexivity|].
  apply (parse_model_checks_lines_present (E := Examples.TestEnv)
           Examples.model_with_alpha).
  reflexivity.
Defined.

(** A model file without an alpha block is accepted: no error is raised
    and the result is [np.array(None)]. *)
Lemma parse_model_missing_alpha_accepted :
  liblinear_util.parse_model_lines (E := Examples.TestEnv) Examples.model_without_alpha
    = OK None
  /\ liblinear_util.parse_model_file (E := Examples.TestEnv) "model"
       [("model"%string, Examples.model_without_alpha)]
     = OK None.
Proof. split; reflexivity. Qed.

(** ** The prediction parsers *)

Section ParsePredictionFacts.
Context {Sc : Scalar} {E : Env}.
Import PyStr liblinear_util.

Lemma minus_to_zero_nth (ext : list Z) (i : nat) (l : Z) :
  nth_error ext i = Some l ->
  nth_error (minus_to_zero ext) i = Some (if (l =? -1)%Z then 0%Z else 1%Z).
Proof.
  intros H. unfold minus_to_zero. rewrite nth_error_map, H. reflexivity.
Qed.

(** With [minus_to_zeros], the parser returns 0 for the external label -1
    and 1 for every other external label, the label 0 of the {1, 0}
    convention included. *)
Lemma parse_lr_lines_relabel (lines : list string) (ext : list Z) (proba : Matrix) :
  parse_lr_lines lines false = OK (ext, proba) ->
  parse_lr_lines lines true = OK (minus_to_zero ext, proba).
Proof.
  unfold parse_lr_lines. intros H.
  apply bind_ok_inv in H as (h & -> & H). cbn [bind].
  apply bind_ok_inv in H as (u & -> & H). cbn [bind].
  apply bind_ok_inv in H as (rows & -> & H). cbn [bind].
  injection H as <- <-. reflexivity.
Qed.

End ParsePredictionFacts.

Section ParsePredictionTheorem.
Context {Sc : Scalar} {E : Env}.
Import PyStr liblinear_util.

Lemma minus_to_zero_labels (ext : list Z) (i : nat) :
  (nth_error ext i = Some (-1)%Z -> nth_error (minus_to_zero ext) i = Some 0%Z)
  /\ (nth_error ext i = Some 1%Z -> nth_error (minus_to_zero ext) i = Some 1%Z).
Proof.
  split; intros H; rewrite (minus_to_zero_nth _ _ H); reflexivity.
Qed.

Lemma parse_lr_lines_as_written (lines : list string) (ext : list Z) (proba : Matrix) :
  parse_lr_lines lines false = OK (ext, proba) ->
  forall i l, nth_error ext i = Some l ->
    exists p_str tok,
      nth_error lines (S i) = Some p_str
      /\ nth_error (split_space (strip p_str)) 0 = Some tok
      /\ py_int tok = OK l.
Proof.
  unfold parse_lr_lines. intros H i l Hl.
  apply bind_ok_inv in H as (h & _ & H).
  apply bind_ok_inv in H as (u & _ & H).
  apply bind_ok_inv in H as (rows & Hrows & H).
  injection H as <- <-.
  rewrite nth_error_map in Hl.
  destruct (nth_error rows i) as [row|] eqn:Erow; [|discriminate].
  injection Hl as <-.
  destruct (mapM_nth_error_inv _ _ Hrows i Erow) as (p_str & Hp & Hline).
  exists p_str. unfold parse_lr_line in Hline. cbv zeta in Hline.
  apply bind_ok_inv in Hline as (i0 & Hi0 & Hline).
  apply bind_ok_inv in Hline as (l0 & Hl0 & Hline).
  apply bind_ok_inv in Hline as (i1 & _ & Hline).
  apply bind_ok_inv in Hline as (p1 & _ & Hline).
  apply bind_ok_inv in Hline as (i2 & _ & Hline).
  apply bind_ok_inv in Hline as (p0 & _ & Hline).
  injection Hline as <-. exists i0. repeat split.
  - rewrite <- Hp. destruct lines; [destruct i; reflexivity | reflexivity].
  - apply item_ok_inv. exact Hi0.
  - exact Hl0.
Qed.

Lemma parse_linear_svc_lines_as_written (lines : list string) (ext : list Z) :
  parse_linear_svc_lines lines false = OK ext ->
  parse_linear_svc_lines lines true = OK (minus_to_zero ext)
  /\ forall i l, nth_error ext i = Some l ->
       exists p_str, nth_error lines i = Some p_str /\ py_int (strip p_str) = OK l.
Proof.
  unfold parse_linear_svc_lines. intros H.
  apply bind_ok_inv in H as (labels & Hlabels & H). injection H as <-.
  rewrite Hlabels. split; [reflexivity|].
  intros i l Hl. exact (mapM_nth_error_inv _ _ Hlabels i Hl).
Qed.

(** C4 (as amended). For a prediction file that parses: without
    [minus_to_zeros] both parsers return the labels as the file writes
    them (so a file in the {1, 0} convention comes back in {0, 1}); with
    [minus_to_zeros] the same file yields, position by position, 0 for
    the external label -1 and 1 for the external label 1, and the same
    probabilities. *)
Theorem prediction_labels_remapped_by_flag :
  (forall (lines : list string) (ext : list Z) (proba : Matrix),
     parse_lr_lines lines false = OK (ext, proba) ->
     (forall i l, nth_error ext i = Some l ->
        exists p_str tok,
          nth_error lines (S i) = Some p_str
          /\ nth_error (split_space (strip p_str)) 0 = Some tok
          /\ py_int tok = OK l)
     /\ exists got,
          parse_lr_lines lines true = OK (got, proba)
          /\ length got = length ext
          /\ forall i,
               (nth_error ext i = Some (-1)%Z -> nth_error got i = Some 0%Z)
               /\ (nth_error ext i = Some 1%Z -> nth_error got i = Some 1%Z))
  /\
  (forall (lines : list string) (ext : list Z),
     parse_linear_svc_lines lines false = OK ext ->
     (forall i l, nth_error ext i = Some l ->
        exists p_str, nth_error lines i = Some p_str /\ py_int (strip p_str) = OK l)
     /\ exists got,
          parse_linear_svc_lines lines true = OK got
          /\ length got = length ext
          /\ forall i,
               (nth_error ext i = Some (-1)%Z -> nth_error got i = Some 0%Z)
               /\ (nth_error ext i = Some 1%Z -> nth_error got i = Some 1%Z)).
Proof.
  split.
  - intros lines ext proba H. split.
    + apply (parse_lr_lines_as_written _ H).
    + exists (minus_to_zero ext). split; [apply parse_lr_lines_relabel; exact H|].
      split; [apply length_map | apply minus_to_zero_labels].
  - intros lines ext H.
    destruct (parse_linear_svc_lines_as_written _ H) as [Hon Hwritten].
    split; [exact Hwritten|].
    exists (minus_to_zero ext). split; [exact Hon|].
    split; [apply length_map | apply minus_to_zero_labels].
Qed.

End ParsePredictionTheorem.

Lemma prediction_labels_remapped_by_flag_witness :
  liblinear_util.parse_lr_lines (E := Examples.TestEnv) Examples.prediction_1_m1 false
    = OK ([-1; 1]%Z, [[1; 0]; [0; 1]]%Z)
  /\ exists got,
       liblinear_util.parse_lr_lines (E := Examples.TestEnv) Examples.prediction_1_m1 true
         = OK (got, [[1; 0]; [0; 1]]%Z)
       /\ length got = 2
       /\ forall i,
            (nth_error [-1; 1]%Z i = Some (-1)%Z -> nth_error got i = Some 0%Z)
            /\ (nth_error [-1; 1]%Z i = Some 1%Z -> nth_error got i = Some 1%Z).
Proof.
  split; [reflexivity|].
  exact (proj2 (proj1 (prediction_labels_remapped_by_flag (E := Examples.TestEnv))
                  Examples.prediction_1_m1 [-1; 1]%Z [[1; 0]; [0; 1]]%Z eq_refl)).
Defined.

(** On a prediction file in the {1, 0} convention, with [minus_to_zeros]
    the instance that the solver labels 0 (the negative class) comes back
    with label 1; a file in the {1, -1} convention comes back in {0, 1}. *)
Lemma lr_predictions_label_zero_returned_as_one :
  liblinear_util.parse_lr_lines (E := Examples.TestEnv) Examples.prediction_1_0 true
    = OK ([1; 1]%Z, [[1; 0]; [0; 1]]%Z)
  /\ liblinear_util.parse_lr_lines (E := Examples.TestEnv) Examples.prediction_1_0 false
     = OK ([0; 1]%Z, [[1; 0]; [0; 1]]%Z)
  /\ liblinear_util.parse_lr_lines (E := Examples.TestEnv) Examples.prediction_1_m1 true
     = OK ([0; 1]%Z, [[1; 0]; [0; 1]]%Z)
  /\ liblinear_util.parse_linear_svc_lines [Examples.line "0"; Examples.line "1"] true
     = OK [1; 1]%Z.
Proof. repeat split. Qed.

(** ** [BinaryKernelLogisticRegression.fit] *)

Section KLRFit.
Context {Sc : Scalar} {E : Env}.
Import liblinear_util.

Lemma getattr_train_model : getattr "train_model" = Raise AttributeError.
Proof. reflexivity. Qed.

Lemma getattr_predict : getattr "predict" = Raise AttributeError.
Proof. reflexivity. Qed.

Lemma getattr_parse_prediction_file :
  getattr "parse_prediction_file" = Raise AttributeError.
Proof. reflexivity. Qed.

(** C3. [fit] of the binary kernel logistic-regression estimator never
    returns: after the training file is written, the lookup of
    [liblinear_util.train_model] fails, whatever the training set and the
    outside world are. *)
Theorem klr_fit_never_returns
    (allclose_int : list Z -> list Z -> bool)
    (allclose_atol : num -> Vec -> Vec -> bool)
    (p : BinaryKernelLogisticRegression.params) (X : Matrix) (y : list Z)
    (n_check : nat) (atol : num) (w : World) :
  exists e,
    BinaryKernelLogisticRegression.fit allclose_int allclose_atol p X y n_check atol w
    = Raise e.
Proof.
  unfold BinaryKernelLogisticRegression.fit. cbv zeta.
  destruct (assert _) as [u|e]; [cbn [bind] | eexists; reflexivity].
  destruct (if path_exists _ w then _ else _) as [w1|e];
    [cbn [bind] | eexists; reflexivity].
  destruct (makedirs _ w1) as [w2|e]; [cbn [bind] | eexists; reflexivity].
  change (getattr "create_data_file") with (OK Fn_create_data_file). cbn [bind].
  destruct (BinaryKernelLogisticRegression.call_create _ _ _ _ _) as [w3|e];
    [cbn [bind] | eexists; reflexivity].
  rewrite getattr_train_model. eexists. reflexivity.
Qed.

End KLRFit.

(** On two labelled points, with a world in which every file operation
    succeeds, [fit] raises [AttributeError]. *)
Example klr_fit_two_points :
  BinaryKernelLogisticRegression.fit (E := Examples.TestEnv)
    (fun _ _ => true) (fun _ _ _ => true)
    (BinaryKernelLogisticRegression.hyper Examples.klr0)
    [[0]; [1]]%Z [0; 1]%Z 10 0%Z []
  = Raise AttributeError.
Proof. reflexivity. Qed.

(** ** Gamma resolution in [SVM.fit] *)

Section GammaFacts.
Context {Sc : Scalar}.

Lemma compute_gamma_spec (p : SVM.params) (X : Matrix) (n : nat) (g : gamma_param) :
  SVM._compute_gamma p X n = OK g -> g = resolved_gamma (SVM.gamma p) n X.
Proof.
  unfold SVM._compute_gamma, resolved_gamma.
  destruct (SVM.gamma p) as [s| |v].
  - destruct (String.eqb s "scale"); intros H; injection H as <-; reflexivity.
  - destruct (n =? 0); intros H; [discriminate | injection H as <-; reflexivity].
  - intros H; injection H as <-; reflexivity.
Qed.

Lemma compute_gamma_total (p : SVM.params) (X : Matrix) (n : nat) :
  (SVM.gamma p = GammaNone -> n <> 0) ->
  SVM._compute_gamma p X n = OK (resolved_gamma (SVM.gamma p) n X).
Proof.
  unfold SVM._compute_gamma, resolved_gamma. intros H.
  destruct (SVM.gamma p) as [s| |v].
  - destruct (String.eqb s "scale"); reflexivity.
  - destruct (Nat.eqb_spec n 0) as [->|]; [exfalso; apply H; reflexivity | reflexivity].
  - reflexivity.
Qed.

Lemma create_kernel_callable_gamma (p : SVM.params) (X : Matrix) (n : nat)
    (g : gamma_param) (lam : SVM.kernel_lambda) :
  SVM._create_kernel_callable p X n = OK (g, lam) ->
  SVM.kernel p <> "linear"%string ->
  g = resolved_gamma (SVM.gamma p) n X.
Proof.
  unfold SVM._create_kernel_callable. intros H Hk.
  apply bind_ok_inv in H as (u & _ & H).
  destruct (String.eqb (SVM.kernel p) "rbf").
  { apply bind_ok_inv in H as (g' & Hg & H). injection H as <- <-.
    eapply compute_gamma_spec; eauto. }
  destruct (String.eqb (SVM.kernel p) "poly").
  { apply bind_ok_inv in H as (g' & Hg & H). injection H as <- <-.
    eapply compute_gamma_spec; eauto. }
  destruct (String.eqb (SVM.kernel p) "sigmoid").
  { apply bind_ok_inv in H as (g' & Hg & H). injection H as <- <-.
    eapply compute_gamma_spec; eauto. }
  destruct (String.eqb_spec (SVM.kernel p) "linear"); [contradiction | discriminate].
Qed.

(** C9. In [SVM.fit]: an unsupported kernel name makes [fit] raise; for
    the kernels rbf, poly and sigmoid the resolution succeeds (unless
    gamma is [None] and there are no features to divide by); a fit that
    returns with a non-linear kernel has stored in [gamma_] the value of
    the resolution policy for the training set given to [fit]; and the
    fitted estimator computes its similarities with that stored
    [gamma_]. *)
Theorem svm_gamma_resolved_at_fit
    (OneVsRest_fit : BinarySVM.params -> Matrix -> list Z -> res SVM.OVR)
    (p : SVM.params) (X : Matrix) (y : list Z) :
  (existsb (String.eqb (SVM.kernel p)) ["rbf"; "poly"; "sigmoid"; "linear"]%string = false ->
   SVM.fit OneVsRest_fit p X y = Raise AssertionError)
  /\ (In (SVM.kernel p) ["rbf"; "poly"; "sigmoid"]%string ->
      (SVM.gamma p = GammaNone -> ncols X <> 0) ->
      exists lam,
        SVM._create_kernel_callable p X (ncols X)
        = OK (resolved_gamma (SVM.gamma p) (ncols X) X, lam))
  /\ (forall self,
        SVM.fit OneVsRest_fit p X y = OK self ->
        SVM.X_train_ self = X
        /\ (SVM.kernel p <> "linear"%string ->
            SVM.gamma_ self = resolved_gamma (SVM.gamma p) (ncols X) X)
        /\ (forall Xq,
              SVM.similarity self Xq None
              = SVM.call_kernel_func_ (SVM.kernel_func_ self) (SVM.gamma_ self) p Xq X)).
Proof.
  split; [|split].
  - intros Hk. unfold SVM.fit, SVM._create_kernel_callable. cbv zeta.
    rewrite Hk. reflexivity.
  - intros Hin Hg. unfold SVM._create_kernel_callable.
    assert (Hex : existsb (String.eqb (SVM.kernel p))
                    ["rbf"; "poly"; "sigmoid"; "linear"]%string = true).
    { simpl in Hin. destruct Hin as [<-|[<-|[<-|[]]]]; reflexivity. }
    rewrite Hex. cbn [assert bind].
    rewrite (compute_gamma_total p X Hg).
    simpl in Hin. destruct Hin as [<-|[<-|[<-|[]]]]; cbn; eexists; reflexivity.
  - intros self H. unfold SVM.fit in H. cbv zeta in H.
    apply bind_ok_inv in H as ([g lam] & Hc & H).
    apply bind_ok_inv in H as (ovr & _ & H). injection H as <-.
    cbn [SVM.X_train_ SVM.gamma_ SVM.kernel_func_]. split; [reflexivity|]. split.
    + intros Hk. eapply create_kernel_callable_gamma; eauto.
    + intros Xq. reflexivity.
Qed.

End GammaFacts.

Lemma svm_gamma_resolved_at_fit_witness :
  exists self,
    SVM.fit Examples.ovr_stub Examples.svm_rbf_params [[0]; [2]]%Z [0; 1]%Z = OK self
    /\ SVM.gamma_ self = GammaNum 1%Z
    /\ SVM.gamma_ self
       = resolved_gamma (SVM.gamma Examples.svm_rbf_params) 1 [[0]; [2]]%Z.
Proof.
  eexists. split; [reflexivity|]. split; [reflexivity|].
  refine (proj1 (proj2 (proj2 (proj2 (svm_gamma_resolved_at_fit
            Examples.ovr_stub Examples.svm_rbf_params [[0]; [2]]%Z [0; 1]%Z)) _ eq_refl)) _).
  discriminate.
Defined.

(** ** The self-check of [BinarySVM.fit] *)

Section SelfCheckFacts.
Context {Sc : Scalar}.
Variable SVC_fit : BinarySVM.params -> Matrix -> list Z -> res BinarySVM.SVC.
Variable allclose : Vec -> Vec -> bool.
Variable allclose_int : list Z -> list Z -> bool.

Lemma fit_unfold (p : BinarySVM.params) (X : Matrix) (y : list Z) (n_check : nat)
    (m : BinarySVM.SVC) (c : Vec) (cs : Matrix) (b : num) (bs : Vec) :
  SVC_fit p X y = OK m ->
  BinarySVM.dual_coef_ m = c :: cs ->
  BinarySVM.svc_intercept_ m = b :: bs ->
  BinarySVM.fit SVC_fit allclose allclose_int p X y n_check
  = (l1 <- BinarySVM.svc_predict m (firstn n_check X) ;;
     l2 <- BinarySVM.predict (assembled p X m c b) (firstn n_check X) ;;
     _ <- assert (allclose_int l1 l2) ;;
     d1 <- BinarySVM.svc_decision_function m (firstn n_check X) ;;
     d2 <- BinarySVM.decision_function (assembled p X m c b) (firstn n_check X) ;;
     _ <- assert (allclose d1 d2) ;;
     OK (assembled p X m c b)).
Proof.
  intros Hm Hc Hb. unfold BinarySVM.fit. rewrite Hm. cbn [bind].
  rewrite Hc, Hb. reflexivity.
Qed.

Lemma self_check_passed_inv (est : BinarySVM.t) (Xc : Matrix) :
  self_check allclose allclose_int est Xc = OK (true, true) ->
  exists l1 l2 d1 d2,
    BinarySVM.svc_predict (BinarySVM.model_ est) Xc = OK l1
    /\ BinarySVM.predict est Xc = OK l2
    /\ allclose_int l1 l2 = true
    /\ BinarySVM.svc_decision_function (BinarySVM.model_ est) Xc = OK d1
    /\ BinarySVM.decision_function est Xc = OK d2
    /\ allclose d1 d2 = true.
Proof.
  unfold self_check. intros H.
  apply bind_ok_inv in H as (l1 & Hl1 & H).
  apply bind_ok_inv in H as (l2 & Hl2 & H).
  apply bind_ok_inv in H as (d1 & Hd1 & H).
  apply bind_ok_inv in H as (d2 & Hd2 & H).
  injection H as Hl Hd. exists l1, l2, d1, d2. auto 10.
Qed.

(** C7. [fit] returns an estimator exactly when the solver has delivered
    a model and the self-check on the first [n_check] training rows has run
    to its end with both tolerance tests passed; and if the solver's labels
    or its decision values fail their tolerance test against the dual form,
    [fit] raises [AssertionError] and returns no estimator. *)
Theorem svm_fit_self_check (p : BinarySVM.params) (X : Matrix) (y : list Z)
    (n_check : nat) :
  (forall est,
     BinarySVM.fit SVC_fit allclose allclose_int p X y n_check = OK est
     <-> exists m c cs b bs,
           SVC_fit p X y = OK m
           /\ BinarySVM.dual_coef_ m = c :: cs
           /\ BinarySVM.svc_intercept_ m = b :: bs
           /\ est = assembled p X m c b
           /\ self_check allclose allclose_int est (firstn n_check X) = OK (true, true))
  /\ (forall m c cs b bs,
        SVC_fit p X y = OK m ->
        BinarySVM.dual_coef_ m = c :: cs ->
        BinarySVM.svc_intercept_ m = b :: bs ->
        (forall l1 l2,
           BinarySVM.svc_predict m (firstn n_check X) = OK l1 ->
           BinarySVM.predict (assembled p X m c b) (firstn n_check X) = OK l2 ->
           allclose_int l1 l2 = false ->
           BinarySVM.fit SVC_fit allclose allclose_int p X y n_check
           = Raise AssertionError)
        /\ (forall l1 l2 d1 d2,
              BinarySVM.svc_predict m (firstn n_check X) = OK l1 ->
              BinarySVM.predict (assembled p X m c b) (firstn n_check X) = OK l2 ->
              allclose_int l1 l2 = true ->
              BinarySVM.svc_decision_function m (firstn n_check X) = OK d1 ->
              BinarySVM.decision_function (assembled p X m c b) (firstn n_check X)
              = OK d2 ->
              allclose d1 d2 = false ->
              BinarySVM.fit SVC_fit allclose allclose_int p X y n_check
              = Raise AssertionError)).
Proof.
  split.
  - intros est. split.
    + intros H. unfold BinarySVM.fit in H.
      apply bind_ok_inv in H as (m & Hm & H).
      apply bind_ok_inv in H as (c & Hc & H).
      apply bind_ok_inv in H as (b & Hb & H).
      cbv zeta in H.
      apply bind_ok_inv in H as (l1 & Hl1 & H).
      apply bind_ok_inv in H as (l2 & Hl2 & H).
      apply bind_ok_inv in H as (u1 & Hu1 & H).
      apply bind_ok_inv in H as (d1 & Hd1 & H).
      apply bind_ok_inv in H as (d2 & Hd2 & H).
      apply bind_ok_inv in H as (u2 & Hu2 & H).
      injection H as <-.
      destruct (BinarySVM.dual_coef_ m) as [|c0 cs] eqn:Ec; [discriminate|].
      injection Hc as ->.
      destruct (BinarySVM.svc_intercept_ m) as [|b0 bs] eqn:Eb; [discriminate|].
      injection Hb as ->.
      exists m, c, cs, b, bs. repeat split; try assumption.
      unfold self_check, assembled. cbn [BinarySVM.model_].
      rewrite Hl1. cbn [bind]. rewrite Hl2. cbn [bind].
      rewrite Hd1. cbn [bind]. rewrite Hd2. cbn [bind].
      destruct (allclose_int l1 l2); [|discriminate].
      destruct (allclose d1 d2); [|discriminate]. reflexivity.
    + intros (m & c & cs & b & bs & Hm & Hc & Hb & -> & Hchk).
      rewrite (fit_unfold _ Hm Hc Hb).
      apply self_check_passed_inv in Hchk
        as (l1 & l2 & d1 & d2 & Hl1 & Hl2 & Hl & Hd1 & Hd2 & Hd).
      cbn [assembled BinarySVM.model_] in Hl1, Hd1.
      rewrite Hl1. cbn [bind]. rewrite Hl2. cbn [bind]. rewrite Hl. cbn [assert bind].
      rewrite Hd1. cbn [bind]. rewrite Hd2. cbn [bind]. rewrite Hd. reflexivity.
  - intros m c cs b bs Hm Hc Hb. split.
    + intros l1 l2 Hl1 Hl2 Hl. rewrite (fit_unfold _ Hm Hc Hb).
      rewrite Hl1. cbn [bind]. rewrite Hl2. cbn [bind]. rewrite Hl. reflexivity.
    + intros l1 l2 d1 d2 Hl1 Hl2 Hl Hd1 Hd2 Hd. rewrite (fit_unfold _ Hm Hc Hb).
      rewrite Hl1. cbn [bind]. rewrite Hl2. cbn [bind]. rewrite Hl. cbn [assert bind].
      rewrite Hd1. cbn [bind]. rewrite Hd2. cbn [bind]. rewrite Hd. reflexivity.
Qed.

End SelfCheckFacts.

(** ** The dispatchers' [explain] *)

Section StackFacts.

Lemma mapM_seq_nth {B : Type} (f : nat -> res B) (n : nat) (blocks : list B) :
  mapM f (seq 0 n) = OK blocks ->
  forall i, i < n -> exists b, nth_error blocks i = Some b /\ f i = OK b.
Proof.
  intros H i Hi.
  apply (mapM_nth_error _ _ H i).
  rewrite nth_error_nth' with (d := 0) by (rewrite length_seq; exact Hi).
  rewrite seq_nth by exact Hi. reflexivity.
Qed.

Lemma mapM_all {A B : Type} (f : A -> res B) (l : list A) (r : list B) :
  mapM f l = OK r -> Forall (fun b => exists a, f a = OK b) r.
Proof.
  revert r. induction l as [|a l IH]; simpl; intros r H.
  - injection H as <-. constructor.
  - apply bind_ok_inv in H as (b & Hb & H).
    apply bind_ok_inv in H as (bs & Hbs & H). injection H as <-.
    constructor; [eauto | apply IH; exact Hbs].
Qed.

(** Stacking blocks of one row each puts the row of block [i] at
    position [i]. *)
Lemma stacked_row {B R : Type} (rows : B -> list R) (blocks : list B) :
  Forall (fun b => exists r, rows b = [r]) blocks ->
  forall i b r, nth_error blocks i = Some b -> rows b = [r] ->
                nth_error (concat (map rows blocks)) i = Some r.
Proof.
  induction 1 as [|b0 blocks (r0 & Hr0) _ IH]; intros i b r Hi Hr.
  - destruct i; discriminate.
  - cbn [map concat]. rewrite Hr0. destruct i as [|i]; simpl in *.
    + injection Hi as <-. congruence.
    + eapply IH; eauto.
Qed.

Lemma mapi_from_nth {A B : Type} (f : nat -> A -> B) (l : list A) :
  forall k i a, nth_error l i = Some a ->
                nth_error (mapi_from f k l) i = Some (f (k + i) a).
Proof.
  induction l as [|a0 l IH]; intros k i a Hi; [destruct i; discriminate|].
  destruct i as [|i]; simpl in *.
  - injection Hi as <-. rewrite Nat.add_0_r. reflexivity.
  - rewrite (IH (S k) i a Hi). do 2 f_equal. lia.
Qed.

Lemma np_where_zero_ge (y : list Z) :
  forall k i, In i (np_where_zero k y) -> k <= i.
Proof.
  induction y as [|v y IH]; intros k i Hi; [destruct Hi|].
  simpl in Hi. destruct (v =? 0)%Z.
  - destruct Hi as [<-|Hi]; [lia | apply IH in Hi; lia].
  - apply IH in Hi; lia.
Qed.

(** Position [i] is among the indices of [np.where(y == 0)] exactly
    when [y[i]] is 0. *)
Lemma np_where_zero_mem (y : list Z) :
  forall k i v, nth_error y i = Some v ->
                existsb (Nat.eqb (k + i)) (np_where_zero k y) = (v =? 0)%Z.
Proof.
  induction y as [|v0 y IH]; intros k i v Hi; [destruct i; discriminate|].
  assert (Hfresh : existsb (Nat.eqb k) (np_where_zero (S k) y) = false).
  { destruct (existsb (Nat.eqb k) (np_where_zero (S k) y)) eqn:Ex; [|reflexivity].
    apply existsb_exists in Ex as (j & Hj & Hkj).
    apply Nat.eqb_eq in Hkj. subst j. apply np_where_zero_ge in Hj. lia. }
  destruct i as [|i]; simpl in Hi.
  - injection Hi as <-. rewrite Nat.add_0_r. cbn [np_where_zero].
    destruct (v0 =? 0)%Z; [|exact Hfresh].
    cbn [existsb]. rewrite Nat.eqb_refl. reflexivity.
  - rewrite <- Nat.add_succ_comm. cbn [np_where_zero].
    destruct (v0 =? 0)%Z.
    + cbn [existsb]. rewrite (IH (S k) i v Hi).
      destruct (Nat.eqb_spec (S k + i) k) as [Heq|_]; [lia | reflexivity].
    + apply (IH (S k)). exact Hi.
Qed.

Lemma scale_rows_nth {A : Type} (neg : A -> A) (y : list Z) (rows rows' : list A) :
  scale_rows neg (np_where_zero 0 y) rows = OK rows' ->
  forall i r v, nth_error rows i = Some r -> nth_error y i = Some v ->
                nth_error rows' i = Some (if (v =? 0)%Z then neg r else r).
Proof.
  unfold scale_rows. destruct (forallb _ _); [|discriminate].
  intros H i r v Hr Hv. injection H as <-.
  rewrite (mapi_from_nth _ _ 0 _ Hr).
  rewrite (np_where_zero_mem y 0 i Hv). reflexivity.
Qed.

End StackFacts.

Section ExplainFacts.
Context {Sc : Scalar}.

Lemma csr_one_row_rows (data : Vec) (idx : list nat) (n : nat) (m : csr_matrix) :
  csr_one_row data idx n = OK m -> exists r, csr_rows m = [r].
Proof.
  unfold csr_one_row. destruct (_ =? _); [|discriminate].
  intros H. injection H as <-. eexists. reflexivity.
Qed.

(** [BinarySVM.explain] returns a matrix with exactly one row. *)
Lemma svm_explain_one_row (e : BinarySVM.t) (x : Matrix) (m : csr_matrix) :
  BinarySVM.explain e x = OK m -> exists r, csr_rows m = [r].
Proof.
  unfold BinarySVM.explain. intros H.
  apply bind_ok_inv in H as (u & _ & H).
  apply bind_ok_inv in H as (sv & _ & H).
  apply bind_ok_inv in H as (xs & _ & H).
  apply bind_ok_inv in H as (prod & _ & H).
  destruct prod as [|impact prod]; [discriminate|].
  eapply csr_one_row_rows. exact H.
Qed.

Lemma sps_vstack_rows (blocks : list csr_matrix) (result : csr_matrix) :
  sps_vstack blocks = OK result ->
  csr_rows result = concat (map csr_rows blocks).
Proof.
  unfold sps_vstack. destruct blocks as [|b bs]; [discriminate|].
  destruct (forallb _ bs); [|discriminate].
  intros H. injection H as <-. reflexivity.
Qed.

Lemma row_of_ok (X : Matrix) (i : nat) (xi : Vec) :
  nth_error X i = Some xi -> row_of X i = OK [xi].
Proof. unfold row_of. intros ->. reflexivity. Qed.

Lemma label_at_ok (y : list Z) (i : nat) (v : Z) :
  nth_error y i = Some v -> label_at y i = OK v.
Proof. unfold label_at. intros ->. reflexivity. Qed.

Lemma svm_explain_rows (self : SVM.t) (X : Matrix) (y0 : option (list Z))
    (y : list Z) (result : csr_matrix) :
  SVM.explain self X y0 = OK result ->
  svm_targets self X y0 = OK y ->
  forall i xi yi,
    nth_error X i = Some xi -> nth_error y i = Some yi ->
    exists e m,
      BinarySVM.explain e [xi] = OK m
      /\ if 1 <? length (SVM.estimators_ (SVM.ovr_ self))
         then py_getitem (SVM.estimators_ (SVM.ovr_ self)) yi = OK e
              /\ svm_row_is result i m false
         else SVM.estimators_ (SVM.ovr_ self) = [e]
              /\ svm_row_is result i m (yi =? 0)%Z.
Proof.
  unfold SVM.explain, svm_targets. intros H Hy i xi yi Hxi Hyi.
  rewrite Hy in H. cbn [bind] in H.
  apply bind_ok_inv in H as (u & _ & H).
  assert (Hi : i < length X) by (apply nth_error_Some; congruence).
  destruct (1 <? length (SVM.estimators_ (SVM.ovr_ self))) eqn:Hn.
  - apply bind_ok_inv in H as (blocks & Hblocks & Hstack).
    destruct (mapM_seq_nth _ Hblocks Hi) as (b & Hb & Hfi).
    rewrite (label_at_ok _ _ Hyi) in Hfi. cbn [bind] in Hfi.
    apply bind_ok_inv in Hfi as (e & He & Hfi).
    rewrite (row_of_ok _ _ Hxi) in Hfi. cbn [bind] in Hfi.
    exists e, b. split; [exact Hfi|]. split; [exact He|].
    destruct (svm_explain_one_row _ _ Hfi) as (r & Hr).
    exists r. split; [exact Hr|].
    rewrite (sps_vstack_rows _ Hstack).
    eapply stacked_row; eauto.
    eapply Forall_impl; [|exact (mapM_all _ _ Hblocks)].
    intros b' (j & Hj).
    apply bind_ok_inv in Hj as (? & _ & Hj).
    apply bind_ok_inv in Hj as (? & _ & Hj).
    apply bind_ok_inv in Hj as (? & _ & Hj).
    eapply svm_explain_one_row; eauto.
  - apply bind_ok_inv in H as (blocks & Hblocks & H).
    apply bind_ok_inv in H as (stacked & Hstack & H).
    apply bind_ok_inv in H as (rows & Hrows & H). injection H as <-.
    destruct (mapM_seq_nth _ Hblocks Hi) as (b & Hb & Hfi).
    apply bind_ok_inv in Hfi as (e & He & Hfi).
    rewrite (row_of_ok _ _ Hxi) in Hfi. cbn [bind] in Hfi.
    exists e, b. split; [exact Hfi|]. split.
    + apply Nat.ltb_ge in Hn. unfold py_getitem in He. simpl in He.
      destruct (SVM.estimators_ (SVM.ovr_ self)) as [|e0 [|e1 es]];
        simpl in *; [discriminate | congruence | lia].
    + destruct (svm_explain_one_row _ _ Hfi) as (r & Hr).
      exists r. split; [exact Hr|]. cbn [csr_rows].
      eapply scale_rows_nth; eauto.
      rewrite (sps_vstack_rows _ Hstack).
      eapply stacked_row; eauto.
      eapply Forall_impl; [|exact (mapM_all _ _ Hblocks)].
      intros b' (j & Hj).
      apply bind_ok_inv in Hj as (? & _ & Hj).
      apply bind_ok_inv in Hj as (? & _ & Hj).
      eapply svm_explain_one_row; eauto.
Qed.

End ExplainFacts.

Section ExplainFactsKLR.
Context {Sc : Scalar}.

Lemma klr_explain_one_row (e : BinaryKernelLogisticRegression.t) (x m : Matrix) :
  BinaryKernelLogisticRegression.explain e x = OK m -> exists r, m = [r].
Proof.
  unfold BinaryKernelLogisticRegression.explain. intros H.
  apply bind_ok_inv in H as (u & Hu & H).
  apply assert_ok_inv in Hu. apply andb_prop in Hu as [Hl _].
  apply Nat.eqb_eq in Hl.
  destruct x as [|r0 [|? ?]]; try discriminate.
  apply bind_ok_inv in H as (xs & Hxs & H).
  unfold linear_kernel, registry_kernel in Hxs.
  apply bind_ok_inv in Hxs as (? & _ & Hxs). injection Hxs as <-.
  cbn [pairwise map matrix_times_vec mapM] in H.
  apply bind_ok_inv in H as (row & _ & H). cbn [bind] in H.
  injection H as <-. eexists. reflexivity.
Qed.

Lemma np_vstack_rows (blocks : list Matrix) (result : Matrix) :
  np_vstack blocks = OK result -> result = concat (map (fun b => b) blocks).
Proof.
  unfold np_vstack. destruct blocks as [|b bs]; [discriminate|].
  destruct (forallb _ bs); [|discriminate].
  intros H. injection H as <-. rewrite map_id. reflexivity.
Qed.

Lemma klr_explain_rows (self : KernelLogisticRegression.t) (X : Matrix)
    (y0 : option (list Z)) (y : list Z) (result : Matrix) :
  KernelLogisticRegression.explain self X y0 = OK result ->
  klr_targets self X y0 = OK y ->
  forall i xi yi,
    nth_error X i = Some xi -> nth_error y i = Some yi ->
    exists e m,
      BinaryKernelLogisticRegression.explain e [xi] = OK m
      /\ if 1 <? length (KernelLogisticRegression.estimators_
                           (KernelLogisticRegression.ovr_ self))
         then py_getitem (KernelLogisticRegression.estimators_
                            (KernelLogisticRegression.ovr_ self)) yi = OK e
              /\ klr_row_is result i m false
         else KernelLogisticRegression.estimators_
                (KernelLogisticRegression.ovr_ self) = [e]
              /\ klr_row_is result i m (yi =? 0)%Z.
Proof.
  unfold KernelLogisticRegression.explain, klr_targets.
  intros H Hy i xi yi Hxi Hyi.
  rewrite Hy in H. cbn [bind] in H.
  apply bind_ok_inv in H as (u & _ & H).
  assert (Hi : i < length X) by (apply nth_error_Some; congruence).
  set (ests := KernelLogisticRegression.estimators_
                 (KernelLogisticRegression.ovr_ self)) in *.
  destruct (1 <? length ests) eqn:Hn.
  - apply bind_ok_inv in H as (blocks & Hblocks & Hstack).
    destruct (mapM_seq_nth _ Hblocks Hi) as (b & Hb & Hfi).
    rewrite (label_at_ok _ _ Hyi) in Hfi. cbn [bind] in Hfi.
    apply bind_ok_inv in Hfi as (e & He & Hfi).
    rewrite (row_of_ok _ _ Hxi) in Hfi. cbn [bind] in Hfi.
    exists e, b. split; [exact Hfi|]. split; [exact He|].
    destruct (klr_explain_one_row _ _ Hfi) as (r & Hr).
    exists r. split; [exact Hr|].
    rewrite (np_vstack_rows _ Hstack).
    eapply stacked_row; eauto.
    eapply Forall_impl; [|exact (mapM_all _ _ Hblocks)].
    intros b' (j & Hj).
    apply bind_ok_inv in Hj as (? & _ & Hj).
    apply bind_ok_inv in Hj as (? & _ & Hj).
    apply bind_ok_inv in Hj as (? & _ & Hj).
    eapply klr_explain_one_row; eauto.
  - apply bind_ok_inv in H as (blocks & Hblocks & H).
    apply bind_ok_inv in H as (stacked & Hstack & Hrows).
    destruct (mapM_seq_nth _ Hblocks Hi) as (b & Hb & Hfi).
    apply bind_ok_inv in Hfi as (e & He & Hfi).
    rewrite (row_of_ok _ _ Hxi) in Hfi. cbn [bind] in Hfi.
    exists e, b. split; [exact Hfi|]. split.
    + apply Nat.ltb_ge in Hn. unfold py_getitem in He. simpl in He.
      destruct ests as [|e0 [|e1 es]]; simpl in *; [discriminate | congruence | lia].
    + destruct (klr_explain_one_row _ _ Hfi) as (r & Hr).
      exists r. split; [exact Hr|].
      eapply scale_rows_nth; eauto.
      rewrite (np_vstack_rows _ Hstack).
      eapply stacked_row; eauto.
      eapply Forall_impl; [|exact (mapM_all _ _ Hblocks)].
      intros b' (j & Hj).
      apply bind_ok_inv in Hj as (? & _ & Hj).
      apply bind_ok_inv in Hj as (? & _ & Hj).
      eapply klr_explain_one_row; eauto.
Qed.

(** C6. Whenever a dispatcher's [explain(X, y)] returns, with target
    labels [y] (the predicted labels when [y] is not given), row [i] of
    the result is the one row of a binary estimator's [explain] on
    [X[i]]: with more than one estimator, the estimator
    [estimators_[y[i]]], unnegated; otherwise the single estimator,
    negated exactly when [y[i] == 0]. *)
Theorem dispatcher_explain_rows :
  (forall (self : SVM.t) (X : Matrix) (y0 : option (list Z)) (y : list Z)
          (result : csr_matrix),
     SVM.explain self X y0 = OK result ->
     svm_targets self X y0 = OK y ->
     forall i xi yi,
       nth_error X i = Some xi -> nth_error y i = Some yi ->
       exists e m,
         BinarySVM.explain e [xi] = OK m
         /\ if 1 <? length (SVM.estimators_ (SVM.ovr_ self))
            then py_getitem (SVM.estimators_ (SVM.ovr_ self)) yi = OK e
                 /\ svm_row_is result i m false
            else SVM.estimators_ (SVM.ovr_ self) = [e]
                 /\ svm_row_is result i m (yi =? 0)%Z)
  /\
  (forall (self : KernelLogisticRegression.t) (X : Matrix) (y0 : option (list Z))
          (y : list Z) (result : Matrix),
     KernelLogisticRegression.explain self X y0 = OK result ->
     klr_targets self X y0 = OK y ->
     forall i xi yi,
       nth_error X i = Some xi -> nth_error y i = Some yi ->
       exists e m,
         BinaryKernelLogisticRegression.explain e [xi] = OK m
         /\ if 1 <? length (KernelLogisticRegression.estimators_
                              (KernelLogisticRegression.ovr_ self))
            then py_getitem (KernelLogisticRegression.estimators_
                               (KernelLogisticRegression.ovr_ self)) yi = OK e
                 /\ klr_row_is result i m false
            else KernelLogisticRegression.estimators_
                   (KernelLogisticRegression.ovr_ self) = [e]
                 /\ klr_row_is result i m (yi =? 0)%Z).
Proof.
  split.
  - apply svm_explain_rows.
  - apply klr_explain_rows.
Qed.

End ExplainFactsKLR.

Example svm_three_explain :
  option_map toarray
    (match SVM.explain Examples.svm_three Examples.batch0 (Some [2; 0; 1]%Z) with
     | OK m => Some m | Raise _ => None end)
  = Some [[0; 0; 21]; [1; 0; 2]; [0; 0; -2]]%Z.
Proof. reflexivity. Qed.

Example svm_two_explain :
  option_map toarray
    (match SVM.explain Examples.svm_two Examples.batch0 (Some [0; 1; 0]%Z) with
     | OK m => Some m | Raise _ => None end)
  = Some [[-6; 0; 7]; [2; 0; -2]; [0; 0; 2]]%Z.
Proof. reflexivity. Qed.

Example klr_two_explain_predicted :
  KernelLogisticRegression.explain Examples.klr_two Examples.batch0 None
  = OK [[-6; 0; 7]; [-2; 0; 2]; [0; 0; 2]]%Z.
Proof. reflexivity. Qed.

Lemma dispatcher_explain_rows_witness :
  exists result,
    SVM.explain Examples.svm_three Examples.batch0 (Some [2; 0; 1]%Z) = OK result
    /\ exists e m,
         BinarySVM.explain e [[3; 4]%Z] = OK m
         /\ py_getitem (SVM.estimators_ (SVM.ovr_ Examples.svm_three)) 2%Z = OK e
         /\ svm_row_is result 0 m false.
Proof.
  eexists. split; [reflexivity|].
  exact (proj1 dispatcher_explain_rows Examples.svm_three Examples.batch0
           (Some [2; 0; 1]%Z) [2; 0; 1]%Z _ eq_refl eq_refl 0 [3; 4]%Z 2%Z
           eq_refl eq_refl).
Defined.

(** ** Indexing the estimators by the label value *)

Section LabelIndex.

Lemma nth_error_seq0 (n j : nat) :
  nth_error (seq 0 n) j = if j <? n then Some j else None.
Proof.
  destruct (Nat.ltb_spec j n) as [Hlt|Hge].
  - rewrite nth_error_nth' with (d := 0) by (rewrite length_seq; exact Hlt).
    rewrite seq_nth by exact Hlt. reflexivity.
  - apply nth_error_None. rewrite length_seq. exact Hge.
Qed.

(** The position that the label value [c] selects among [n] estimators:
    [c] itself, or [c + n] for a negative [c]. *)
Lemma py_getitem_position (n : nat) (c : Z) (k : nat) :
  py_getitem (seq 0 n) c = OK k
  <-> k < n /\ (c = Z.of_nat k \/ c = (Z.of_nat k - Z.of_nat n)%Z).
Proof.
  unfold py_getitem. rewrite length_seq.
  destruct (Z.ltb_spec c 0) as [Hneg|Hpos].
  - destruct (Z.ltb_spec (c + Z.of_nat n) 0) as [Hlow|Hin].
    + split; [discriminate | intros [Hk [->| ->]]; lia].
    + rewrite nth_error_seq0.
      destruct (Nat.ltb_spec (Z.to_nat (c + Z.of_nat n)) n) as [Hlt|Hge].
      * split.
        -- intros H. injection H as <-. split; [exact Hlt | right; lia].
        -- intros [Hk [->| ->]]; [lia|]. do 2 f_equal. lia.
      * split; [discriminate | intros [Hk [->| ->]]; lia].
  - destruct (Z.ltb_spec c 0) as [|_]; [lia|].
    rewrite nth_error_seq0.
    destruct (Nat.ltb_spec (Z.to_nat c) n) as [Hlt|Hge].
    + split.
      * intros H. injection H as <-. split; [exact Hlt | left; lia].
      * intros [Hk [->| ->]]; [|lia]. do 2 f_equal. lia.
    + split; [discriminate | intros [Hk [->| ->]]; lia].
Qed.

Lemma py_getitem_via_position {A : Type} (ests : list A) (c : Z) (e : A) :
  py_getitem ests c = OK e ->
  exists k, py_getitem (seq 0 (length ests)) c = OK k /\ nth_error ests k = Some e.
Proof.
  unfold py_getitem. rewrite length_seq.
  set (c' := if (c <? 0)%Z then (c + Z.of_nat (length ests))%Z else c).
  destruct (c' <? 0)%Z; [discriminate|].
  destruct (nth_error ests (Z.to_nat c')) as [a|] eqn:Ea; [|discriminate].
  intros H. injection H as <-.
  exists (Z.to_nat c'). split; [|exact Ea].
  rewrite nth_error_seq0.
  assert (Hlt : Z.to_nat c' < length ests) by (apply nth_error_Some; congruence).
  apply Nat.ltb_lt in Hlt. rewrite Hlt. reflexivity.
Qed.

End LabelIndex.

Section LabelIndexTheorem.
Context {Sc : Scalar}.

(** C10 (as amended). In the multiclass path, [explain] takes the target
    label value as a Python index into the estimator list: when it
    returns, every target label [v] has selected the estimator at a
    position [k], and row [i] is that estimator's explanation of [X[i]]
    (for both dispatchers);
    a label value [v] selects position [k] among [n] estimators exactly
    when [k < n] and [v] is [k] or [k - n]. So the estimator selected
    for a class is the one that owns it exactly when the class at sorted
    position [k] is labelled [k] or [k - n]; the labels [0..n-1] are one
    such labelling, and a label outside [-n, n) selects nothing. *)
Theorem multiclass_explain_indexes_by_label :
  (forall (self : SVM.t) (X : Matrix) (y0 : option (list Z)) (y : list Z)
          (result : csr_matrix),
     1 < length (SVM.estimators_ (SVM.ovr_ self)) ->
     SVM.explain self X y0 = OK result ->
     svm_targets self X y0 = OK y ->
     forall i xi v,
       nth_error X i = Some xi -> nth_error y i = Some v ->
       exists k e m,
         py_getitem (seq 0 (length (SVM.estimators_ (SVM.ovr_ self)))) v = OK k
         /\ nth_error (SVM.estimators_ (SVM.ovr_ self)) k = Some e
         /\ BinarySVM.explain e [xi] = OK m
         /\ svm_row_is result i m false)
  /\ (forall (self : KernelLogisticRegression.t) (X : Matrix) (y0 : option (list Z))
             (y : list Z) (result : Matrix),
        1 < length (KernelLogisticRegression.estimators_
                      (KernelLogisticRegression.ovr_ self)) ->
        KernelLogisticRegression.explain self X y0 = OK result ->
        klr_targets self X y0 = OK y ->
        forall i xi v,
          nth_error X i = Some xi -> nth_error y i = Some v ->
          exists k e m,
            py_getitem (seq 0 (length (KernelLogisticRegression.estimators_
                                         (KernelLogisticRegression.ovr_ self)))) v = OK k
            /\ nth_error (KernelLogisticRegression.estimators_
                            (KernelLogisticRegression.ovr_ self)) k = Some e
            /\ BinaryKernelLogisticRegression.explain e [xi] = OK m
            /\ klr_row_is result i m false)
  /\ (forall (n : nat) (v : Z) (k : nat),
        py_getitem (seq 0 n) v = OK k
        <-> k < n /\ (v = Z.of_nat k \/ v = (Z.of_nat k - Z.of_nat n)%Z))
  /\ (forall (n : nat) (classes : list Z),
        length classes = n ->
        ((forall k c, nth_error classes k = Some c -> py_getitem (seq 0 n) c = OK k)
         <-> (forall k c, nth_error classes k = Some c ->
                          c = Z.of_nat k \/ c = (Z.of_nat k - Z.of_nat n)%Z))).
Proof.
  split; [|split; [|split]].
  - intros self X y0 y result Hn H Hy i xi v Hxi Hv.
    destruct (svm_explain_rows _ _ _ H Hy i Hxi Hv) as (e & m & Hm & Hsel).
    apply Nat.ltb_lt in Hn. rewrite Hn in Hsel. destruct Hsel as [He Hrow].
    destruct (py_getitem_via_position _ _ He) as (k & Hk & Hek).
    exists k, e, m. auto.
  - intros self X y0 y result Hn H Hy i xi v Hxi Hv.
    destruct (klr_explain_rows _ _ _ H Hy i Hxi Hv) as (e & m & Hm & Hsel).
    apply Nat.ltb_lt in Hn. rewrite Hn in Hsel. destruct Hsel as [He Hrow].
    destruct (py_getitem_via_position _ _ He) as (k & Hk & Hek).
    exists k, e, m. auto.
  - apply py_getitem_position.
  - intros n classes Hlen. split.
    + intros H k c Hc. apply (py_getitem_position n c k). apply H. exact Hc.
    + intros H k c Hc. apply py_getitem_position. split; [|apply H; exact Hc].
      rewrite <- Hlen. apply nth_error_Some. congruence.
Qed.

End LabelIndexTheorem.

Lemma multiclass_explain_indexes_by_label_witness :
  exists result,
    SVM.explain Examples.svm_three Examples.batch0 (Some [2; 0; 1]%Z) = OK result
    /\ exists k e m,
         py_getitem (seq 0 3) 2%Z = OK k
         /\ nth_error (SVM.estimators_ (SVM.ovr_ Examples.svm_three)) k = Some e
         /\ BinarySVM.explain e [[3; 4]%Z] = OK m
         /\ svm_row_is result 0 m false.
Proof.
  eexists. split; [reflexivity|].
  refine (proj1 multiclass_explain_indexes_by_label Examples.svm_three Examples.batch0
            (Some [2; 0; 1]%Z) [2; 0; 1]%Z _ _ eq_refl eq_refl 0 [3; 4]%Z 2%Z
            eq_refl eq_refl).
  simpl. lia.
Defined.

(** With the three classes labelled -3, -2 and -1, every label selects the
    estimator at the position of its class, and [explain] returns their
    explanations: the labels need not be 0, 1, 2. *)
Lemma negative_labels_select_their_estimators :
  (forall k c, nth_error [-3; -2; -1]%Z k = Some c -> py_getitem (seq 0 3) c = OK k)
  /\ [-3; -2; -1]%Z <> [0; 1; 2]%Z
  /\ option_map toarray
       (match SVM.explain Examples.svm_three Examples.batch0 (Some [-3; -2; -1]%Z) with
        | OK m => Some m | Raise _ => None end)
     = Some [[3; 0; 7]; [2; 0; -2]; [0; 0; 6]]%Z.
Proof.
  split; [|split].
  - intros k c Hc.
    destruct k as [|[|[|k]]]; simpl in Hc;
      [injection Hc as <-; reflexivity .. | destruct k; discriminate].
  - discriminate.
  - reflexivity.
Qed.

Lemma svm_fit_self_check_witness :
  (exists m c cs b bs,
     Examples.SVC_fit1 Examples.svm_params0 Examples.train0 [1; 0; 1]%Z = OK m
     /\ BinarySVM.dual_coef_ m = c :: cs
     /\ BinarySVM.svc_intercept_ m = b :: bs
     /\ assembled Examples.svm_params0 Examples.train0 Examples.svc1 [2; -1]%Z 5%Z
        = assembled Examples.svm_params0 Examples.train0 m c b
     /\ self_check Examples.list_eqb Examples.list_eqb
          (assembled Examples.svm_params0 Examples.train0 Examples.svc1 [2; -1]%Z 5%Z)
          (firstn 10 Examples.train0)
        = OK (true, true))
  /\ BinarySVM.fit Examples.SVC_fit0 Examples.list_eqb Examples.list_eqb
       Examples.svm_params0 Examples.train0 [1; 0; 1]%Z 10
     = Raise AssertionError.
Proof.
  split.
  - apply (proj1 (svm_fit_self_check Examples.SVC_fit1 Examples.list_eqb
                    Examples.list_eqb Examples.svm_params0 Examples.train0
                    [1; 0; 1]%Z 10)).
    reflexivity.
  - apply (proj2 (proj2 (svm_fit_self_check Examples.SVC_fit0 Examples.list_eqb
                           Examples.list_eqb Examples.svm_params0 Examples.train0
                           [1; 0; 1]%Z 10)
                    Examples.svc0 [2; -1]%Z [] 5%Z [] eq_refl eq_refl eq_refl)
             [1; 1; 1]%Z [1; 1; 1]%Z [0; 0; 0]%Z [6; 4; 5]%Z); reflexivity.
Defined.

(** ** What a returning [fit] has checked *)

Section FitGivesFitted.
Context {Sc : Scalar}.
Variable SVC_fit : BinarySVM.params -> Matrix -> list Z -> res BinarySVM.SVC.
Variable allclose : Vec -> Vec -> bool.
Variable allclose_int : list Z -> list Z -> bool.




End FitGivesFitted.

(** ** Row blocks in [predict_proba] *)

Section PredictProbaFacts.
Context {Sc : Scalar}.

Lemma block_proba_fitted (est : BinaryKernelLogisticRegression.t) (X : Matrix) :
  klr_fitted est -> X <> [] ->
  BinaryKernelLogisticRegression.block_proba est X
  = OK (map (fun r =>
               BinaryKernelLogisticRegression._sigmoid
                 (np_sum (map (fun p => mul (fst p) (snd p))
                              (combine (map (dot r)
                                            (BinaryKernelLogisticRegression.X_train_ est))
                                       (BinaryKernelLogisticRegression.coef_ est))))) X).
Proof.
  intros (Hne & Hlen & Hps) HX.
  unfold BinaryKernelLogisticRegression.block_proba, linear_kernel.
  rewrite registry_kernel_ok by assumption. cbn [bind].
  unfold matrix_times_vec, pairwise.
  rewrite (mapM_ok_map _
             (fun row => map (fun p => mul (fst p) (snd p))
                             (combine row (BinaryKernelLogisticRegression.coef_ est)))).
  - cbn [bind]. unfold sum_axis1. rewrite !map_map. reflexivity.
  - intros row Hrow. apply in_map_iff in Hrow as (r & <- & _).
    apply broadcast_mul_same. rewrite length_map. symmetry. exact Hlen.
Qed.

Lemma predict_proba_fitted (est : BinaryKernelLogisticRegression.t) (X : Matrix) :
  klr_fitted est -> X <> [] ->
  BinaryKernelLogisticRegression.predict_proba est X
  = OK (BinaryKernelLogisticRegression.two_columns
          (map (fun r =>
                  BinaryKernelLogisticRegression._sigmoid
                    (np_sum (map (fun p => mul (fst p) (snd p))
                                 (combine (map (dot r)
                                               (BinaryKernelLogisticRegression.X_train_ est))
                                          (BinaryKernelLogisticRegression.coef_ est))))) X)).
Proof.
  intros Hf HX.
  assert (Hps : (1 <= BinaryKernelLogisticRegression.pred_size
                        (BinaryKernelLogisticRegression.hyper est))%Z) by apply Hf.
  unfold BinaryKernelLogisticRegression.predict_proba.
  rewrite (py_range0_pos _ Hps). cbn [bind].
  apply (blocked_map_post (BinaryKernelLogisticRegression.block_proba est) _
           BinaryKernelLogisticRegression.two_columns);
    [lia | exact HX | intros blk Hblk; apply block_proba_fitted; assumption].
Qed.

Lemma predict_proba_no_rows (est : BinaryKernelLogisticRegression.t) :
  klr_fitted est ->
  BinaryKernelLogisticRegression.predict_proba est [] = Raise ValueError.
Proof.
  intros Hf.
  assert (Hps : (1 <= BinaryKernelLogisticRegression.pred_size
                        (BinaryKernelLogisticRegression.hyper est))%Z) by apply Hf.
  unfold BinaryKernelLogisticRegression.predict_proba.
  rewrite (py_range0_pos _ Hps). cbn [bind length].
  unfold block_starts. rewrite block_count_nil by lia. reflexivity.
Qed.

(** X8. For a fitted binary logistic regression and every batch, the
    row-blocked [predict_proba] has the outcome of the one-block
    computation put in two columns, whatever the block size; on a batch
    with rows of the training width, both return, row by row in the order
    of the batch. *)
Lemma blocked_predict_proba_equals_one_block
    (est : BinaryKernelLogisticRegression.t) (X : Matrix) :
  klr_fitted est ->
  BinaryKernelLogisticRegression.predict_proba est X
  = (pos <- BinaryKernelLogisticRegression.block_proba est X ;;
     OK (BinaryKernelLogisticRegression.two_columns pos))
  /\ (X <> [] ->
      batch_of_training_width X (BinaryKernelLogisticRegression.X_train_ est) ->
      exists pos,
        BinaryKernelLogisticRegression.block_proba est X = OK pos
        /\ length pos = length X
        /\ BinaryKernelLogisticRegression.predict_proba est X
           = OK (BinaryKernelLogisticRegression.two_columns pos)).
Proof.
  intros Hf. split.
  - destruct X as [|r X'].
    + rewrite (predict_proba_no_rows Hf). reflexivity.
    + rewrite (predict_proba_fitted Hf), (block_proba_fitted Hf) by discriminate.
      reflexivity.
  - intros HX _. eexists.
    split; [apply block_proba_fitted; assumption|].
    split; [apply length_map | apply predict_proba_fitted; assumption].
Qed.

End PredictProbaFacts.

(** ** Negation and the registry lambdas *)

Section Complements.
Context {Sc : Scalar}.

Add Ring scalar_ring_complements : scalar_ring.

(** [result[rows] *= -1] negates the values. *)
Lemma neg_vec_opp (v : Vec) : neg_vec v = map opp v.
Proof.
  unfold neg_vec. apply map_ext. intros a. ring.
Qed.

Lemma np_sum_opp (v : Vec) : np_sum (map opp v) = opp (np_sum v).
Proof.
  induction v as [|a v IH]; simpl; [ring | rewrite IH; ring].
Qed.

Lemma neg_row_entry (r : sparse_row) (c : nat) :
  row_entry (neg_row r) c = opp (row_entry r c).
Proof.
  unfold row_entry, neg_row. cbn [sr_data sr_indices].
  rewrite <- np_sum_opp. f_equal.
  generalize (sr_data r) as data. induction (sr_indices r) as [|j idx IH]; intros data.
  - reflexivity.
  - destruct data as [|a data]; [reflexivity|].
    cbn [map combine filter fst]. destruct (j =? c); cbn [map snd].
    + rewrite IH. f_equal. ring.
    + apply IH.
Qed.

(** The lambdas that [SVM._create_kernel_callable] stores honour the
    registry contract once [gamma_] is a number, and the linear one
    always. *)
Lemma registry_lambdas_honour_contract (lam : SVM.kernel_lambda) (g : num)
    (p : SVM.params) :
  exists K, kernel_contract (SVM.call_kernel_func_ lam (GammaNum g) p) K.
Proof.
  destruct lam; eexists; intros X1 X2; reflexivity.
Qed.

Lemma linear_lambda_honours_contract (g_ : gamma_param) (p : SVM.params) :
  kernel_contract (SVM.call_kernel_func_ SVM.Lambda_linear g_ p) dot.
Proof. intros X1 X2. reflexivity. Qed.

End Complements.

(** A batch without rows: the loop runs no block and [np.concatenate] is
    given nothing, while the one-block computation is stopped by the
    kernel's input check. *)
Example decision_function_empty_batch :
  BinarySVM.decision_function Examples.svm0 [] = Raise ValueError
  /\ decision_one_block Examples.svm0 [] = Raise ValueError.
Proof. split; reflexivity. Qed.

(** * Further properties of the code *)

(** ** Block size and preconditions of the binary estimators *)

Section BlockSizeFacts.
Context {Sc : Scalar}.

Lemma py_range0_nonpositive (n : nat) (ps : Z) :
  (ps <= 0)%Z -> py_range0 n ps = Raise ValueError \/ py_range0 n ps = OK [].
Proof.
  intros H. unfold py_range0.
  destruct (Z.eqb_spec ps 0); [left; reflexivity|].
  destruct (Z.ltb_spec ps 0); [right; reflexivity | lia].
Qed.

(** X1. With a block size of zero or less, [decision_function] and
    [predict] of the binary SVM and [predict_proba] and [predict] of the
    binary logistic regression raise [ValueError] on every batch: the
    range step is zero, or no block is produced and nothing can be
    concatenated. *)
Theorem nonpositive_block_size_raises :
  (forall (est : BinarySVM.t) (X : Matrix),
     (BinarySVM.pred_size (BinarySVM.hyper est) <= 0)%Z ->
     BinarySVM.decision_function est X = Raise ValueError
     /\ BinarySVM.predict est X = Raise ValueError)
  /\ (forall (est : BinaryKernelLogisticRegression.t) (X : Matrix),
        (BinaryKernelLogisticRegression.pred_size
           (BinaryKernelLogisticRegression.hyper est) <= 0)%Z ->
        BinaryKernelLogisticRegression.predict_proba est X = Raise ValueError
        /\ BinaryKernelLogisticRegression.predict est X = Raise ValueError).
Proof.
  split.
  - intros est X Hps.
    assert (Hd : BinarySVM.decision_function est X = Raise ValueError).
    { unfold BinarySVM.decision_function.
      destruct (py_range0_nonpositive (length X) Hps) as [-> | ->]; reflexivity. }
    split; [exact Hd|]. unfold BinarySVM.predict. rewrite Hd. reflexivity.
  - intros est X Hps.
    assert (Hd : BinaryKernelLogisticRegression.predict_proba est X = Raise ValueError).
    { unfold BinaryKernelLogisticRegression.predict_proba.
      destruct (py_range0_nonpositive (length X) Hps) as [-> | ->]; reflexivity. }
    split; [exact Hd|].
    unfold BinaryKernelLogisticRegression.predict. rewrite Hd. reflexivity.
Qed.

(** X2. [explain] of either binary estimator raises [AssertionError] on any
    input that is not a single row of the training width. *)
Theorem explain_rejects_other_shapes :
  (forall (est : BinarySVM.t) (x : Matrix),
     shape x <> (1, ncols (BinarySVM.X_train_ est)) ->
     BinarySVM.explain est x = Raise AssertionError)
  /\ (forall (est : BinaryKernelLogisticRegression.t) (x : Matrix),
        shape x <> (1, ncols (BinaryKernelLogisticRegression.X_train_ est)) ->
        BinaryKernelLogisticRegression.explain est x = Raise AssertionError).
Proof.
  assert (Hshape : forall (x : Matrix) (n : nat),
             shape x <> (1, n) -> (length x =? 1) && (ncols x =? n) = false).
  { intros x n H. unfold shape in H.
    destruct (Nat.eqb_spec (length x) 1) as [Hl|]; [|reflexivity].
    destruct (Nat.eqb_spec (ncols x) n) as [Hc|]; [|reflexivity].
    exfalso. apply H. congruence. }
  split; intros est x H.
  - unfold BinarySVM.explain. rewrite (Hshape _ _ H). reflexivity.
  - unfold BinaryKernelLogisticRegression.explain. rewrite (Hshape _ _ H). reflexivity.
Qed.

End BlockSizeFacts.

Lemma nonpositive_block_size_raises_witness :
  BinarySVM.decision_function (MoreExamples.svm_block_size 0) Examples.batch0
    = Raise ValueError
  /\ BinarySVM.predict (MoreExamples.svm_block_size (-4)) Examples.batch0
     = Raise ValueError.
Proof.
  split.
  - apply (proj1 nonpositive_block_size_raises (MoreExamples.svm_block_size 0)).
    simpl. lia.
  - apply (proj1 nonpositive_block_size_raises (MoreExamples.svm_block_size (-4))).
    simpl. lia.
Defined.

Lemma explain_rejects_other_shapes_witness :
  BinarySVM.explain Examples.svm0 Examples.batch0 = Raise AssertionError
  /\ BinaryKernelLogisticRegression.explain Examples.klr0 [[1; 2; 3]%Z]
     = Raise AssertionError.
Proof.
  split.
  - apply (proj1 explain_rejects_other_shapes). discriminate.
  - apply (proj2 explain_rejects_other_shapes). discriminate.
Defined.

(** ** Labels, weights and probabilities of the binary estimators *)

Section BinaryFacts.
Context {Sc : Scalar}.

Add Ring scalar_ring_binary : scalar_ring.

(** X3. [predict] of a fitted binary SVM on a batch with rows of the
    training width returns one label per row, in the order of the rows:
    1 where the decision value is at least 0 and 0 elsewhere; for a
    single query this is the sign test on the sum of the explanation plus
    the intercept. *)
Theorem svm_predict_thresholds_decision
    (est : BinarySVM.t) (K : Vec -> Vec -> num) (X : Matrix) :
  svm_fitted est K -> X <> [] ->
  batch_of_training_width X (BinarySVM.X_train_ est) ->
  exists d,
    BinarySVM.decision_function est X = OK d
    /\ length d = length X
    /\ BinarySVM.predict est X = OK (map label_of_decision d)
    /\ (forall r, X = [r] -> length r = ncols (BinarySVM.X_train_ est) ->
          exists m,
            BinarySVM.explain est X = OK m
            /\ BinarySVM.predict est X
               = OK [label_of_decision (add (csr_sum m) (BinarySVM.intercept_ est))]).
Proof.
  intros Hf HX _. eexists. split; [apply (decision_function_fitted Hf HX)|].
  split; [apply length_map|]. split.
  - unfold BinarySVM.predict. rewrite (decision_function_fitted Hf HX). reflexivity.
  - intros r -> Hr. eexists. split; [eapply explain_fitted; eassumption|].
    unfold BinarySVM.predict. rewrite (decision_function_fitted Hf HX).
    cbn [bind map]. unfold csr_sum. cbn [csr_rows map sr_data].
    unfold np_sum. cbn [fold_right].
    fold (label_of_decision
            (add (fold_right add zero (impact_of est K r)) (BinarySVM.intercept_ est))).
    match goal with
    | |- OK [label_of_decision ?a] = OK [label_of_decision ?b] =>
        replace b with a by ring
    end.
    reflexivity.
Qed.

Lemma row_entry_present (idx : list nat) :
  NoDup idx ->
  forall (coef : Vec) (j i : nat) (c : num),
    nth_error idx j = Some i -> nth_error coef j = Some c ->
    row_entry {| sr_data := coef; sr_indices := idx |} i = c.
Proof.
  induction 1 as [|i0 idx Hnotin Hnd IH]; intros coef j i c Hi Hc.
  - destruct j; discriminate.
  - destruct coef as [|c0 coef]; [destruct j; discriminate|].
    unfold row_entry. cbn [sr_data sr_indices combine filter fst].
    destruct j as [|j]; simpl in Hi, Hc.
    + injection Hi as ->. injection Hc as ->. rewrite Nat.eqb_refl.
      cbn [map snd]. unfold np_sum. cbn [fold_right].
      pose proof (row_entry_absent idx coef i Hnotin) as Habs.
      unfold row_entry, np_sum in Habs. cbn [sr_data sr_indices] in Habs.
      rewrite Habs. ring.
    + destruct (Nat.eqb_spec i0 i) as [->|Hne].
      * exfalso. apply Hnotin. eapply nth_error_In. exact Hi.
      * exact (IH coef j i c Hi Hc).
Qed.

(** X4. [get_weight] of a fitted binary SVM with distinct support indices is
    a single row over the training set that holds, at each support index,
    the dual coefficient stored for it; it raises [ValueError] when the
    numbers of coefficients and of support indices differ. *)
Theorem svm_get_weight_holds_coefficients :
  (forall (est : BinarySVM.t) (K : Vec -> Vec -> num),
     svm_fitted est K ->
     NoDup (BinarySVM.coef_indices_ est) ->
     exists w,
       BinarySVM.get_weight est = OK w
       /\ shape (toarray w) = (1, length (BinarySVM.X_train_ est))
       /\ forall j i c,
            nth_error (BinarySVM.coef_indices_ est) j = Some i ->
            nth_error (BinarySVM.coef_ est) j = Some c ->
            entry (toarray w) i = c)
  /\ (forall est : BinarySVM.t,
        length (BinarySVM.coef_ est) <> length (BinarySVM.coef_indices_ est) ->
        BinarySVM.get_weight est = Raise ValueError).
Proof.
  split.
  - intros est K Hf Hnd. eexists. split; [eapply get_weight_fitted; eassumption|]. split.
    + unfold shape, toarray, row_toarray. cbn [csr_rows csr_ncols map length ncols].
      rewrite length_map, length_seq. reflexivity.
    + intros j i c Hi Hc. unfold entry, toarray. cbn [csr_rows csr_ncols map nth].
      assert (Hlt : i < length (BinarySVM.X_train_ est)).
      { destruct Hf as (_ & _ & _ & Hidx & _). rewrite Forall_forall in Hidx.
        apply Hidx. eapply nth_error_In. exact Hi. }
      rewrite (row_toarray_nth _ Hlt).
      exact (row_entry_present Hnd _ _ Hi Hc).
  - intros est Hne. unfold BinarySVM.get_weight, csr_one_row.
    destruct (Nat.eqb_spec (length (BinarySVM.coef_indices_ est))
                           (length (BinarySVM.coef_ est))) as [Heq|_];
      [congruence | reflexivity].
Qed.

Lemma predict_proba_pairs (est : BinaryKernelLogisticRegression.t) (X P : Matrix) :
  BinaryKernelLogisticRegression.predict_proba est X = OK P ->
  Forall (fun row => exists p, row = [sub one p; p]) P.
Proof.
  unfold BinaryKernelLogisticRegression.predict_proba. intros H.
  apply bind_ok_inv in H as (starts & _ & H).
  apply bind_ok_inv in H as (bs & _ & H).
  apply bind_ok_inv in H as (pos & _ & H). injection H as <-.
  unfold BinaryKernelLogisticRegression.two_columns.
  apply Forall_forall. intros row Hrow.
  apply in_map_iff in Hrow as (p & <- & _).
  exists p. reflexivity.
Qed.

(** X5. Every row that [predict_proba] returns is a probability pair
    [[1 - p, p]], whose two entries add up to 1. *)
Theorem predict_proba_rows_sum_to_one
    (est : BinaryKernelLogisticRegression.t) (X P : Matrix) :
  BinaryKernelLogisticRegression.predict_proba est X = OK P ->
  Forall (fun row => exists p, row = [sub one p; p] /\ np_sum row = one) P.
Proof.
  intros H. apply predict_proba_pairs in H.
  apply Forall_forall. intros row Hrow.
  rewrite Forall_forall in H. destruct (H row Hrow) as (p & ->).
  exists p. split; [reflexivity|]. unfold np_sum. cbn [fold_right]. ring.
Qed.

(** X6. [predict] of the binary logistic regression labels a row 1 exactly
    when its probability [p] is not at most [1 - p]; when the two are
    equal, [np.argmax] takes the first and the label is 0. *)
Theorem klr_predict_is_argmax_of_proba
    (est : BinaryKernelLogisticRegression.t) (X P : Matrix) :
  BinaryKernelLogisticRegression.predict_proba est X = OK P ->
  BinaryKernelLogisticRegression.predict est X = OK (map label_of_proba P).
Proof.
  intros H. pose proof (predict_proba_pairs _ _ H) as Hrows.
  unfold BinaryKernelLogisticRegression.predict. rewrite H. cbn [bind].
  apply mapM_ok_map. intros row Hrow.
  rewrite Forall_forall in Hrows. destruct (Hrows row Hrow) as (p & ->).
  unfold BinaryKernelLogisticRegression.argmax, label_of_proba.
  cbn [BinaryKernelLogisticRegression.argmax_from nth].
  destruct (leb p (sub one p)); reflexivity.
Qed.

(** X7. For a fitted binary logistic regression and a single query, the
    probability of class 1 is the sigmoid of the sum of the
    explanation. *)
Theorem klr_proba_is_sigmoid_of_explanation
    (est : BinaryKernelLogisticRegression.t) (x : Matrix) :
  klr_fitted est ->
  single_query x (BinaryKernelLogisticRegression.X_train_ est) ->
  exists row,
    BinaryKernelLogisticRegression.explain est x = OK [row]
    /\ BinaryKernelLogisticRegression.predict_proba est x
       = OK [[sub one (BinaryKernelLogisticRegression._sigmoid (np_sum row));
              BinaryKernelLogisticRegression._sigmoid (np_sum row)]].
Proof.
  intros Hf Hx. apply single_query_inv in Hx as (r & -> & Hr).
  eexists. split; [apply klr_explain_fitted; assumption|].
  assert (Hne : [r] <> []) by discriminate.
  rewrite (predict_proba_fitted Hf Hne). reflexivity.
Qed.

End BinaryFacts.

Lemma svm_predict_thresholds_decision_witness :
  exists d,
    BinarySVM.decision_function Examples.svm0 Examples.batch0 = OK d
    /\ length d = 3
    /\ BinarySVM.predict Examples.svm0 Examples.batch0 = OK (map label_of_decision d)
    /\ BinarySVM.predict Examples.svm0 Examples.batch0 = OK [1; 1; 1]%Z.
Proof.
  assert (Hne : Examples.batch0 <> []) by discriminate.
  destruct (svm_predict_thresholds_decision svm0_fitted Hne batch0_of_training_width)
    as (d & Hd & Hl & Hp & _).
  exists d. split; [exact Hd|]. split; [exact Hl|]. split; [exact Hp | reflexivity].
Defined.

Lemma svm_get_weight_holds_coefficients_witness :
  exists w,
    BinarySVM.get_weight Examples.svm0 = OK w
    /\ toarray w = [[2; 0; -1]%Z]
    /\ entry (toarray w) 2 = (-1)%Z.
Proof.
  destruct (proj1 svm_get_weight_holds_coefficients Examples.svm0 dot svm0_fitted)
    as (w & Hw & _ & Hent).
  - simpl. repeat constructor; simpl; intuition discriminate.
  - exists w. split; [exact Hw|]. split.
    + unfold Examples.svm0 in Hw. vm_compute in Hw. injection Hw as <-. reflexivity.
    + apply (Hent 1 2 (-1)%Z); reflexivity.
Defined.

Lemma predict_proba_rows_sum_to_one_witness :
  exists P,
    BinaryKernelLogisticRegression.predict_proba Examples.klr0 Examples.batch0 = OK P
    /\ length P = 3
    /\ Forall (fun row => exists p, row = [sub one p; p] /\ np_sum row = one) P.
Proof.
  eexists. split; [reflexivity|]. split; [reflexivity|].
  apply (predict_proba_rows_sum_to_one Examples.klr0 Examples.batch0). reflexivity.
Defined.

Lemma klr_predict_is_argmax_of_proba_witness :
  exists P,
    BinaryKernelLogisticRegression.predict_proba Examples.klr0 Examples.batch0 = OK P
    /\ BinaryKernelLogisticRegression.predict Examples.klr0 Examples.batch0
       = OK (map label_of_proba P).
Proof.
  eexists. split; [reflexivity|].
  apply (klr_predict_is_argmax_of_proba Examples.klr0 Examples.batch0). reflexivity.
Defined.

Lemma klr_proba_is_sigmoid_of_explanation_witness :
  exists row,
    BinaryKernelLogisticRegression.explain Examples.klr0 Examples.query0 = OK [row]
    /\ BinaryKernelLogisticRegression.predict_proba Examples.klr0 Examples.query0
       = OK [[sub one (BinaryKernelLogisticRegression._sigmoid (np_sum row));
              BinaryKernelLogisticRegression._sigmoid (np_sum row)]].
Proof.
  apply (klr_proba_is_sigmoid_of_explanation (est := Examples.klr0)).
  - exact klr0_fitted.
  - reflexivity.
Defined.

Lemma blocked_predict_proba_equals_one_block_witness :
  exists pos,
    BinaryKernelLogisticRegression.block_proba Examples.klr0 Examples.batch0 = OK pos
    /\ length pos = 3
    /\ BinaryKernelLogisticRegression.predict_proba Examples.klr0 Examples.batch0
       = OK (BinaryKernelLogisticRegression.two_columns pos).
Proof.
  apply (proj2 (blocked_predict_proba_equals_one_block Examples.batch0 klr0_fitted)).
  - discriminate.
  - split; [simpl; lia | repeat constructor].
Defined.

(** ** Edge behaviour and shape of the dispatchers *)

Section DispatcherFacts.
Context {Sc : Scalar}.

(** X9. [explain] with target labels of another length than the batch raises
    [AssertionError], in both dispatchers. *)
Theorem dispatcher_explain_checks_label_count :
  (forall (self : SVM.t) (X : Matrix) (y : list Z),
     length y <> length X ->
     SVM.explain self X (Some y) = Raise AssertionError)
  /\ (forall (self : KernelLogisticRegression.t) (X : Matrix) (y : list Z),
        length y <> length X ->
        KernelLogisticRegression.explain self X (Some y) = Raise AssertionError).
Proof.
  split; intros self X y H.
  - unfold SVM.explain. cbn [bind].
    destruct (Nat.eqb_spec (length y) (length X)); [contradiction | reflexivity].
  - unfold KernelLogisticRegression.explain. cbn [bind].
    destruct (Nat.eqb_spec (length y) (length X)); [contradiction | reflexivity].
Qed.

(** X10. [explain] of a batch without rows raises [ValueError]: nothing is
    there to stack, however many estimators the dispatcher holds. *)
Theorem dispatcher_explain_empty_batch :
  (forall (self : SVM.t) (y0 : option (list Z)),
     svm_targets self [] y0 = OK [] ->
     SVM.explain self [] y0 = Raise ValueError)
  /\ (forall (self : KernelLogisticRegression.t) (y0 : option (list Z)),
        klr_targets self [] y0 = OK [] ->
        KernelLogisticRegression.explain self [] y0 = Raise ValueError).
Proof.
  split; intros self y0 Hy.
  - unfold SVM.explain. unfold svm_targets in Hy. rewrite Hy. cbn [bind length Nat.eqb assert seq mapM].
    destruct (1 <? length (SVM.estimators_ (SVM.ovr_ self))); reflexivity.
  - unfold KernelLogisticRegression.explain. unfold klr_targets in Hy. rewrite Hy.
    cbn [bind length Nat.eqb assert seq mapM].
    destruct (1 <? length (KernelLogisticRegression.estimators_
                             (KernelLogisticRegression.ovr_ self))); reflexivity.
Qed.

Lemma one_row_blocks_length {B R : Type} (rows : B -> list R) (blocks : list B) :
  Forall (fun b => exists r, rows b = [r]) blocks ->
  length (concat (map rows blocks)) = length blocks.
Proof.
  induction 1 as [|b blocks (r & Hr) _ IH]; [reflexivity|].
  cbn [map concat]. rewrite Hr. simpl. f_equal. exact IH.
Qed.

Lemma scale_rows_length {A : Type} (neg : A -> A) (idx : list nat) (rows rows' : list A) :
  scale_rows neg idx rows = OK rows' -> length rows' = length rows.
Proof.
  unfold scale_rows. destruct (forallb _ _); [|discriminate].
  intros H. injection H as <-.
  generalize 0. induction rows as [|r rows IH]; intros k; [reflexivity|].
  simpl. f_equal. apply IH.
Qed.

(** X11. When [explain] returns, the result has exactly one row per query
    instance, in both dispatchers. *)
Theorem dispatcher_explain_one_row_per_query :
  (forall (self : SVM.t) (X : Matrix) (y0 : option (list Z)) (result : csr_matrix),
     SVM.explain self X y0 = OK result ->
     length (csr_rows result) = length X)
  /\ (forall (self : KernelLogisticRegression.t) (X : Matrix) (y0 : option (list Z))
             (result : Matrix),
        KernelLogisticRegression.explain self X y0 = OK result ->
        length result = length X).
Proof.
  split.
  - intros self X y0 result H. unfold SVM.explain in H.
    apply bind_ok_inv in H as (y & _ & H).
    apply bind_ok_inv in H as (u & _ & H).
    destruct (1 <? length (SVM.estimators_ (SVM.ovr_ self))).
    + apply bind_ok_inv in H as (blocks & Hblocks & Hstack).
      rewrite (sps_vstack_rows _ Hstack), one_row_blocks_length.
      * rewrite (mapM_length _ _ Hblocks). apply length_seq.
      * eapply Forall_impl; [|exact (mapM_all _ _ Hblocks)].
        intros b (j & Hj).
        apply bind_ok_inv in Hj as (? & _ & Hj).
        apply bind_ok_inv in Hj as (? & _ & Hj).
        apply bind_ok_inv in Hj as (? & _ & Hj).
        eapply svm_explain_one_row; eauto.
    + apply bind_ok_inv in H as (blocks & Hblocks & H).
      apply bind_ok_inv in H as (stacked & Hstack & H).
      apply bind_ok_inv in H as (rows & Hrows & H). injection H as <-.
      cbn [csr_rows]. rewrite (scale_rows_length _ _ _ Hrows).
      rewrite (sps_vstack_rows _ Hstack), one_row_blocks_length.
      * rewrite (mapM_length _ _ Hblocks). apply length_seq.
      * eapply Forall_impl; [|exact (mapM_all _ _ Hblocks)].
        intros b (j & Hj).
        apply bind_ok_inv in Hj as (? & _ & Hj).
        apply bind_ok_inv in Hj as (? & _ & Hj).
        eapply svm_explain_one_row; eauto.
  - intros self X y0 result H. unfold KernelLogisticRegression.explain in H.
    apply bind_ok_inv in H as (y & _ & H).
    apply bind_ok_inv in H as (u & _ & H).
    destruct (1 <? length (KernelLogisticRegression.estimators_
                             (KernelLogisticRegression.ovr_ self))).
    + apply bind_ok_inv in H as (blocks & Hblocks & Hstack).
      rewrite (np_vstack_rows _ Hstack).
      etransitivity; [apply (one_row_blocks_length (fun b : Matrix => b)) |].
      2: rewrite (mapM_length _ _ Hblocks); apply length_seq.
      eapply Forall_impl; [|exact (mapM_all _ _ Hblocks)].
      intros b (j & Hj).
      apply bind_ok_inv in Hj as (? & _ & Hj).
      apply bind_ok_inv in Hj as (? & _ & Hj).
      apply bind_ok_inv in Hj as (? & _ & Hj).
      eapply klr_explain_one_row; eauto.
    + apply bind_ok_inv in H as (blocks & Hblocks & H).
      apply bind_ok_inv in H as (stacked & Hstack & Hrows).
      rewrite (scale_rows_length _ _ _ Hrows).
      rewrite (np_vstack_rows _ Hstack).
      etransitivity; [apply (one_row_blocks_length (fun b : Matrix => b)) |].
      2: rewrite (mapM_length _ _ Hblocks); apply length_seq.
      eapply Forall_impl; [|exact (mapM_all _ _ Hblocks)].
      intros b (j & Hj).
      apply bind_ok_inv in Hj as (? & _ & Hj).
      apply bind_ok_inv in Hj as (? & _ & Hj).
      eapply klr_explain_one_row; eauto.
Qed.

End DispatcherFacts.

Lemma dispatcher_explain_checks_label_count_witness :
  SVM.explain Examples.svm_three Examples.batch0 (Some [2; 0]%Z) = Raise AssertionError.
Proof.
  apply (proj1 dispatcher_explain_checks_label_count). simpl. lia.
Defined.

Lemma dispatcher_explain_empty_batch_witness :
  SVM.explain Examples.svm_three [] None = Raise ValueError
  /\ KernelLogisticRegression.explain Examples.klr_two [] (Some []) = Raise ValueError.
Proof.
  split.
  - apply (proj1 dispatcher_explain_empty_batch). reflexivity.
  - apply (proj2 dispatcher_explain_empty_batch). reflexivity.
Defined.

Lemma dispatcher_explain_one_row_per_query_witness :
  exists result,
    SVM.explain Examples.svm_two Examples.batch0 None = OK result
    /\ length (csr_rows result) = 3.
Proof.
  eexists. split; [reflexivity|].
  apply (proj1 dispatcher_explain_one_row_per_query Examples.svm_two Examples.batch0 None).
  reflexivity.
Defined.

(** ** Weights and similarities of the dispatchers *)

Section DispatcherWeightFacts.
Context {Sc : Scalar}.

Lemma svm_get_weight_rows (ests : list BinarySVM.t) (ws : list csr_matrix) :
  mapM BinarySVM.get_weight ests = OK ws ->
  concat (map csr_rows ws) = map weight_row ests.
Proof.
  revert ws. induction ests as [|e ests IH]; simpl; intros ws H.
  - injection H as <-. reflexivity.
  - apply bind_ok_inv in H as (w & Hw & H).
    apply bind_ok_inv in H as (ws' & Hws & H). injection H as <-.
    cbn [map concat]. rewrite (IH _ Hws).
    unfold BinarySVM.get_weight, csr_one_row in Hw.
    destruct (_ =? _); [|discriminate]. injection Hw as <-. reflexivity.
Qed.

(** X12. [get_weight] of a dispatcher stacks the weights of its binary
    estimators, one row per estimator in their order; with no estimator
    it raises [ValueError]. *)
Theorem dispatcher_get_weight_stacks_estimators :
  (forall (self : SVM.t) (W : csr_matrix),
     SVM.get_weight self = OK W ->
     csr_rows W = map weight_row (SVM.estimators_ (SVM.ovr_ self))
     /\ SVM.estimators_ (SVM.ovr_ self) <> [])
  /\ (forall self : SVM.t,
        SVM.estimators_ (SVM.ovr_ self) = [] ->
        SVM.get_weight self = Raise ValueError)
  /\ (forall (self : KernelLogisticRegression.t) (W : Matrix),
        KernelLogisticRegression.get_weight self = OK W ->
        W = map BinaryKernelLogisticRegression.coef_
              (KernelLogisticRegression.estimators_ (KernelLogisticRegression.ovr_ self))
        /\ KernelLogisticRegression.estimators_ (KernelLogisticRegression.ovr_ self) <> [])
  /\ (forall self : KernelLogisticRegression.t,
        KernelLogisticRegression.estimators_ (KernelLogisticRegression.ovr_ self) = [] ->
        KernelLogisticRegression.get_weight self = Raise ValueError).
Proof.
  split; [|split; [|split]].
  - intros self W H. unfold SVM.get_weight in H.
    apply bind_ok_inv in H as (ws & Hws & Hstack).
    rewrite (sps_vstack_rows _ Hstack), (svm_get_weight_rows _ Hws).
    split; [reflexivity|].
    intros E. rewrite E in Hws. simpl in Hws. injection Hws as <-. discriminate.
  - intros self E. unfold SVM.get_weight. rewrite E. reflexivity.
  - intros self W H. unfold KernelLogisticRegression.get_weight in H.
    split.
    + rewrite (np_vstack_rows _ H), map_id.
      unfold BinaryKernelLogisticRegression.get_weight. clear H.
      induction (KernelLogisticRegression.estimators_ (KernelLogisticRegression.ovr_ self))
        as [|e ests IH]; [reflexivity|].
      cbn [map concat app]. f_equal. exact IH.
    + intros E. rewrite E in H. discriminate.
  - intros self E. unfold KernelLogisticRegression.get_weight. rewrite E. reflexivity.
Qed.

Lemma take_rows_out_of_range {A : Type} (X : list A) (idx : list nat) :
  Exists (fun i => length X <= i) idx -> take_rows X idx = Raise IndexError.
Proof.
  unfold take_rows. induction idx as [|i idx IH]; intros H; [inversion H|].
  cbn [mapM].
  destruct (nth_error X i) as [a|] eqn:Ea; [|reflexivity].
  cbn [bind].
  inversion H as [? ? Hi | ? ? Hrest]; subst.
  - apply nth_error_None in Hi. congruence.
  - rewrite (IH Hrest). reflexivity.
Qed.

Lemma registry_kernel_columns (K : Vec -> Vec -> num) (X T S : Matrix) (idx : list nat) :
  registry_kernel K X T = OK S ->
  idx <> [] ->
  Forall (fun i => i < length T) idx ->
  registry_kernel K X (map (fun i => nth i T []) idx) = OK (select_columns idx S).
Proof.
  intros HS Hne Hidx. unfold registry_kernel in *.
  apply bind_ok_inv in HS as (u & Hu & HS). injection HS as <-.
  unfold check_pairwise_arrays in *.
  destruct X as [|x X]; [discriminate|].
  destruct idx as [|i0 idx]; [congruence|].
  remember (i0 :: idx) as l eqn:El.
  assert (Hl : map (fun i => nth i T []) l <> []) by (subst l; discriminate).
  destruct (map (fun i => nth i T []) l) as [|t0 ts] eqn:Em; [congruence|].
  cbn [bind]. rewrite <- Em. f_equal. unfold select_columns, pairwise.
  rewrite map_map. apply map_ext. intros r.
  rewrite map_map. apply map_ext_in. intros i Hi.
  rewrite Forall_forall in Hidx. specialize (Hidx i Hi).
  symmetry. apply (nth_map_lt (K r) T [] zero Hidx).
Qed.

(** X13. [similarity(X, train_indices)] is [similarity(X)] restricted to the
    columns [train_indices], in their order, for indices inside the
    training set; an index outside of it raises [IndexError]. *)
Theorem similarity_of_indices_selects_columns :
  (forall (self : SVM.t) (X S : Matrix) (idx : list nat),
     SVM.similarity self X None = OK S ->
     idx <> [] ->
     Forall (fun i => i < length (SVM.X_train_ self)) idx ->
     SVM.similarity self X (Some idx) = OK (select_columns idx S))
  /\ (forall (self : KernelLogisticRegression.t) (X S : Matrix) (idx : list nat),
        KernelLogisticRegression.similarity self X None = OK S ->
        idx <> [] ->
        Forall (fun i => i < length (KernelLogisticRegression.X_train_ self)) idx ->
        KernelLogisticRegression.similarity self X (Some idx) = OK (select_columns idx S))
  /\ (forall (self : SVM.t) (X : Matrix) (idx : list nat),
        Exists (fun i => length (SVM.X_train_ self) <= i) idx ->
        SVM.similarity self X (Some idx) = Raise IndexError)
  /\ (forall (self : KernelLogisticRegression.t) (X : Matrix) (idx : list nat),
        Exists (fun i => length (KernelLogisticRegression.X_train_ self) <= i) idx ->
        KernelLogisticRegression.similarity self X (Some idx) = Raise IndexError).
Proof.
  split; [|split; [|split]].
  - intros self X S idx HS Hne Hidx. unfold SVM.similarity in *. cbn [bind] in HS.
    rewrite (take_rows_ok (A:=Vec) [] _ Hidx). cbn [bind].
    unfold SVM.call_kernel_func_ in *.
    destruct (SVM.kernel_func_ self).
    + apply bind_ok_inv in HS as (g & Hg & HS). rewrite Hg. cbn [bind].
      apply registry_kernel_columns; assumption.
    + apply bind_ok_inv in HS as (g & Hg & HS). rewrite Hg. cbn [bind].
      apply registry_kernel_columns; assumption.
    + apply bind_ok_inv in HS as (g & Hg & HS). rewrite Hg. cbn [bind].
      apply registry_kernel_columns; assumption.
    + apply registry_kernel_columns; assumption.
  - intros self X S idx HS Hne Hidx.
    unfold KernelLogisticRegression.similarity in *. cbn [bind] in HS.
    rewrite (take_rows_ok (A:=Vec) [] _ Hidx). cbn [bind].
    apply registry_kernel_columns; assumption.
  - intros self X idx H. unfold SVM.similarity.
    rewrite (take_rows_out_of_range _ H). reflexivity.
  - intros self X idx H. unfold KernelLogisticRegression.similarity.
    rewrite (take_rows_out_of_range _ H). reflexivity.
Qed.

End DispatcherWeightFacts.

Lemma dispatcher_get_weight_stacks_estimators_witness :
  exists W,
    SVM.get_weight Examples.svm_three = OK W
    /\ toarray W = [[1; 0; 1]; [2; 0; -1]; [0; 0; 3]]%Z
    /\ csr_rows W = map weight_row (SVM.estimators_ (SVM.ovr_ Examples.svm_three)).
Proof.
  eexists. split; [reflexivity|]. split; [reflexivity|].
  apply (proj1 dispatcher_get_weight_stacks_estimators Examples.svm_three). reflexivity.
Defined.

Lemma similarity_of_indices_selects_columns_witness :
  SVM.similarity Examples.svm_two Examples.batch0 None
    = OK [[3; 4; 7]; [1; 1; 2]; [0; 2; 2]]%Z
  /\ SVM.similarity Examples.svm_two Examples.batch0 (Some [2; 0])
     = OK (select_columns [2; 0] [[3; 4; 7]; [1; 1; 2]; [0; 2; 2]]%Z)
  /\ SVM.similarity Examples.svm_two Examples.batch0 (Some [1; 3]) = Raise IndexError.
Proof.
  split; [reflexivity|]. split.
  - apply (proj1 similarity_of_indices_selects_columns Examples.svm_two Examples.batch0).
    + reflexivity.
    + discriminate.
    + simpl. repeat constructor.
  - apply (proj1 (proj2 (proj2 similarity_of_indices_selects_columns))
             Examples.svm_two Examples.batch0).
    simpl. right. left. simpl. lia.
Defined.

(** ** What [fit] of the dispatchers stores *)

Section DispatcherFitFacts.
Context {Sc : Scalar}.
Variable OneVsRest_fit : BinarySVM.params -> Matrix -> list Z -> res SVM.OVR.

(** X14. [SVM.fit] rejects a kernel name outside of the four known ones with
    [AssertionError] before anything is trained; with the linear kernel
    it stores [gamma] as given, whatever it is, and the similarity of the
    fitted model is the plain linear kernel against the training set. *)
Theorem svm_fit_kernel_names (p : SVM.params) (X : Matrix) (y : list Z) :
  (existsb (String.eqb (SVM.kernel p)) ["rbf"; "poly"; "sigmoid"; "linear"]%string = false ->
   SVM.fit OneVsRest_fit p X y = Raise AssertionError)
  /\ (SVM.kernel p = "linear"%string ->
      forall self, SVM.fit OneVsRest_fit p X y = OK self ->
        SVM.gamma_ self = SVM.gamma p
        /\ SVM.X_train_ self = X
        /\ forall X', SVM.similarity self X' None = linear_kernel X' X).
Proof.
  split.
  - intros H. unfold SVM.fit, SVM._create_kernel_callable. rewrite H. reflexivity.
  - intros Hk self H. unfold SVM.fit, SVM._create_kernel_callable in H.
    rewrite Hk in H. cbn in H.
    apply bind_ok_inv in H as (ovr & _ & H). injection H as <-.
    split; [reflexivity|]. split; reflexivity.
Qed.

End DispatcherFitFacts.

Lemma svm_fit_kernel_names_witness :
  SVM.fit MoreExamples.svm_ovr_stub Examples.svm_linear_params Examples.train0 [0; 1; 1]%Z
    = OK Examples.svm_two
  /\ SVM.gamma_ Examples.svm_two = GammaStr "scale"
  /\ SVM.similarity Examples.svm_two Examples.query0 None = OK [[3; 4; 7]]%Z.
Proof.
  split; [reflexivity|].
  destruct (proj2 (svm_fit_kernel_names MoreExamples.svm_ovr_stub
                     Examples.svm_linear_params Examples.train0 [0; 1; 1]%Z)
              eq_refl Examples.svm_two eq_refl) as (Hg & _ & Hs).
  split; [exact Hg|]. rewrite Hs. reflexivity.
Defined.


(** ** Every alpha line of a model file *)

Section AlphaLineFacts.
Context {Sc : Scalar} {E : Env}.
Import PyStr liblinear_util.

Ltac other_branch B :=
  exfalso;
  match type of B with
  | startswith ?l _ = true =>
      let Hf := fresh "Hf" in
      assert (Hf : startswith l "alpha" = false)
        by (eapply not_alpha; [|exact B]; discriminate);
      congruence
  end.

Lemma parse_line_alpha_branch (lines : list string) (st : locals) (i : nat)
    (raw : string) :
  startswith (strip raw) "alpha" = true ->
  parse_line lines st i raw
  = (next <- item lines (i + 1) ;;
     a <- mapM float (split_space (strip next)) ;;
     n <- read_local (nr_sample st) ;;
     _ <- assert (Z.of_nat (length a) =? n)%Z ;;
     OK {| nr_feature := nr_feature st; nr_sample := nr_sample st; alpha := Some a |}).
Proof.
  intros Ha. unfold parse_line. cbv zeta.
  destruct (startswith (strip raw) "solver_type") eqn:B1; [other_branch B1|].
  destruct (startswith (strip raw) "nr_class") eqn:B2; [other_branch B2|].
  destruct (startswith (strip raw) "label") eqn:B3; [other_branch B3|].
  destruct (startswith (strip raw) "nr_feature") eqn:B4; [other_branch B4|].
  destruct (startswith (strip raw) "bias") eqn:B5; [other_branch B5|].
  destruct (startswith (strip raw) "w") eqn:B6; [other_branch B6|].
  destruct (startswith (strip raw) "nr_sample") eqn:B7; [other_branch B7|].
  rewrite Ha. reflexivity.
Qed.

Lemma parse_line_alpha_same (lines : list string) (st st' : locals) (i : nat)
    (raw : string) :
  startswith (strip raw) "alpha" = false ->
  parse_line lines st i raw = OK st' ->
  alpha st' = alpha st.
Proof.
  intros Ha. unfold parse_line. cbv zeta. rewrite Ha.
  repeat match goal with
         | |- (if ?b then _ else _) = OK _ -> _ => destruct b
         end;
    intros H;
    repeat (apply bind_ok_inv in H as (? & _ & H));
    injection H as <-; reflexivity.
Qed.

Lemma last_alpha_inv_step (lines : list string) (st st' : locals) (i : nat)
    (raw : string) :
  nth_error lines i = Some raw ->
  locals_inv lines i st ->
  last_alpha_inv lines i st ->
  parse_line lines st i raw = OK st' ->
  last_alpha_inv lines (S i) st'.
Proof.
  intros Hraw Hloc (Hall & Hlast) Hline.
  destruct (startswith (strip raw) "alpha") eqn:Ha.
  - rewrite (parse_line_alpha_branch lines st i raw Ha) in Hline.
    apply bind_ok_inv in Hline as (next & Hnext & Hline).
    apply bind_ok_inv in Hline as (a & Hfloat & Hline).
    apply bind_ok_inv in Hline as (n & Hn & Hline).
    apply bind_ok_inv in Hline as (u & Hu & Hline).
    injection Hline as <-. cbn [alpha] in *.
    apply item_ok_inv in Hnext. rewrite Nat.add_1_r in Hnext.
    apply assert_ok_inv in Hu. apply Z.eqb_eq in Hu.
    unfold read_local in Hn.
    destruct (nr_sample st) as [n0|] eqn:En; [|discriminate].
    injection Hn as ->.
    destruct Hloc as (Hsample & _ & _).
    destruct (Hsample n En) as (j & Hj & Hdecl).
    assert (Hhere : alpha_block_at lines i a).
    { split; [exists raw; split; assumption|].
      split; [exists next; split; assumption|].
      exists j. split; [exact Hj|]. rewrite Hu. exact Hdecl. }
    split.
    + intros k Hk Hal. destruct (Nat.eq_dec k i) as [->|Hne].
      * exists a. exact Hhere.
      * apply Hall; [lia | exact Hal].
    + intros a' Ha'. injection Ha' as <-. exists i.
      split; [lia|]. split; [exact Hhere|]. intros k' H1 H2. lia.
  - assert (Hnot : ~ alpha_line_at lines i).
    { intros (raw' & Hraw' & Hal). rewrite Hraw in Hraw'. injection Hraw' as <-.
      congruence. }
    rewrite <- (parse_line_alpha_same _ _ _ _ Ha Hline) in Hlast.
    split.
    + intros k Hk Hal. destruct (Nat.eq_dec k i) as [->|Hne]; [contradiction|].
      apply Hall; [lia | exact Hal].
    + intros a Hsome. destruct (Hlast a Hsome) as (k & Hk & Hb & Hafter).
      exists k. split; [lia|]. split; [exact Hb|].
      intros k' H1 H2. destruct (Nat.eq_dec k' i) as [->|Hne]; [exact Hnot|].
      apply Hafter; lia.
Qed.

Lemma parse_loop_last_alpha (lines : list string) :
  forall (rest : list string) (i : nat) (st st' : locals),
    (forall j raw, nth_error rest j = Some raw -> nth_error lines (i + j) = Some raw) ->
    locals_inv lines i st ->
    last_alpha_inv lines i st ->
    parse_loop lines st i rest = OK st' ->
    last_alpha_inv lines (i + length rest) st'.
Proof.
  induction rest as [|raw rest IH]; intros i st st' Hrest Hloc Hinv H.
  - simpl in H. injection H as <-. rewrite Nat.add_0_r. exact Hinv.
  - simpl in H. apply bind_ok_inv in H as (st1 & Hline & Hloop).
    assert (Hraw : nth_error lines i = Some raw).
    { rewrite <- (Nat.add_0_r i). apply Hrest. reflexivity. }
    simpl length. replace (i + S (length rest)) with (S i + length rest) by lia.
    apply (IH (S i) st1 st').
    + intros j raw' Hj. replace (S i + j) with (i + S j) by lia. apply Hrest. exact Hj.
    + exact (parse_line_inv Hraw Hloc Hline).
    + exact (last_alpha_inv_step Hraw Hloc Hinv Hline).
    + exact Hloop.
Qed.

Lemma parse_model_lines_last_alpha (lines : list string) (r : option Vec) :
  parse_model_lines lines = OK r ->
  exists st, alpha st = r /\ last_alpha_inv lines (length lines) st.
Proof.
  unfold parse_model_lines. intros H.
  apply bind_ok_inv in H as (st & Hloop & H). injection H as <-.
  exists st. split; [reflexivity|].
  apply (@parse_loop_last_alpha lines lines 0
           {| nr_feature := None; nr_sample := None; alpha := None |} st).
  - intros j raw Hj. exact Hj.
  - repeat split; cbn [nr_sample alpha]; try discriminate. intros _ k Hk. lia.
  - split; [intros k Hk; lia | cbn [alpha]; discriminate].
  - exact Hloop.
Qed.

Lemma alpha_line_in_file (lines : list string) (k : nat) :
  alpha_line_at lines k -> k < length lines.
Proof.
  intros (raw & Hraw & _). apply nth_error_Some. congruence.
Qed.

(** X17. When [parse_model_file] returns, every alpha line of the file, not
    only the one whose coefficients are returned, is followed by a line
    of numbers whose count an earlier [nr_sample] line declares.  So a
    file whose last line is an alpha line, or whose alpha line comes
    before every [nr_sample] line, is never parsed. *)
Theorem parse_model_checks_every_alpha_line (lines : list string) (r : option Vec)
    (k : nat) :
  parse_model_lines lines = OK r ->
  alpha_line_at lines k ->
  S k < length lines
  /\ (exists j n, j < k /\ nr_sample_at lines j n)
  /\ exists a, alpha_block_at lines k a.
Proof.
  intros H Hal.
  destruct (parse_model_lines_last_alpha _ H) as (st & _ & Hall & _).
  destruct (Hall k (alpha_line_in_file Hal) Hal) as (a & Hb).
  pose proof Hb as (_ & (next & Hnext & _) & (j & Hj & Hdecl)).
  split; [apply nth_error_Some; congruence|].
  split; [exists j, (Z.of_nat (length a)); split; assumption|].
  exists a. exact Hb.
Qed.

(** X18. When [parse_model_file] returns coefficients from a file with several
    alpha lines, they are those of the last alpha line. *)
Theorem parse_model_returns_last_alpha_block (lines : list string) (a : Vec) :
  parse_model_lines lines = OK (Some a) ->
  exists k, alpha_block_at lines k a
            /\ forall k', k < k' -> ~ alpha_line_at lines k'.
Proof.
  intros H.
  destruct (parse_model_lines_last_alpha _ H) as (st & Hst & _ & Hlast).
  destruct (Hlast a Hst) as (k & Hk & Hb & Hafter).
  exists k. split; [exact Hb|].
  intros k' Hlt Hal. apply (Hafter k' Hlt); [|exact Hal].
  exact (alpha_line_in_file Hal).
Qed.

End AlphaLineFacts.

Lemma parse_model_checks_every_alpha_line_witness :
  liblinear_util.parse_model_lines (E := Examples.TestEnv) MoreExamples.model_two_alpha
    = OK (Some [2; 0; -1]%Z)
  /\ 2 < length MoreExamples.model_two_alpha
  /\ exists a, alpha_block_at (E := Examples.TestEnv) MoreExamples.model_two_alpha 1 a.
Proof.
  split; [reflexivity|].
  destruct (parse_model_checks_every_alpha_line (E := Examples.TestEnv)
              (lines := MoreExamples.model_two_alpha) (r := Some [2; 0; -1]%Z) (k := 1)
              eq_refl)
    as (Hlen & _ & Hb).
  - exists (Examples.line "alpha"). split; reflexivity.
  - split; [exact Hlen | exact Hb].
Defined.

Lemma parse_model_returns_last_alpha_block_witness :
  exists k, alpha_block_at (E := Examples.TestEnv) MoreExamples.model_two_alpha k [2; 0; -1]%Z
            /\ forall k', k < k' -> ~ alpha_line_at MoreExamples.model_two_alpha k'.
Proof.
  apply (parse_model_returns_last_alpha_block (E := Examples.TestEnv)
           MoreExamples.model_two_alpha).
  reflexivity.
Defined.

(** The two files that the theorem on alpha lines excludes are rejected
    with [IndexError] and [UnboundLocalError]. *)
Example parse_model_rejects_dangling_alpha :
  liblinear_util.parse_model_lines (E := Examples.TestEnv) MoreExamples.model_alpha_last
    = Raise IndexError
  /\ liblinear_util.parse_model_lines (E := Examples.TestEnv)
       MoreExamples.model_alpha_undeclared
     = Raise UnboundLocalError.
Proof. split; reflexivity. Qed.

(** ** The shape of what the prediction parsers return *)

Section PredictionShapeFacts.
Context {Sc : Scalar} {E : Env}.
Import PyStr liblinear_util.

Lemma minus_to_zero_binary (l : list Z) :
  Forall (fun v => v = 0%Z \/ v = 1%Z) (minus_to_zero l).
Proof.
  unfold minus_to_zero. apply Forall_forall. intros v Hv.
  apply in_map_iff in Hv as (x & <- & _). destruct (x =? -1)%Z; auto.
Qed.

(** X19. When [parse_lr_predictions] returns, the first line of the file is
    one of the two label headers, there is one label and one probability
    row per further line, and row [i] is [[p0, p1]] where [p1] is the
    second and [p0] the third token of line [i + 1]: the two columns are
    swapped with respect to the file.  With [minus_to_zeros] every label
    is 0 or 1. *)
Theorem parse_lr_predictions_shape (lines : list string) (minus_to_zeros : bool)
    (labels : list Z) (proba : Matrix) :
  parse_lr_lines lines minus_to_zeros = OK (labels, proba) ->
  (nth_error lines 0 = Some ("labels 1 -1" ++ nl)%string
   \/ nth_error lines 0 = Some ("labels 1 0" ++ nl)%string)
  /\ length labels = length lines - 1
  /\ length proba = length lines - 1
  /\ (forall i row, nth_error proba i = Some row ->
        exists p_str t1 t2 p1 p0,
          nth_error lines (S i) = Some p_str
          /\ nth_error (split_space (strip p_str)) 1 = Some t1
          /\ nth_error (split_space (strip p_str)) 2 = Some t2
          /\ float t1 = OK p1 /\ float t2 = OK p0
          /\ row = [p0; p1])
  /\ (minus_to_zeros = true -> Forall (fun v => v = 0%Z \/ v = 1%Z) labels).
Proof.
  unfold parse_lr_lines. intros H.
  apply bind_ok_inv in H as (h & Hh & H).
  apply bind_ok_inv in H as (u & Hu & H).
  apply bind_ok_inv in H as (rows & Hrows & H).
  injection H as <- <-.
  apply item_ok_inv in Hh. apply assert_ok_inv in Hu.
  pose proof (mapM_length _ _ Hrows) as Hlen. rewrite length_skipn in Hlen.
  split.
  { apply orb_true_iff in Hu as [Hu|Hu]; apply String.eqb_eq in Hu; subst h; auto. }
  split.
  { destruct minus_to_zeros; unfold minus_to_zero; rewrite ?length_map; exact Hlen. }
  split; [rewrite length_map; exact Hlen|].
  split.
  - intros i row Hrow. rewrite nth_error_map in Hrow.
    destruct (nth_error rows i) as [r|] eqn:Er; [|discriminate].
    injection Hrow as <-.
    destruct (mapM_nth_error_inv _ _ Hrows i Er) as (p_str & Hp & Hline).
    unfold parse_lr_line in Hline. cbv zeta in Hline.
    apply bind_ok_inv in Hline as (i0 & _ & Hline).
    apply bind_ok_inv in Hline as (l0 & _ & Hline).
    apply bind_ok_inv in Hline as (i1 & Hi1 & Hline).
    apply bind_ok_inv in Hline as (p1 & Hp1 & Hline).
    apply bind_ok_inv in Hline as (i2 & Hi2 & Hline).
    apply bind_ok_inv in Hline as (p0 & Hp0 & Hline).
    injection Hline as <-.
    exists p_str, i1, i2, p1, p0.
    split; [rewrite <- Hp; destruct lines; [destruct i|]; reflexivity|].
    auto using item_ok_inv.
  - intros ->. apply minus_to_zero_binary.
Qed.

(** X20. The labels that [BinaryKernelLogisticRegression.fit] writes for the
    solver come back unchanged through [minus_to_zeros]: for training
    labels in {0, 1}, remapping the solver's -1 to 0 undoes the
    remapping of 0 to -1. *)
Theorem liblinear_labels_round_trip (y : list Z) :
  Forall (fun v => v = 0%Z \/ v = 1%Z) y ->
  minus_to_zero (y_liblinear y) = y.
Proof.
  unfold minus_to_zero, y_liblinear. intros H. rewrite map_map.
  induction H as [|v y [-> | ->] _ IH]; [reflexivity| |]; cbn [map]; rewrite IH;
    reflexivity.
Qed.

End PredictionShapeFacts.

Lemma parse_lr_predictions_shape_witness :
  liblinear_util.parse_lr_lines (E := Examples.TestEnv) Examples.prediction_1_m1 true
    = OK ([0; 1]%Z, [[1; 0]; [0; 1]]%Z)
  /\ length [0; 1]%Z = length Examples.prediction_1_m1 - 1
  /\ Forall (fun v => v = 0%Z \/ v = 1%Z) [0; 1]%Z.
Proof.
  split; [reflexivity|].
  destruct (parse_lr_predictions_shape (E := Examples.TestEnv)
              Examples.prediction_1_m1 true (labels := [0; 1]%Z)
              (proba := [[1; 0]; [0; 1]]%Z) eq_refl)
    as (_ & Hlen & _ & _ & Hbin).
  split; [exact Hlen | exact (Hbin eq_refl)].
Defined.

Lemma liblinear_labels_round_trip_witness :
  y_liblinear [0; 1; 1; 0]%Z = [-1; 1; 1; -1]%Z
  /\ liblinear_util.minus_to_zero (y_liblinear [0; 1; 1; 0]%Z) = [0; 1; 1; 0]%Z.
Proof.
  split; [reflexivity|].
  apply (liblinear_labels_round_trip (y := [0; 1; 1; 0]%Z)).
  repeat (apply Forall_cons; [auto|]). apply Forall_nil.
Defined.

(** ** Short feature names *)

Section ShortNameFacts.
Import misclassification.
Local Open Scope string_scope.

Lemma replace_get_short (f short : string) :
  replace_get f = Some short -> replace_get short = None.
Proof.
  unfold replace_get, replace. cbn [find fst snd].
  repeat match goal with
         | |- context [String.eqb ?k f] =>
             destruct (String.eqb_spec k f) as [<-|_];
             [intros H; injection H as <-; reflexivity|]
         end.
  discriminate.
Qed.

(** X21. [_get_short_names] keeps the number and the order of the names,
    leaves a name outside of its table as it is, and shortening twice is
    shortening once: no short name is itself a key of the table. *)
Theorem get_short_names_idempotent (feature : list string) :
  length (_get_short_names feature) = length feature
  /\ (forall i f, nth_error feature i = Some f -> replace_get f = None ->
        nth_error (_get_short_names feature) i = Some f)
  /\ _get_short_names (_get_short_names feature) = _get_short_names feature.
Proof.
  unfold _get_short_names. split; [apply length_map|]. split.
  - intros i f Hf Hnone. rewrite nth_error_map, Hf. cbn. rewrite Hnone. reflexivity.
  - rewrite map_map. apply map_ext. intros f.
    destruct (replace_get f) as [short|] eqn:Ef.
    + rewrite (replace_get_short _ Ef). reflexivity.
    + rewrite Ef. reflexivity.
Qed.

End ShortNameFacts.

Lemma get_short_names_idempotent_witness :
  misclassification._get_short_names
    ["dct03_a_baseline_ta1"; "tallc"; "p_ta11c_1_0_mediforsystem"]%string
  = ["dct03"; "tallc"; "tallc"]%string
  /\ nth_error (misclassification._get_short_names
                  ["dct03_a_baseline_ta1"; "tallc"; "p_ta11c_1_0_mediforsystem"]%string) 1
     = Some "tallc"%string.
Proof.
  split; [reflexivity|].
  apply (proj1 (proj2 (get_short_names_idempotent
                         ["dct03_a_baseline_ta1"; "tallc";
                          "p_ta11c_1_0_mediforsystem"]%string)) 1 "tallc"%string);
    reflexivity.
Defined.


(** With [n_check = 0] or a block size of 0, [fit] returns no estimator,
    although the solver has delivered. *)
Example fit_without_rows_to_check :
  BinarySVM.fit Examples.SVC_fit1 Examples.list_eqb Examples.list_eqb
    Examples.svm_params0 Examples.train0 [1; 0; 1]%Z 0 = Raise ValueError
  /\ BinarySVM.fit Examples.SVC_fit1 Examples.list_eqb Examples.list_eqb
       (BinarySVM.hyper (MoreExamples.svm_block_size 0)) Examples.train0 [1; 0; 1]%Z 10
     = Raise ValueError.
Proof. split; reflexivity. Qed.
